(** * CryptoPanic scraper: fetch, filter, paginate, persist

    A shallow embedding of [cryptopanic_scraper.py] (class
    [CryptoPanicScraper]: [fetch_news], [save_to_files], [run]) and of its
    driver [main.py] ([load_info], [main]), together with the properties
    the design document states about them.

    Conventions of the embedding.
    - Python [int] is [Z]; [str] is [string], read as the UTF-8 bytes of
      the text; a [dict] read with [.get] is a record of [option] fields.
    - The outside world (HTTP endpoint, S3, local files, the logger) is an
      explicit [World] threaded through the code, plus an [Env] of injected
      collaborators ([requests.get], [datetime.strptime],
      [s3_client.put_object]).
    - [while True] is run with fuel; the outcome says whether the function
      returned or the fuel ran out, and in both cases carries the state
      reached, so that statements about the loop are never vacuous. *)

From Stdlib Require Import ZArith Lia String Ascii List Bool.
From stdpp Require Import gmap strings list.

Local Open Scope Z_scope.

(** String concatenation computes on a literal prefix. *)
#[local] Arguments String.append !_ _ / : simpl nomatch.

(** ** Dates and times *)

Module Datetime.

(** An aware [datetime] whose [tzinfo] is [timezone.utc], as [main.py] and
    [fetch_news] build them with [.replace(tzinfo=timezone.utc)]. *)
Record datetime := mk_datetime {
  year : Z; month : Z; day : Z;
  hour : Z; minute : Z; second : Z; microsecond : Z
}.

Definition fields (d : datetime) : list Z :=
  [year d; month d; day d; hour d; minute d; second d; microsecond d].

(** Tuple comparison, as [_cmp] applies it to the seven fields of two
    datetimes that share their [tzinfo]. *)
Fixpoint tuple_cmp (a b : list Z) : comparison :=
  match a, b with
  | [], [] => Eq
  | [], _ :: _ => Lt
  | _ :: _, [] => Gt
  | x :: a', y :: b' =>
      match x ?= y with
      | Eq => tuple_cmp a' b'
      | c => c
      end
  end.

Definition cmp (a b : datetime) : comparison := tuple_cmp (fields a) (fields b).

(** [a <= b] and [a < b] on datetimes. *)
Definition leb (a b : datetime) : bool :=
  match cmp a b with Gt => false | _ => true end.

Definition ltb (a b : datetime) : bool :=
  match cmp a b with Lt => true | _ => false end.

(** *** Proleptic Gregorian ordinals ([_ymd2ord], [_ord2ymd]) *)

Definition is_leap (y : Z) : bool :=
  (y mod 4 =? 0) && (negb (y mod 100 =? 0) || (y mod 400 =? 0)).

Definition DAYS_IN_MONTH (m : Z) : Z :=
  match m with
  | 1 => 31 | 2 => 28 | 3 => 31 | 4 => 30 | 5 => 31 | 6 => 30
  | 7 => 31 | 8 => 31 | 9 => 30 | 10 => 31 | 11 => 30 | 12 => 31
  | _ => -1
  end.

Definition DAYS_BEFORE_MONTH (m : Z) : Z :=
  match m with
  | 1 => 0 | 2 => 31 | 3 => 59 | 4 => 90 | 5 => 120 | 6 => 151
  | 7 => 181 | 8 => 212 | 9 => 243 | 10 => 273 | 11 => 304 | 12 => 334
  | _ => -1
  end.

Definition days_before_year (y : Z) : Z :=
  let y := y - 1 in y * 365 + y / 4 - y / 100 + y / 400.

Definition days_in_month (y m : Z) : Z :=
  if (m =? 2) && is_leap y then 29 else DAYS_IN_MONTH m.

Definition days_before_month (y m : Z) : Z :=
  DAYS_BEFORE_MONTH m + (if (2 <? m) && is_leap y then 1 else 0).

Definition ymd2ord (y m d : Z) : Z :=
  days_before_year y + days_before_month y m + d.

Definition DI400Y : Z := 146097.
Definition DI100Y : Z := 36524.
Definition DI4Y : Z := 1461.
Definition MAXORDINAL : Z := 3652059.

Definition ord2ymd (n : Z) : Z * Z * Z :=
  let n := n - 1 in
  let n400 := n / DI400Y in
  let n := n mod DI400Y in
  let y := n400 * 400 + 1 in
  let n100 := n / DI100Y in
  let n := n mod DI100Y in
  let n4 := n / DI4Y in
  let n := n mod DI4Y in
  let n1 := n / 365 in
  let n := n mod 365 in
  let y := y + n100 * 100 + n4 * 4 + n1 in
  if (n1 =? 4) || (n100 =? 4) then (y - 1, 12, 31)
  else
    let leapyear := (n1 =? 3) && (negb (n4 =? 24) || (n100 =? 3)) in
    let m := Z.shiftr (n + 50) 5 in
    let preceding :=
      DAYS_BEFORE_MONTH m + (if (2 <? m) && leapyear then 1 else 0) in
    if n <? preceding then
      let m := m - 1 in
      let preceding :=
        preceding - (DAYS_IN_MONTH m + (if (m =? 2) && leapyear then 1 else 0)) in
      (y, m, n - preceding + 1)
    else (y, m, n - preceding + 1).

Definition toordinal (d : datetime) : Z := ymd2ord (year d) (month d) (day d).

(** What the [datetime] constructor checks. *)
Definition valid (d : datetime) : bool :=
  (1 <=? year d) && (year d <=? 9999) &&
  (1 <=? month d) && (month d <=? 12) &&
  (1 <=? day d) && (day d <=? days_in_month (year d) (month d)) &&
  (0 <=? hour d) && (hour d <=? 23) &&
  (0 <=? minute d) && (minute d <=? 59) &&
  (0 <=? second d) && (second d <=? 59) &&
  (0 <=? microsecond d) && (microsecond d <=? 999999).

(** [timedelta], normalised as Python keeps it. *)
Record timedelta := mk_timedelta { days : Z; seconds : Z; microseconds : Z }.

Definition timedelta_days (n : Z) : timedelta := mk_timedelta n 0 0.

Definition total_microseconds (ds secs us : Z) : Z :=
  (ds * 86400 + secs) * 1000000 + us.

(** [d - t], that is [d + (-t)]: [datetime.__add__] turns [d] into a
    timedelta counted from ordinal 0, adds, and splits the sum again with
    [divmod]; a day count outside [1 .. MAXORDINAL] raises [OverflowError]
    ([None] here). *)
Definition sub (d : datetime) (t : timedelta) : option datetime :=
  let total :=
    total_microseconds (toordinal d)
      (hour d * 3600 + minute d * 60 + second d) (microsecond d)
    - total_microseconds (days t) (seconds t) (microseconds t) in
  let ds := total / 86400000000 in
  let rem := total mod 86400000000 in
  let secs := rem / 1000000 in
  let us := rem mod 1000000 in
  let h := secs / 3600 in
  let r := secs mod 3600 in
  if (0 <? ds) && (ds <=? MAXORDINAL) then
    let '(y, m, dd) := ord2ymd ds in
    Some (mk_datetime y m dd h (r / 60) (r mod 60) us)
  else None.

(** The day before [d] in the calendar, at the same time of day. *)
Definition previous_day (d : datetime) : datetime :=
  if 1 <? day d then
    mk_datetime (year d) (month d) (day d - 1)
                (hour d) (minute d) (second d) (microsecond d)
  else if 1 <? month d then
    mk_datetime (year d) (month d - 1) (days_in_month (year d) (month d - 1))
                (hour d) (minute d) (second d) (microsecond d)
  else
    mk_datetime (year d - 1) 12 31
                (hour d) (minute d) (second d) (microsecond d).

(** The last step of [ord2ymd]: month and day from the day of the year. *)
Definition month_day (leapyear : bool) (n : Z) : Z * Z :=
  let m := Z.shiftr (n + 50) 5 in
  let preceding :=
    DAYS_BEFORE_MONTH m + (if (2 <? m) && leapyear then 1 else 0) in
  if n <? preceding then
    let m := m - 1 in
    let preceding :=
      preceding - (DAYS_IN_MONTH m + (if (m =? 2) && leapyear then 1 else 0)) in
    (m, n - preceding + 1)
  else (m, n - preceding + 1).

(** [month_day] finds day [d] of month [m] (for the days the month has). *)
Definition month_day_ok (leapyear : bool) (m d : Z) : bool :=
  let dim := DAYS_IN_MONTH m + (if (m =? 2) && leapyear then 1 else 0) in
  let before := DAYS_BEFORE_MONTH m + (if (2 <? m) && leapyear then 1 else 0) in
  (dim <? d) ||
  match month_day leapyear (before + d - 1) with
  | (m', d') => (m' =? m) && (d' =? d)
  end.

(** *** Formatting *)

Definition digit (n : Z) : ascii := ascii_of_N (48 + Z.to_N (n mod 10)).

(** [n] in decimal, zero-filled to exactly [w] digits (the [%0wd] of
    [strftime] and [isoformat] for a field that fits). *)
Fixpoint zfill (w : nat) (n : Z) : string :=
  match w with
  | O => EmptyString
  | S w' => zfill w' (n / 10) +:+ String (digit n) EmptyString
  end.

(** [n] in decimal with no padding (the [%d] of the C library), for
    [0 <= n <= 9999]. *)
Definition decimal (n : Z) : string :=
  if n <? 10 then zfill 1 n
  else if n <? 100 then zfill 2 n
  else if n <? 1000 then zfill 3 n
  else zfill 4 n.

(** [strftime] on the two formats the scraper uses, with the separator
    between the fields as parameter: ['%Y-%m-%d'] and ['%Y/%m/%d'].
    [datetime.strftime] hands the format to the C library, which zero-fills
    [%m] and [%d] to two digits and writes [%Y] as the plain decimal year
    (glibc): four digits from the year 1000 on, fewer before, so that
    [datetime(999, 12, 31)] gives [999-12-31]. *)
Definition strftime_ymd (sep : string) (d : datetime) : string :=
  decimal (year d) +:+ sep +:+ zfill 2 (month d) +:+ sep +:+ zfill 2 (day d).

(** A date in the form the design document and the help of [--start_date]
    name, [YYYY-MM-DD]: the year zero-filled to four digits. *)
Definition ymd_text (sep : string) (d : datetime) : string :=
  zfill 4 (year d) +:+ sep +:+ zfill 2 (month d) +:+ sep +:+ zfill 2 (day d).

(** [isoformat()] of a UTC-aware datetime. *)
Definition isoformat (d : datetime) : string :=
  zfill 4 (year d) +:+ "-" +:+ zfill 2 (month d) +:+ "-" +:+ zfill 2 (day d)
  +:+ "T" +:+ zfill 2 (hour d) +:+ ":" +:+ zfill 2 (minute d) +:+ ":"
  +:+ zfill 2 (second d)
  +:+ (if microsecond d =? 0 then EmptyString
       else "." +:+ zfill 6 (microsecond d))
  +:+ "+00:00".

End Datetime.

Export Datetime.


(** ** JSON output ([json.dumps(news_list, indent=4, ensure_ascii=False)]) *)

Module Json.

Definition dquote : ascii := "034"%char.
Definition backslash : ascii := "092"%char.
Definition newline : ascii := "010"%char.

Definition hex_digit (n : N) : ascii :=
  if (n <? 10)%N then ascii_of_N (48 + n) else ascii_of_N (87 + n).

(** [ESCAPE_DCT]: the two-character escapes, and [\u00xx] (lower-case hex)
    for the other characters below 0x20. Every other character, the
    non-ASCII bytes included, is left out of the table. *)
Definition escape_char (c : ascii) : option string :=
  let n := N_of_ascii c in
  if (n =? 92)%N then Some "\\"%string
  else if (n =? 34)%N then Some (String backslash (String dquote EmptyString))
  else if (n =? 8)%N then Some "\b"%string
  else if (n =? 12)%N then Some "\f"%string
  else if (n =? 10)%N then Some "\n"%string
  else if (n =? 13)%N then Some "\r"%string
  else if (n =? 9)%N then Some "\t"%string
  else if (n <? 32)%N then
    Some ("\u00" +:+ String (hex_digit (n / 16)) (String (hex_digit (n mod 16)) EmptyString))
  else None.

(** [ESCAPE.sub(replace, s)] *)
Fixpoint escape (s : string) : string :=
  match s with
  | EmptyString => EmptyString
  | String c s' =>
      match escape_char c with
      | Some e => e +:+ escape s'
      | None => String c (escape s')
      end
  end.

(** [encode_basestring], the string encoder chosen by [ensure_ascii=False]. *)
Definition encode_basestring (s : string) : string :=
  String dquote (escape s +:+ String dquote EmptyString).

(** The values [news_list] is made of. *)
#[local] Set Warnings "-register-all".
Inductive value :=
| JString (s : string)
| JList (items : list value)
| JDict (members : list (string * value)).
#[local] Set Warnings "register-all".

Fixpoint spaces (n : nat) : string :=
  match n with
  | O => EmptyString
  | S n' => String " " (spaces n')
  end.

(** [newline_indent = '\n' + _indent * _current_indent_level] *)
Definition newline_indent (indent level : nat) : string :=
  String newline (spaces (indent * level)).

(** [_iterencode], [_iterencode_list] and [_iterencode_dict] with an integer
    [indent]: the chunks of the items are joined by the item separator
    [','] followed by [newline_indent], the key separator is [': '].
    [level] is [_current_indent_level] on entry. *)
Fixpoint iterencode (indent level : nat) (v : value) : string :=
  match v with
  | JString s => encode_basestring s
  | JList [] => "[]"
  | JList items =>
      let nl := newline_indent indent (S level) in
      "[" +:+ nl
      +:+ String.concat ("," +:+ nl) (map (iterencode indent (S level)) items)
      +:+ newline_indent indent level +:+ "]"
  | JDict [] => "{}"
  | JDict members =>
      let nl := newline_indent indent (S level) in
      "{" +:+ nl
      +:+ String.concat ("," +:+ nl)
            (map (fun member =>
                    let '(k, x) := member in
                    encode_basestring k +:+ ": " +:+ iterencode indent (S level) x)
                 members)
      +:+ newline_indent indent level +:+ "}"
  end.

Definition dumps (indent : nat) (v : value) : string := iterencode indent 0 v.

(** *** Reading the document back ([json.loads])

    The scanner and parser of the [json] module on documents made of
    strings, arrays and objects, the values [dumps] is total on. Numbers,
    the literals [true], [false], [null] and [\u] escapes of surrogates are
    outside the model: on a text that holds one, [loads] gives [None], as
    it does on a text that is not JSON, and [None] says nothing about what
    the library does. Code points that [\u] escapes name are written in
    UTF-8. *)

Inductive token :=
| TLBracket | TRBracket | TLBrace | TRBrace | TComma | TColon
| TString (s : string).

Definition is_whitespace (c : ascii) : bool :=
  let n := N_of_ascii c in
  ((n =? 32) || (n =? 9) || (n =? 10) || (n =? 13))%N.

Definition punctuation (c : ascii) : option token :=
  let n := N_of_ascii c in
  if (n =? 91)%N then Some TLBracket
  else if (n =? 93)%N then Some TRBracket
  else if (n =? 123)%N then Some TLBrace
  else if (n =? 125)%N then Some TRBrace
  else if (n =? 44)%N then Some TComma
  else if (n =? 58)%N then Some TColon
  else None.

(** [BACKSLASH]: the character named by a one-letter escape. *)
Definition unescape (c : ascii) : option ascii :=
  let n := N_of_ascii c in
  if (n =? 34)%N then Some dquote
  else if (n =? 92)%N then Some backslash
  else if (n =? 47)%N then Some "/"%char
  else if (n =? 98)%N then Some "008"%char
  else if (n =? 102)%N then Some "012"%char
  else if (n =? 110)%N then Some "010"%char
  else if (n =? 114)%N then Some "013"%char
  else if (n =? 116)%N then Some "009"%char
  else None.

Definition hex_value (c : ascii) : option N :=
  let n := N_of_ascii c in
  if ((48 <=? n) && (n <=? 57))%N then Some (n - 48)%N
  else if ((97 <=? n) && (n <=? 102))%N then Some (n - 87)%N
  else if ((65 <=? n) && (n <=? 70))%N then Some (n - 55)%N
  else None.

(** The UTF-8 bytes of a code point of the basic plane. *)
Definition utf8 (code : N) : option string :=
  if (code <? 128)%N then Some (String (ascii_of_N code) EmptyString)
  else if (code <? 2048)%N then
    Some (String (ascii_of_N (192 + code / 64))
            (String (ascii_of_N (128 + code mod 64)) EmptyString))
  else if ((55296 <=? code) && (code <=? 57343))%N then None
  else
    Some (String (ascii_of_N (224 + code / 4096))
            (String (ascii_of_N (128 + (code / 64) mod 64))
               (String (ascii_of_N (128 + code mod 64)) EmptyString))).

(** Where the scanner is: between tokens, inside a string with [acc] read
    so far, just after a backslash, or inside a [\u] escape with [more]
    hex digits still to come after the next one. *)
Inductive scan_state :=
| Between
| InString (acc : string)
| Escape (acc : string)
| Hex (acc : string) (more : nat) (code : N).

Fixpoint scan (st : scan_state) (s : string) : option (list token) :=
  match s with
  | EmptyString =>
      match st with
      | Between => Some []
      | _ => None
      end
  | String c s' =>
      match st with
      | Between =>
          if is_whitespace c then scan Between s'
          else if Ascii.eqb c dquote then scan (InString EmptyString) s'
          else
            match punctuation c with
            | Some t => cons t <$> scan Between s'
            | None => None
            end
      | InString acc =>
          if Ascii.eqb c dquote then cons (TString acc) <$> scan Between s'
          else if Ascii.eqb c backslash then scan (Escape acc) s'
          else if (N_of_ascii c <? 32)%N then None
          else scan (InString (acc +:+ String c EmptyString)) s'
      | Escape acc =>
          if Ascii.eqb c "u" then scan (Hex acc 3 0) s'
          else
            match unescape c with
            | Some d => scan (InString (acc +:+ String d EmptyString)) s'
            | None => None
            end
      | Hex acc more code =>
          match hex_value c with
          | Some h =>
              let code := (code * 16 + h)%N in
              match more with
              | O =>
                  match utf8 code with
                  | Some bytes => scan (InString (acc +:+ bytes)) s'
                  | None => None
                  end
              | S more' => scan (Hex acc more' code) s'
              end
          | None => None
          end
      end
  end.

(** The parser proper, on tokens. Every call consumes a token before it
    recurses, so the number of tokens is fuel enough. *)
Fixpoint parse_value (fuel : nat) (ts : list token)
    : option (value * list token) :=
  match fuel with
  | O => None
  | S fuel =>
      match ts with
      | TString s :: ts => Some (JString s, ts)
      | TLBracket :: TRBracket :: ts => Some (JList [], ts)
      | TLBracket :: ts =>
          '(x, ts) ← parse_value fuel ts;
          '(xs, ts) ← parse_items fuel ts;
          Some (JList (x :: xs), ts)
      | TLBrace :: TRBrace :: ts => Some (JDict [], ts)
      | TLBrace :: TString k :: TColon :: ts =>
          '(x, ts) ← parse_value fuel ts;
          '(ms, ts) ← parse_members fuel ts;
          Some (JDict ((k, x) :: ms), ts)
      | _ => None
      end
  end
with parse_items (fuel : nat) (ts : list token)
    : option (list value * list token) :=
  match fuel with
  | O => None
  | S fuel =>
      match ts with
      | TRBracket :: ts => Some ([], ts)
      | TComma :: ts =>
          '(x, ts) ← parse_value fuel ts;
          '(xs, ts) ← parse_items fuel ts;
          Some (x :: xs, ts)
      | _ => None
      end
  end
with parse_members (fuel : nat) (ts : list token)
    : option (list (string * value) * list token) :=
  match fuel with
  | O => None
  | S fuel =>
      match ts with
      | TRBrace :: ts => Some ([], ts)
      | TComma :: TString k :: TColon :: ts =>
          '(x, ts) ← parse_value fuel ts;
          '(ms, ts) ← parse_members fuel ts;
          Some ((k, x) :: ms, ts)
      | _ => None
      end
  end.

(** [json.loads]: the whole text must be one value. *)
Definition loads (s : string) : option value :=
  ts ← scan Between s;
  '(v, rest) ← parse_value (length ts) ts;
  match rest with
  | [] => Some v
  | _ :: _ => None
  end.

(** [obj[key]] on a parsed object; of two members with one key the later
    one counts, as in a Python [dict]. *)
Definition as_dict (v : value) : option (gmap string value) :=
  match v with
  | JDict members => Some (list_to_map (reverse members))
  | _ => None
  end.

Definition getitem (key : string) (v : value) : option value :=
  d ← as_dict v; d !! key.

(** The tokens of the text [iterencode] writes for a value. *)
Fixpoint tokens_of (v : value) : list token :=
  match v with
  | JString s => [TString s]
  | JList [] => [TLBracket; TRBracket]
  | JList (x :: xs) =>
      TLBracket :: tokens_of x
      ++ flat_map (fun y => TComma :: tokens_of y) xs ++ [TRBracket]
  | JDict [] => [TLBrace; TRBrace]
  | JDict ((k, x) :: ms) =>
      TLBrace :: TString k :: TColon :: tokens_of x
      ++ flat_map (fun m => TComma :: TString m.1 :: TColon :: tokens_of m.2) ms
      ++ [TRBrace]
  end.

(** Tokens already produced, in front of what the scanner makes of the
    rest. *)
Definition emit (ts : list token) (o : option (list token))
    : option (list token) :=
  app ts <$> o.

(** The scanner reads the text of a value as the tokens of that value. *)
Definition scans_back (indent : nat) (v : value) : Prop :=
  ∀ level rest,
    scan Between (iterencode indent level v +:+ rest) =
    emit (tokens_of v) (scan Between rest).

(** The parser rebuilds a value from its tokens, given fuel for them. *)
Definition parses_back (v : value) : Prop :=
  ∀ fuel ts,
    (length (tokens_of v) ≤ fuel)%nat →
    parse_value fuel (tokens_of v ++ ts) = Some (v, ts).

End Json.
Export Json.

(** ** The scraper *)

(** One element of the response's ["results"], read with [post.get]: a key
    that is missing (or holds no string) is [None]. *)
Record Post := mk_Post {
  published_at : option string;
  title : option string
}.

(** The dict appended to [posts]: [{'date': ..., 'text': ...}]. *)
Record NewsRecord := mk_NewsRecord { date : string; text : string }.

(** The [params] of one [requests.get]. *)
Record Request := mk_Request {
  auth_token : string;
  currencies_param : string;
  page_param : Z
}.

(** [response.status_code] and [response.json()]; [results] is [None] when
    the body has no ["results"] key. *)
Record Response := mk_Response {
  status_code : Z;
  results : option (list Post)
}.

Inductive put_result := put_ok | put_ClientError.

(** The collaborators of a run: the endpoint behind [requests.get], the
    library parser behind [datetime.strptime(_, "%Y-%m-%dT%H:%M:%SZ")]
    ([None] when it raises) and the bucket behind [s3_client.put_object]
    (bucket, key, body). *)
Record Env := mk_Env {
  requests_get : Request -> Response;
  strptime : string -> option datetime;
  put_object : string -> string -> string -> put_result
}.

Inductive LogRecord :=
| error_failed_fetch (status : Z)
| error_parsing_date (value : option string)
| info_uploaded (s3_key : string)
| error_uploading (s3_key : string)
| info_saved_locally (file_name : string)
| info_scraping_started
| info_scraping_completed (records : nat).

(** Everything a run can change outside its own variables. *)
Record World := mk_World {
  http_log : list Request;
  log : list LogRecord;
  files : gmap string string;
  s3_calls : list (string * string * string);
  s3_store : gmap (string * string) string
}.

Definition sent (r : Request) (w : World) : World :=
  mk_World (http_log w ++ [r]) (log w) (files w) (s3_calls w) (s3_store w).

Definition logged (l : LogRecord) (w : World) : World :=
  mk_World (http_log w) (log w ++ [l]) (files w) (s3_calls w) (s3_store w).

Definition file_written (name content : string) (w : World) : World :=
  mk_World (http_log w) (log w) (<[name := content]> (files w))
           (s3_calls w) (s3_store w).

Definition put_called (bucket key body : string) (w : World) : World :=
  mk_World (http_log w) (log w) (files w)
           (s3_calls w ++ [(bucket, key, body)]) (s3_store w).

Definition object_stored (bucket key body : string) (w : World) : World :=
  mk_World (http_log w) (log w) (files w) (s3_calls w)
           (<[(bucket, key) := body]> (s3_store w)).

Definition empty_world : World := mk_World [] [] ∅ [] ∅.

(** The attributes [__init__] stores. *)
Record CryptoPanicScraper := mk_CryptoPanicScraper {
  currencies : list string;
  start_date : datetime;
  end_date : datetime;
  delta : timedelta;
  bucket_name : option string;
  lambda_name : string;
  bucket_tmp_dir : string;
  batch_size : Z;
  api_key : string
}.

Definition init (currencies : list string) (API_KEY : string)
    (start_date end_date : datetime) (delta : timedelta)
    (bucket_name : option string) (lambda_name : string) : CryptoPanicScraper :=
  mk_CryptoPanicScraper currencies start_date end_date delta bucket_name
    lambda_name "cryptopanic_tmp" 500 API_KEY.

(** [f"{post.get('title')}\n"]: a missing title formats as [None]. *)
Definition format_title (t : option string) : string :=
  match t with
  | Some s => s
  | None => "None"%string
  end +:+ String newline EmptyString.

(** The three variables the body of the [for] loop reads and writes. *)
Definition LoopVars : Type := list NewsRecord * bool * World.

(** One iteration of [for post in data.get("results", [])] on page [page]. *)
Definition for_post (env : Env) (self : CryptoPanicScraper) (page : Z)
    (vars : LoopVars) (post : Post) : LoopVars :=
  let '(posts, finished, w) := vars in
  match published_at post ≫= strptime env with
  | None => (posts, finished, logged (error_parsing_date (published_at post)) w)
  | Some published =>
      let posts :=
        if leb (start_date self) published && leb published (end_date self)
        then posts ++ [mk_NewsRecord (isoformat published)
                                     (format_title (title post))]
        else posts in
      let finished :=
        if ltb published (start_date self) || (11 <? page) then true
        else finished in
      (posts, finished, w)
  end.

Definition for_posts (env : Env) (self : CryptoPanicScraper) (page : Z)
    (items : list Post) (vars : LoopVars) : LoopVars :=
  fold_left (for_post env self page) items vars.

Definition params (self : CryptoPanicScraper) (page : Z) : Request :=
  mk_Request (api_key self) (String.concat "," (currencies self)) page.

(** [data.get("results", [])] *)
Definition get_results (r : Response) : list Post :=
  match results r with
  | Some l => l
  | None => []
  end.

(** How far [fetch_news] got: it returned [posts], or the fuel ran out at
    the top of the [while] loop with these [page] and [posts]. *)
Inductive Outcome :=
| Returned (posts : list NewsRecord)
| Running (page : Z) (posts : list NewsRecord).

(** [while True: ...], at most [fuel] iterations. *)
Fixpoint while_True (env : Env) (self : CryptoPanicScraper) (fuel : nat)
    (page : Z) (posts : list NewsRecord) (w : World) : Outcome * World :=
  match fuel with
  | O => (Running page posts, w)
  | S fuel' =>
      let request := params self page in
      let response := requests_get env request in
      let w := sent request w in
      if negb (status_code response =? 200) then
        (Returned [], logged (error_failed_fetch (status_code response)) w)
      else
        let '(posts, finished, w) :=
          for_posts env self page (get_results response) (posts, false, w) in
        if finished then (Returned posts, w)
        else while_True env self fuel' (page + 1) posts w
  end.

Definition fetch_news (env : Env) (self : CryptoPanicScraper) (fuel : nat)
    (w : World) : Outcome * World :=
  while_True env self fuel 1 [] w.

(** [news_list] as the JSON value [json.dumps] receives. *)
Definition news_value (news_list : list NewsRecord) : value :=
  JList (map (fun r => JDict [("date"%string, JString (date r));
                              ("text"%string, JString (text r))]) news_list).

(** Truth value of [self.bucket_name]: [None] and the empty string are
    false. *)
Definition truthy (s : option string) : option string :=
  match s with
  | Some EmptyString => None
  | other => other
  end.

Definition file_name_of (start_date end_minus_1 : datetime) : string :=
  "cryptopanic_" +:+ strftime_ymd "-" start_date +:+ "_"
  +:+ strftime_ymd "-" end_minus_1 +:+ ".json".

(** [save_to_files]. The function has no [return] statement: when it
    completes, the caller receives [None], here [tt]. The outer [None] is
    the [OverflowError] of [end_date - timedelta(days=1)]. *)
Definition save_to_files (env : Env) (self : CryptoPanicScraper)
    (news_list : list NewsRecord) (w : World) : option (unit * World) :=
  match sub (end_date self) (timedelta_days 1) with
  | None => None
  | Some end_minus_1 =>
      let file_name := file_name_of (start_date self) end_minus_1 in
      let file_content := dumps 4 (news_value news_list) in
      match truthy (bucket_name self) with
      | Some bucket =>
          let s3_key := strftime_ymd "/" (start_date self) +:+ "/" +:+ file_name in
          let w := put_called bucket s3_key file_content w in
          match put_object env bucket s3_key file_content with
          | put_ok =>
              Some (tt, logged (info_uploaded s3_key)
                          (object_stored bucket s3_key file_content w))
          | put_ClientError => Some (tt, logged (error_uploading s3_key) w)
          end
      | None =>
          Some (tt, logged (info_saved_locally file_name)
                      (file_written file_name file_content w))
      end
  end.

(** [run]: [None] when [fetch_news] has not returned within [fuel]
    iterations or [save_to_files] raised. *)
Definition run (env : Env) (self : CryptoPanicScraper) (fuel : nat)
    (w : World) : option (unit * World) :=
  let w := logged info_scraping_started w in
  match fetch_news env self fuel w with
  | (Returned all_posts, w) =>
      let w := logged (info_scraping_completed (length all_posts)) w in
      save_to_files env self all_posts w
  | (Running _ _, _) => None
  end.

(** A [run] that gives no result although [fetch_news] returned: the world
    in which [save_to_files] raised, which it does on its first line, having
    written nothing. *)
Definition run_raised (env : Env) (self : CryptoPanicScraper) (fuel : nat)
    (w : World) : option World :=
  let w := logged info_scraping_started w in
  match fetch_news env self fuel w with
  | (Returned all_posts, w) =>
      let w := logged (info_scraping_completed (length all_posts)) w in
      match save_to_files env self all_posts w with
      | None => Some w
      | Some _ => None
      end
  | (Running _ _, _) => None
  end.

(** ** The library parser on the scraper's format

    [datetime.strptime(s, "%Y-%m-%dT%H:%M:%SZ")] on ASCII input:
    [_strptime] compiles the format to the regular expression
    [(\d\d\d\d)-(1[0-2]|0[1-9]|[1-9])-(3[0-1]|[1-2]\d|0[1-9]|[1-9]| [1-9])T(2[0-3]|[0-1]\d|\d):([0-5]\d|\d):(6[0-1]|[0-5]\d|\d)Z],
    matched ignoring case against the whole string, and hands the fields to
    the [datetime] constructor, which checks their ranges. Every field is
    followed by a character that is not a digit, so trying the two-character
    alternatives before the one-character one loses no match. *)

Module Strptime.

(** Text made of ASCII characters only. *)
Definition is_ascii (s : string) : bool :=
  forallb (fun c => (N_of_ascii c <? 128)%N) (list_ascii_of_string s).

Definition digit_value (c : ascii) : option Z :=
  let n := N_of_ascii c in
  if ((48 <=? n) && (n <=? 57))%N then Some (Z.of_N n - 48) else None.

(** A literal of the format, compared ignoring case. *)
Definition literal (upper lower : ascii) (s : string) : option string :=
  match s with
  | String c s' =>
      if Ascii.eqb c upper || Ascii.eqb c lower then Some s' else None
  | EmptyString => None
  end.

(** A one- or two-digit field: [two a b] says that the digits [a b] form one
    of the two-character alternatives, [one a] that [a] is accepted alone. *)
Definition field (two : Z -> Z -> bool) (one : Z -> bool) (s : string)
    : option (Z * string) :=
  match s with
  | String c1 s1 =>
      match digit_value c1 with
      | Some a =>
          match s1 with
          | String c2 s2 =>
              match digit_value c2 with
              | Some b =>
                  if two a b then Some (10 * a + b, s2)
                  else if one a then Some (a, s1) else None
              | None => if one a then Some (a, s1) else None
              end
          | EmptyString => if one a then Some (a, s1) else None
          end
      | None => None
      end
  | EmptyString => None
  end.

Definition four_digits (s : string) : option (Z * string) :=
  match s with
  | String c1 (String c2 (String c3 (String c4 s'))) =>
      match digit_value c1, digit_value c2, digit_value c3, digit_value c4 with
      | Some a, Some b, Some c, Some d =>
          Some (1000 * a + 100 * b + 10 * c + d, s')
      | _, _, _, _ => None
      end
  | _ => None
  end.

Definition month_field : string -> option (Z * string) :=
  field (fun a b => ((a =? 1) && (b <=? 2)) || ((a =? 0) && (1 <=? b)))
        (fun a => 1 <=? a).

(** The day also has the alternative of a space before a single digit. *)
Definition day_field (s : string) : option (Z * string) :=
  match s with
  | String " " (String c s') =>
      match digit_value c with
      | Some a => if 1 <=? a then Some (a, s') else None
      | None => None
      end
  | _ =>
      field (fun a b => ((a =? 3) && (b <=? 1)) || ((1 <=? a) && (a <=? 2))
                        || ((a =? 0) && (1 <=? b)))
            (fun a => 1 <=? a) s
  end.

Definition hour_field : string -> option (Z * string) :=
  field (fun a b => ((a =? 2) && (b <=? 3)) || (a <=? 1)) (fun _ => true).

Definition minute_field : string -> option (Z * string) :=
  field (fun a _ => a <=? 5) (fun _ => true).

Definition second_field : string -> option (Z * string) :=
  field (fun a b => ((a =? 6) && (b <=? 1)) || (a <=? 5)) (fun _ => true).

Definition py_strptime (s : string) : option datetime :=
  '(y, s) ← four_digits s;
  s ← literal "-" "-" s;
  '(m, s) ← month_field s;
  s ← literal "-" "-" s;
  '(d, s) ← day_field s;
  s ← literal "T" "t" s;
  '(hh, s) ← hour_field s;
  s ← literal ":" ":" s;
  '(mm, s) ← minute_field s;
  s ← literal ":" ":" s;
  '(ss, s) ← second_field s;
  s ← literal "Z" "z" s;
  match s with
  | EmptyString =>
      let d := mk_datetime y m d hh mm ss 0 in
      if valid d then Some d else None
  | String _ _ => None
  end.

End Strptime.

Export Strptime.

(** ** Vocabulary of the statements *)

Definition posts_of (o : Outcome) : list NewsRecord :=
  match o with
  | Returned posts => posts
  | Running _ posts => posts
  end.

Definition has_returned (o : Outcome) : bool :=
  match o with
  | Returned _ => true
  | Running _ _ => false
  end.

(** The pages asked for by the first [k] requests of a call, and the items
    the endpoint serves on them, in the order the loop meets them. *)
Definition pages (k : nat) : list Z := seqZ 1 (Z.of_nat k).

Definition page_items (env : Env) (self : CryptoPanicScraper) (page : Z)
    : list Post :=
  get_results (requests_get env (params self page)).

Definition items_seen (env : Env) (self : CryptoPanicScraper) (k : nat)
    : list Post :=
  concat (page_items env self <$> pages k).

Definition requests_of (self : CryptoPanicScraper) (k : nat) : list Request :=
  params self <$> pages k.

(** The publication time of an item, when it has one that parses. *)
Definition parsed (env : Env) (post : Post) : option datetime :=
  published_at post ≫= strptime env.

(** The publication window [start <= published_at <= end]. *)
Definition in_window (self : CryptoPanicScraper) (published : datetime) : bool :=
  leb (start_date self) published && leb published (end_date self).

(** The filter as the design document words it: an item yields a record
    exactly when its timestamp parses and lies in the window; the records
    keep the order of the items. *)
Definition window_record (env : Env) (self : CryptoPanicScraper) (post : Post)
    : option NewsRecord :=
  published ← parsed env post;
  if in_window self published
  then Some (mk_NewsRecord (isoformat published) (format_title (title post)))
  else None.

Definition window_records (env : Env) (self : CryptoPanicScraper)
    (items : list Post) : list NewsRecord :=
  omap (window_record env self) items.

(** An item that sets the termination flag on page [page]. *)
Definition sets_flag (env : Env) (self : CryptoPanicScraper) (page : Z)
    (post : Post) : bool :=
  match parsed env post with
  | Some published => ltb published (start_date self) || (11 <? page)
  | None => false
  end.

(** The same scraper with another grouping interval. *)
Definition set_delta (d : timedelta) (self : CryptoPanicScraper)
    : CryptoPanicScraper :=
  mk_CryptoPanicScraper (currencies self) (start_date self) (end_date self) d
    (bucket_name self) (lambda_name self) (bucket_tmp_dir self)
    (batch_size self) (api_key self).

(** Page [page] is served with status 200. *)
Definition page_ok (env : Env) (self : CryptoPanicScraper) (page : Z) : bool :=
  status_code (requests_get env (params self page)) =? 200.

(** Some item of page [page] sets the termination flag. *)
Definition page_stops (env : Env) (self : CryptoPanicScraper) (page : Z) : bool :=
  existsb (sets_flag env self page) (page_items env self page).

(** The items of the [k] pages that start at [page]. *)
Definition items_from (env : Env) (self : CryptoPanicScraper) (page : Z)
    (k : nat) : list Post :=
  concat (page_items env self <$> seqZ page (Z.of_nat k)).

(** [w] after more requests have been sent and more lines logged. *)
Definition extend (w : World) (reqs : list Request) (lines : list LogRecord)
    : World :=
  mk_World (http_log w ++ reqs) (log w ++ lines) (files w) (s3_calls w)
           (s3_store w).

(** Worlds that differ at most in what was logged. *)
Definition same_effects (w1 w2 : World) : Prop :=
  http_log w1 = http_log w2 ∧ files w1 = files w2 ∧
  s3_calls w1 = s3_calls w2 ∧ s3_store w1 = s3_store w2.

(** ** Scenarios *)

(** An endpoint that answers every request with status 200 and an empty
    ["results"] list. *)
Definition env_empty_pages : Env :=
  mk_Env (fun _ => mk_Response 200 (Some [])) py_strptime (fun _ _ _ => put_ok).

(** An endpoint that answers every request with status 503. *)
Definition env_unavailable : Env :=
  mk_Env (fun _ => mk_Response 503 None) py_strptime (fun _ _ _ => put_ok).

(** The run of the design document's scenarios: window 2024-01-01 to
    2024-01-02, currencies [["BTC"]], no bucket. *)
Definition scraper_btc : CryptoPanicScraper :=
  init ["BTC"%string] "secret" (mk_datetime 2024 1 1 0 0 0 0)
       (mk_datetime 2024 1 2 0 0 0 0) (timedelta_days 1) None
       "cryptopanic_scraper_lambda".

(** The endpoint of [env] with the items that do not parse taken out of
    every page. *)
Definition parses (env : Env) (post : Post) : bool :=
  match parsed env post with
  | Some _ => true
  | None => false
  end.

Definition without_unparseable (env : Env) : Env :=
  mk_Env (fun request =>
            let response := requests_get env request in
            mk_Response (status_code response)
              (Some (List.filter (parses env) (get_results response))))
         (strptime env) (put_object env).

(** The page of the three-item scenario, with titles of the caller's
    choice. *)
Definition three_items (t1 t2 t3 : option string) : list Post :=
  [mk_Post (Some "2024-01-01T05:00:00Z"%string) t1;
   mk_Post (Some "2024-01-01T23:00:00Z"%string) t2;
   mk_Post (Some "2023-12-31T23:00:00Z"%string) t3].

(** An endpoint that serves that page as page 1 and would serve empty pages
    after it. *)
Definition env_three_items : Env :=
  mk_Env (fun request =>
            if page_param request =? 1
            then mk_Response 200
                   (Some (three_items (Some "first"%string)
                            (Some "second"%string) (Some "third"%string)))
            else mk_Response 200 (Some []))
         py_strptime (fun _ _ _ => put_ok).

(** An item without a usable timestamp, and one without a title. *)
Definition post_bad_date : Post :=
  mk_Post (Some "yesterday"%string) (Some "headline"%string).

Definition post_untitled : Post :=
  mk_Post (Some "2024-01-01T12:00:00Z"%string) None.

(** A bucket whose [put_object] raises [ClientError], and a run that
    uploads to it. *)
Definition env_upload_fails : Env :=
  mk_Env (fun _ => mk_Response 200 (Some [])) py_strptime
         (fun _ _ _ => put_ClientError).

Definition scraper_btc_bucket : CryptoPanicScraper :=
  init ["BTC"%string] "secret" (mk_datetime 2024 1 1 0 0 0 0)
       (mk_datetime 2024 1 2 0 0 0 0) (timedelta_days 1)
       (Some "cryptopanic-scraper"%string) "cryptopanic_scraper".

(** A run for the last day of the year 999, and one whose window ends on
    the first day the [datetime] type holds. *)
Definition scraper_year_999 : CryptoPanicScraper :=
  init ["BTC"%string] "secret" (mk_datetime 999 12 31 0 0 0 0)
       (mk_datetime 1000 1 1 0 0 0 0) (timedelta_days 1) None
       "cryptopanic_scraper_lambda".

Definition scraper_first_day : CryptoPanicScraper :=
  init ["BTC"%string] "secret" (mk_datetime 1 1 1 0 0 0 0)
       (mk_datetime 1 1 1 0 0 0 0) (timedelta_days 1) None
       "cryptopanic_scraper_lambda".

(** ** The layout of the output document, spelled out

    One record as an object indented by four blanks, its two members by
    eight; the records between brackets, separated by a comma and a line
    break. The blanks are written out here, character by character. *)
Definition record_text (r : NewsRecord) : string :=
  "{" +:+ String newline "        "
  +:+ String dquote ("date" +:+ String dquote ": ")
  +:+ encode_basestring (date r) +:+ ","
  +:+ String newline "        "
  +:+ String dquote ("text" +:+ String dquote ": ")
  +:+ encode_basestring (text r)
  +:+ String newline "    " +:+ "}".

Definition document_text (news_list : list NewsRecord) : string :=
  match news_list with
  | [] => "[]"
  | _ :: _ =>
      "[" +:+ String newline "    "
      +:+ String.concat ("," +:+ String newline "    ")
            (map record_text news_list)
      +:+ String newline "]"
  end.

(** An endpoint on which every page carries one item of 2024-01-01 noon. *)
Definition env_busy : Env :=
  mk_Env (fun _ => mk_Response 200 (Some [post_untitled])) py_strptime
         (fun _ _ _ => put_ok).

(** An item older than the window of [scraper_btc], and an endpoint that
    serves two recent items on page 1, then the old item followed by a
    recent one on page 2. *)
Definition post_old : Post :=
  mk_Post (Some "2023-12-31T23:00:00Z"%string) (Some "old"%string).

Definition env_two_pages : Env :=
  mk_Env (fun request =>
            if page_param request =? 1
            then mk_Response 200 (Some [post_untitled; post_bad_date])
            else if page_param request =? 2
            then mk_Response 200 (Some [post_old; post_untitled])
            else mk_Response 500 None)
         py_strptime (fun _ _ _ => put_ok).

(** An endpoint on which every page carries one item published at the
    stroke of midnight that starts 2024-01-02, and the run for the day
    after that of [scraper_btc]. *)
Definition post_midnight : Post :=
  mk_Post (Some "2024-01-02T00:00:00Z"%string) (Some "at midnight"%string).

Definition env_midnight : Env :=
  mk_Env (fun _ => mk_Response 200 (Some [post_midnight])) py_strptime
         (fun _ _ _ => put_ok).

Definition scraper_next_day : CryptoPanicScraper :=
  init ["BTC"%string] "secret" (mk_datetime 2024 1 2 0 0 0 0)
       (mk_datetime 2024 1 3 0 0 0 0) (timedelta_days 1) None
       "cryptopanic_scraper_lambda".

(** The lines the [except] branch logs for a list of items: one per item
    that does not parse, in order. *)
Definition parse_errors (env : Env) (items : list Post) : list LogRecord :=
  omap (fun post =>
          match parsed env post with
          | Some _ => None
          | None => Some (error_parsing_date (published_at post))
          end) items.

(** Two datetimes on the same day of the calendar. *)
Definition same_date (a b : datetime) : Prop :=
  year a = year b ∧ month a = month b ∧ day a = day b.

(** The timestamp of the endpoint, [YYYY-MM-DDTHH:MM:SS] with every field
    zero-filled, without its final [Z]; this is also how [isoformat]
    starts. *)
Definition utc_stamp (d : datetime) : string :=
  zfill 4 (year d) +:+ "-" +:+ zfill 2 (month d) +:+ "-" +:+ zfill 2 (day d)
  +:+ "T" +:+ zfill 2 (hour d) +:+ ":" +:+ zfill 2 (minute d) +:+ ":"
  +:+ zfill 2 (second d).

(** ** The driver ([main.py])

    [main] reads the configuration file, settles the window and hands over
    to [CryptoPanicScraper.run]. The command line is taken as parsed: an
    [Args] is the namespace [parse_args] returns. The two readings of the
    clock behind the default dates are parameters. The three lines [main]
    itself logs and the elapsed time it reports are not represented: [log]
    holds the records of the scraper's logger, and [files] the working
    directory apart from the log file [scraper.log]. *)

Module Main.

Record Args := mk_Args {
  coins_file : string;
  start_date_arg : option string;
  end_date_arg : option string;
  timedelta_arg : Z;
  bucket_name_arg : string;
  lambda_name_arg : string
}.

(** The defaults of [parse_args]. *)
Definition default_args : Args :=
  mk_Args "coins.json" None None 1 "cryptopanic-scraper" "cryptopanic_scraper".

(** The exceptions the model follows: of [open], of [data['key']] (a
    missing key, or [data] not a dict), of [strptime] on a date it cannot
    read ([ValueError]) and of [timedelta] and date arithmetic out of range
    ([OverflowError]). What the [json] reader raises is not among them. *)
Inductive exn :=
| FileNotFoundError (path : string)
| KeyError (key : string)
| TypeError
| ValueError
| OverflowError.

(** How a call ends: normally, with an exception and the world it leaves
    behind, or in a way this model makes no statement about ([Beyond]: the
    configuration is a text the model of [json] does not read, or it holds
    under ["key"] or ["coins"] something other than a string and a list of
    strings, or a date of the command line is not in ASCII, or the scraper
    has not finished within its fuel). *)
Inductive completion :=
| Completed (w : World)
| Raised (e : exn) (w : World)
| Beyond.

(** [load_info]: [None] when the text is outside what [loads] reads (a
    text that is not JSON, or JSON with numbers, [true], [false] or [null]
    in it). *)
Definition load_info (file_path : string) (w : World)
    : option (exn + value * value) :=
  match files w !! file_path with
  | None => Some (inl (FileNotFoundError file_path))
  | Some text =>
      data ← loads text;
      Some
        match data with
        | JDict _ =>
            match getitem "key" data with
            | None => inl (KeyError "key")
            | Some key =>
                match getitem "coins" data with
                | None => inl (KeyError "coins")
                | Some coins => inr (key, coins)
                end
            end
        | _ => inl TypeError
        end
  end.

Definition as_str (v : value) : option string :=
  match v with
  | JString s => Some s
  | _ => None
  end.

Definition as_str_list (v : value) : option (list string) :=
  match v with
  | JList items => mapM as_str items
  | _ => None
  end.

(** [datetime.strptime(s, '%Y-%m-%d')], on the fields of [Strptime]. *)
Definition py_strptime_date (s : string) : option datetime :=
  '(y, s) ← four_digits s;
  s ← literal "-" "-" s;
  '(m, s) ← month_field s;
  s ← literal "-" "-" s;
  '(d, s) ← day_field s;
  match s with
  | EmptyString =>
      let d := mk_datetime y m d 0 0 0 0 in
      if valid d then Some d else None
  | String _ _ => None
  end.

(** [.replace(hour=0, minute=0, second=0, microsecond=0)] *)
Definition midnight (d : datetime) : datetime :=
  mk_datetime (year d) (month d) (day d) 0 0 0 0.

(** A date of the command line the model of [strptime] can be trusted
    with: none, or one in ASCII. *)
Definition readable (arg : option string) : bool :=
  match truthy arg with
  | Some s => is_ascii s
  | None => true
  end.

(** [if args.start_date: ... else: ...]: the given date, or the midnight
    before the clock reading [now], less one day. *)
Definition start_date_of (args : Args) (now : datetime) : exn + datetime :=
  match truthy (start_date_arg args) with
  | Some s =>
      match py_strptime_date s with
      | Some d => inr d
      | None => inl ValueError
      end
  | None =>
      match sub (midnight now) (timedelta_days 1) with
      | Some d => inr d
      | None => inl OverflowError
      end
  end.

(** [if args.end_date: ... else: ...]: the given date, or the midnight
    before the clock reading [now]. *)
Definition end_date_of (args : Args) (now : datetime) : exn + datetime :=
  match truthy (end_date_arg args) with
  | Some s =>
      match py_strptime_date s with
      | Some d => inr d
      | None => inl ValueError
      end
  | None => inr (midnight now)
  end.

(** [main]. [load_info], [timedelta(days=...)] and the two [strptime] can
    raise before the scraper exists; once it runs, the one exception left
    is the [OverflowError] of [save_to_files], after the fetching. *)
Definition main (env : Env) (args : Args) (now_start now_end : datetime)
    (fuel : nat) (w : World) : completion :=
  match load_info (coins_file args) w with
  | None => Beyond
  | Some (inl e) => Raised e w
  | Some (inr (API_KEY, coins)) =>
      if 999999999 <? Z.abs (timedelta_arg args) then Raised OverflowError w
      else if negb (readable (start_date_arg args) &&
                    readable (end_date_arg args)) then Beyond
      else
        let timedif := timedelta_days (timedelta_arg args) in
        match start_date_of args now_start with
        | inl e => Raised e w
        | inr start_date =>
            match end_date_of args now_end with
            | inl e => Raised e w
            | inr end_date =>
                match as_str API_KEY, as_str_list coins with
                | Some key, Some currencies =>
                    let cryptopanic_scraper :=
                      init currencies key start_date end_date timedif
                           (Some (bucket_name_arg args)) (lambda_name_arg args) in
                    match run env cryptopanic_scraper fuel w with
                    | Some (_, w') => Completed w'
                    | None =>
                        match run_raised env cryptopanic_scraper fuel w with
                        | Some w' => Raised OverflowError w'
                        | None => Beyond
                        end
                    end
                | _, _ => Beyond
                end
            end
        end
  end.

(** The configuration file of the scenarios. *)
Definition config_value (key : string) (coins : list string) : value :=
  JDict [("key"%string, JString key);
         ("coins"%string, JList (JString <$> coins))].

End Main.

Export Main.

(** A working directory that holds the configuration file, written with
    [json.dumps], and the command line that names no dates and no
    bucket. *)
Definition world_with_config : World :=
  file_written "coins.json"
    (dumps 4 (config_value "secret" ["BTC"%string; "ETH"%string])) empty_world.

Definition args_local : Args :=
  mk_Args "coins.json" None None 1 "" "cryptopanic_scraper".






(** The world a completed [main] leaves, for the scenarios. *)
Definition world_of (c : completion) : World :=
  match c with
  | Completed w => w
  | Raised _ w => w
  | Beyond => empty_world
  end.

(** The morning of 2024-01-02, read off the clock. *)
Definition morning : datetime := mk_datetime 2024 1 2 9 30 0 0.

(** The date of [a] comes before the date of [b]. *)
Definition date_lt (a b : datetime) : Prop :=
  year a < year b ∨
  (year a = year b ∧
   (month a < month b ∨ (month a = month b ∧ day a < day b))).

(** The text [u] stands somewhere in the text [s]. *)
Definition occurs_in (u s : string) : Prop :=
  ∃ before after, s = before +:+ u +:+ after.

(** How often a character occurs in a text. *)
Fixpoint count_char (c : ascii) (s : string) : nat :=
  match s with
  | EmptyString => O
  | String x s' => ((if Ascii.eqb c x then 1 else 0) + count_char c s')%nat
  end.

(** * Properties *)

(** ** The calendar behind [end_date - timedelta(days=1)] *)

Section Calendar.

Lemma is_leap_spec y :
  is_leap y = true ↔ y mod 4 = 0 /\ (y mod 100 <> 0 \/ y mod 400 = 0).
Proof.
  unfold is_leap.
  rewrite andb_true_iff, orb_true_iff, negb_true_iff, !Z.eqb_eq, Z.eqb_neq.
  reflexivity.
Qed.

Lemma days_before_year_succ y :
  days_before_year (y + 1) =
  days_before_year y + 365 + (if is_leap y then 1 else 0).
Proof.
  pose proof (is_leap_spec y) as Hleap.
  destruct (is_leap y); unfold days_before_year; cbv zeta;
    replace (y + 1 - 1) with y by lia.
  - destruct Hleap as [[H4 H100] _]; [done|].
    Z.div_mod_to_equations. lia.
  - assert (Hn : ~ (y mod 4 = 0 /\ (y mod 100 <> 0 \/ y mod 400 = 0)))
      by (intros H; apply Hleap in H; done).
    clear Hleap. Z.div_mod_to_equations. lia.
Qed.

Lemma days_before_month_succ y m :
  1 <= m <= 11 →
  days_before_month y (m + 1) = days_before_month y m + days_in_month y m.
Proof.
  intros Hm. unfold days_before_month, days_in_month.
  assert (m = 1 \/ m = 2 \/ m = 3 \/ m = 4 \/ m = 5 \/ m = 6 \/ m = 7 \/
          m = 8 \/ m = 9 \/ m = 10 \/ m = 11) as Hcases by lia.
  destruct (is_leap y);
    repeat (destruct Hcases as [->|Hcases]; [reflexivity|]);
    subst; reflexivity.
Qed.

Lemma days_in_month_bounds y m : 1 <= m <= 12 → 28 <= days_in_month y m <= 31.
Proof.
  intros Hm. unfold days_in_month.
  assert (m = 1 \/ m = 2 \/ m = 3 \/ m = 4 \/ m = 5 \/ m = 6 \/ m = 7 \/
          m = 8 \/ m = 9 \/ m = 10 \/ m = 11 \/ m = 12) as Hcases by lia.
  destruct (is_leap y);
    repeat (destruct Hcases as [->|Hcases]; [simpl; lia|]);
    subst; simpl; lia.
Qed.

Lemma days_within_year y m d :
  1 <= m <= 12 → 1 <= d <= days_in_month y m →
  1 <= days_before_month y m + d <= 365 + (if is_leap y then 1 else 0).
Proof.
  intros Hm. unfold days_before_month, days_in_month.
  assert (m = 1 \/ m = 2 \/ m = 3 \/ m = 4 \/ m = 5 \/ m = 6 \/ m = 7 \/
          m = 8 \/ m = 9 \/ m = 10 \/ m = 11 \/ m = 12) as Hcases by lia.
  destruct (is_leap y);
    repeat (destruct Hcases as [->|Hcases]; [simpl; lia|]);
    subst; simpl; lia.
Qed.

Lemma month_day_checked :
  forallb (fun leapyear =>
    forallb (fun m =>
      forallb (fun d => month_day_ok leapyear m d) (seqZ 1 31))
      (seqZ 1 12))
    [true; false] = true.
Proof. vm_compute. reflexivity. Qed.

Lemma forallb_seqZ (f : Z → bool) lo len a :
  forallb f (seqZ lo len) = true → lo <= a < lo + len → f a = true.
Proof.
  intros H Ha. rewrite forallb_forall in H. apply H.
  apply list_elem_of_In, elem_of_seqZ. lia.
Qed.

Lemma month_day_spec y m d :
  1 <= m <= 12 → 1 <= d <= days_in_month y m →
  month_day (is_leap y) (days_before_month y m + d - 1) = (m, d).
Proof.
  intros Hm Hd.
  assert (Hm' : 1 <= m < 1 + 12) by lia.
  assert (Hdim : days_in_month y m =
            DAYS_IN_MONTH m + (if (m =? 2) && is_leap y then 1 else 0)).
  { unfold days_in_month. destruct ((m =? 2) && is_leap y) eqn:E; [|lia].
    apply andb_true_iff in E as [E _]. apply Z.eqb_eq in E. by subst. }
  assert (Hd31 : 1 <= d < 1 + 31).
  { assert (m = 1 \/ m = 2 \/ m = 3 \/ m = 4 \/ m = 5 \/ m = 6 \/ m = 7 \/
            m = 8 \/ m = 9 \/ m = 10 \/ m = 11 \/ m = 12) as Hcases by lia.
    unfold days_in_month in Hd. clear Hdim.
    destruct (is_leap y);
      repeat (destruct Hcases as [->|Hcases]; [simpl in Hd; lia|]);
      subst; simpl in Hd; lia. }
  pose proof month_day_checked as H.
  assert (Hl : forallb (fun m =>
      forallb (fun d => month_day_ok (is_leap y) m d) (seqZ 1 31))
      (seqZ 1 12) = true).
  { cbn [forallb] in H. apply andb_true_iff in H as [Ht H].
    apply andb_true_iff in H as [Hf _]. by destruct (is_leap y). }
  clear H.
  apply (fun H => forallb_seqZ _ _ _ m H Hm') in Hl.
  apply (fun H => forallb_seqZ _ _ _ d H Hd31) in Hl.
  unfold month_day_ok in Hl. cbv zeta in Hl.
  rewrite <-Hdim in Hl.
  apply orb_true_iff in Hl as [Hl|Hl]; [apply Z.ltb_lt in Hl; lia|].
  unfold days_before_month.
  destruct (month_day _ _) as [m' d'].
  apply andb_true_iff in Hl as [H1 H2].
  apply Z.eqb_eq in H1, H2. by subst.
Qed.

Lemma ord2ymd_month_day n :
  ord2ymd n =
  let n := n - 1 in
  let n400 := n / DI400Y in
  let n := n mod DI400Y in
  let n100 := n / DI100Y in
  let n := n mod DI100Y in
  let n4 := n / DI4Y in
  let n := n mod DI4Y in
  let n1 := n / 365 in
  let n := n mod 365 in
  let y := n400 * 400 + 1 + n100 * 100 + n4 * 4 + n1 in
  if (n1 =? 4) || (n100 =? 4) then (y - 1, 12, 31)
  else
    let '(m, d) :=
      month_day ((n1 =? 3) && (negb (n4 =? 24) || (n100 =? 3))) n in
    (y, m, d).
Proof.
  unfold ord2ymd, month_day. cbv zeta.
  destruct (_ || _); [done|]. by destruct (_ <? _).
Qed.

Lemma is_leap_digits a b c e :
  0 <= b < 4 → 0 <= c < 25 → 0 <= e < 4 →
  is_leap (400 * a + 100 * b + 4 * c + e + 1) =
  (e =? 3) && (negb (c =? 24) || (b =? 3)).
Proof.
  intros Hb Hc He. apply eq_true_iff_eq.
  rewrite is_leap_spec, andb_true_iff, orb_true_iff, negb_true_iff,
    !Z.eqb_eq, Z.eqb_neq.
  Z.div_mod_to_equations. lia.
Qed.

Lemma days_before_year_digits a b c e :
  0 <= b < 4 → 0 <= c < 25 → 0 <= e < 4 →
  days_before_year (400 * a + 100 * b + 4 * c + e + 1) =
  DI400Y * a + DI100Y * b + DI4Y * c + 365 * e.
Proof.
  intros Hb Hc He. unfold days_before_year, DI400Y, DI100Y, DI4Y. cbv zeta.
  replace (400 * a + 100 * b + 4 * c + e + 1 - 1)
    with (400 * a + 100 * b + 4 * c + e) by lia.
  Z.div_mod_to_equations. lia.
Qed.

Lemma known_div n d q r : 0 <= r < d /\ n = d * q + r → n / d = q.
Proof. intros [Hr Hn]. symmetry. by apply (Z.div_unique_pos n d q r). Qed.

Lemma known_mod n d q r : 0 <= r < d /\ n = d * q + r → n mod d = r.
Proof. intros [Hr Hn]. symmetry. by apply (Z.mod_unique_pos n d q r). Qed.

Lemma ord2ymd_ymd2ord y m d :
  1 <= m <= 12 → 1 <= d <= days_in_month y m →
  ord2ymd (ymd2ord y m d) = (y, m, d).
Proof.
  intros Hm Hd.
  pose (a := (y - 1) / 400). pose (b := (y - 1) mod 400 / 100).
  pose (c := (y - 1) mod 100 / 4). pose (e := (y - 1) mod 4).
  assert (Hy : y = 400 * a + 100 * b + 4 * c + e + 1)
    by (unfold a, b, c, e; Z.div_mod_to_equations; lia).
  assert (Hb : 0 <= b < 4) by (unfold b; Z.div_mod_to_equations; lia).
  assert (Hc : 0 <= c < 25) by (unfold c; Z.div_mod_to_equations; lia).
  assert (He : 0 <= e < 4) by (unfold e; Z.div_mod_to_equations; lia).
  clearbody a b c e.
  pose proof (month_day_spec y m d Hm Hd) as Hmd.
  pose proof (days_within_year y m d Hm Hd) as Hk.
  pose proof (is_leap_digits a b c e Hb Hc He) as Hleap.
  rewrite <-Hy in Hleap.
  unfold ymd2ord. rewrite Hy at 1.
  rewrite days_before_year_digits by done.
  set (k := days_before_month y m + d - 1) in *.
  replace (DI400Y * a + DI100Y * b + DI4Y * c + 365 * e
           + days_before_month y m + d)
    with (DI400Y * a + DI100Y * b + DI4Y * c + 365 * e + k + 1)
    by (unfold k; lia).
  assert (Hk' : 0 <= k < 365 + (if is_leap y then 1 else 0)) by (unfold k; lia).
  clearbody k. clear Hk.
  rewrite ord2ymd_month_day. cbv zeta.
  replace (DI400Y * a + DI100Y * b + DI4Y * c + 365 * e + k + 1 - 1)
    with (DI400Y * a + DI100Y * b + DI4Y * c + 365 * e + k) by lia.
  unfold DI400Y, DI100Y, DI4Y in *.
  assert (Hgeneral : k < 365 ->
    (let n := 146097 * a + 36524 * b + 1461 * c + 365 * e + k in
     let n400 := n / 146097 in
     let n := n mod 146097 in
     let n100 := n / 36524 in
     let n := n mod 36524 in
     let n4 := n / 1461 in
     let n := n mod 1461 in
     let n1 := n / 365 in
     let n := n mod 365 in
     let y := n400 * 400 + 1 + n100 * 100 + n4 * 4 + n1 in
     if (n1 =? 4) || (n100 =? 4) then (y - 1, 12, 31)
     else
       let '(m, d) :=
         month_day ((n1 =? 3) && (negb (n4 =? 24) || (n100 =? 3))) n in
       (y, m, d)) = (y, m, d)).
  { intros Hk. cbv zeta.
    rewrite (known_div _ 146097 a (36524 * b + 1461 * c + 365 * e + k)),
            (known_mod _ 146097 a (36524 * b + 1461 * c + 365 * e + k))
      by lia.
    rewrite (known_div _ 36524 b (1461 * c + 365 * e + k)),
            (known_mod _ 36524 b (1461 * c + 365 * e + k)) by lia.
    rewrite (known_div _ 1461 c (365 * e + k)),
            (known_mod _ 1461 c (365 * e + k)) by lia.
    rewrite (known_div _ 365 e k), (known_mod _ 365 e k) by lia.
    assert ((e =? 4) || (b =? 4) = false) as ->.
    { apply orb_false_iff. rewrite !Z.eqb_neq. lia. }
    rewrite <-Hleap, Hmd. f_equal. f_equal. lia. }
  destruct (decide (k = 365)) as [->|Hk365];
    [|apply Hgeneral; destruct (is_leap y); lia].
  clear Hgeneral.
  destruct (is_leap y) eqn:Hly; [|lia]. symmetry in Hleap.
  apply andb_true_iff in Hleap as [He3 Hcb].
  apply Z.eqb_eq in He3. subst e.
  apply orb_true_iff in Hcb.
  rewrite negb_true_iff, Z.eqb_neq, Z.eqb_eq in Hcb.
  assert (m = 12 /\ d = 31) as [-> ->].
  { change (month_day true 365) with (12, 31) in Hmd. by inversion Hmd. }
  destruct (decide (c = 24)) as [->|Hc24].
  - assert (b = 3) as -> by (destruct Hcb; [done|lia]).
    rewrite (known_div _ 146097 a 146096), (known_mod _ 146097 a 146096)
      by lia.
    change (146096 / 36524) with 4. cbv zeta.
    change ((4 =? 4)) with true. rewrite orb_true_r.
    f_equal. f_equal. change (146096 mod 36524) with 0.
    change (0 / 1461) with 0. change (0 mod 1461) with 0.
    change (0 / 365) with 0. lia.
  - rewrite (known_div _ 146097 a (36524 * b + 1461 * c + 365 * 3 + 365)),
            (known_mod _ 146097 a (36524 * b + 1461 * c + 365 * 3 + 365))
      by lia.
    rewrite (known_div _ 36524 b (1461 * c + 365 * 3 + 365)),
            (known_mod _ 36524 b (1461 * c + 365 * 3 + 365)) by lia.
    rewrite (known_div _ 1461 c (365 * 3 + 365)),
            (known_mod _ 1461 c (365 * 3 + 365)) by lia.
    change ((365 * 3 + 365) / 365) with 4. cbv zeta.
    change ((4 =? 4)) with true. cbn [orb].
    f_equal. f_equal. lia.
Qed.

Lemma valid_spec d :
  valid d = true ↔
  (1 <= year d <= 9999) /\ (1 <= month d <= 12) /\
  (1 <= day d <= days_in_month (year d) (month d)) /\
  (0 <= hour d <= 23) /\ (0 <= minute d <= 59) /\ (0 <= second d <= 59) /\
  (0 <= microsecond d <= 999999).
Proof.
  unfold valid. rewrite !andb_true_iff, !Z.leb_le. tauto.
Qed.

Lemma toordinal_bounds d :
  valid d = true → 1 <= toordinal d <= MAXORDINAL.
Proof.
  rewrite valid_spec. intros (Hy & Hm & Hd & _).
  unfold toordinal, ymd2ord.
  pose proof (days_within_year (year d) (month d) (day d) Hm Hd) as Hin.
  pose proof (days_before_year_succ (year d)) as Hsucc.
  assert (0 <= days_before_year (year d)).
  { unfold days_before_year. cbv zeta. Z.div_mod_to_equations. lia. }
  assert (days_before_year (year d + 1) <= MAXORDINAL).
  { unfold days_before_year, MAXORDINAL. cbv zeta.
    replace (year d + 1 - 1) with (year d) by lia.
    Z.div_mod_to_equations. lia. }
  lia.
Qed.

Lemma previous_day_ordinal d :
  valid d = true →
  1 < toordinal d →
  valid (previous_day d) = true /\
  toordinal (previous_day d) = toordinal d - 1.
Proof.
  intros Hvalid Hord. pose proof Hvalid as Hv.
  rewrite valid_spec in Hv. destruct Hv as (Hy & Hm & Hd & Hh & Hmi & Hs & Hus).
  unfold previous_day.
  destruct (1 <? day d) eqn:Hday; [|destruct (1 <? month d) eqn:Hmonth].
  - apply Z.ltb_lt in Hday. split.
    + apply valid_spec. simpl. repeat split; lia.
    + unfold toordinal, ymd2ord. simpl. lia.
  - apply Z.ltb_ge in Hday. apply Z.ltb_lt in Hmonth.
    pose proof (days_in_month_bounds (year d) (month d - 1) ltac:(lia)).
    pose proof (days_before_month_succ (year d) (month d - 1) ltac:(lia)) as Hs'.
    replace (month d - 1 + 1) with (month d) in Hs' by lia.
    split.
    + apply valid_spec. simpl. repeat split; lia.
    + unfold toordinal, ymd2ord. simpl. lia.
  - apply Z.ltb_ge in Hday. apply Z.ltb_ge in Hmonth.
    assert (month d = 1) as Hm1 by lia. assert (day d = 1) as Hd1 by lia.
    unfold toordinal, ymd2ord in Hord |- *. rewrite Hm1, Hd1 in Hord.
    pose proof (days_before_year_succ (year d - 1)) as Hsucc.
    replace (year d - 1 + 1) with (year d) in Hsucc by lia.
    assert (year d <> 1).
    { intros Hy1. rewrite Hy1 in Hord. by vm_compute in Hord. }
    split.
    + apply valid_spec. simpl. repeat split; try lia.
      unfold days_in_month. simpl. lia.
    + simpl. rewrite Hm1, Hd1. unfold days_before_month. simpl.
      destruct (is_leap (year d)), (is_leap (year d - 1)); simpl; lia.
Qed.

(** [d - timedelta(days=1)] is the day before [d] in the calendar, at the
    same time of day. *)
Lemma sub_one_day d :
  valid d = true →
  1 < toordinal d →
  sub d (timedelta_days 1) = Some (previous_day d).
Proof.
  intros Hvalid Hord.
  destruct (previous_day_ordinal d Hvalid Hord) as [Hpv Hpo].
  pose proof (toordinal_bounds d Hvalid) as Hb.
  pose proof Hvalid as Hv. rewrite valid_spec in Hv.
  destruct Hv as (Hy & Hm & Hd & Hh & Hmi & Hs & Hus).
  pose proof Hpv as Hv'. rewrite valid_spec in Hv'.
  destruct Hv' as (Hy' & Hm' & Hd' & _).
  unfold sub, total_microseconds, timedelta_days. cbv zeta.
  cbn [days seconds microseconds].
  set (o := toordinal d) in *.
  set (S := hour d * 3600 + minute d * 60 + second d).
  assert (HS : 0 <= S < 86400) by (unfold S; lia).
  replace ((o * 86400 + S) * 1000000 + microsecond d
           - ((1 * 86400 + 0) * 1000000 + 0))
    with ((S * 1000000 + microsecond d) + (o - 1) * 86400000000) by lia.
  rewrite Z.div_add, Z.mod_add by done.
  rewrite (Z.div_small (S * 1000000 + microsecond d)) by lia.
  rewrite (Z.mod_small (S * 1000000 + microsecond d)) by lia.
  replace (0 + (o - 1)) with (toordinal (previous_day d)) by lia.
  assert ((0 <? toordinal (previous_day d)) &&
          (toordinal (previous_day d) <=? MAXORDINAL) = true) as ->.
  { apply andb_true_iff. rewrite Z.ltb_lt, Z.leb_le. lia. }
  unfold toordinal at 1. rewrite ord2ymd_ymd2ord by lia.
  replace ((S * 1000000 + microsecond d) / 1000000) with S
    by (Z.div_mod_to_equations; lia).
  replace ((S * 1000000 + microsecond d) mod 1000000) with (microsecond d)
    by (Z.div_mod_to_equations; lia).
  replace (S / 3600) with (hour d) by (unfold S; Z.div_mod_to_equations; lia).
  replace (S mod 3600) with (minute d * 60 + second d)
    by (unfold S; Z.div_mod_to_equations; lia).
  replace ((minute d * 60 + second d) / 60) with (minute d)
    by (Z.div_mod_to_equations; lia).
  replace ((minute d * 60 + second d) mod 60) with (second d)
    by (Z.div_mod_to_equations; lia).
  f_equal. unfold previous_day.
  destruct (1 <? day d); [|destruct (1 <? month d)]; reflexivity.
Qed.

End Calendar.



Section Fetcher.

Context (env : Env) (self : CryptoPanicScraper).

(** *** The [for] loop *)

Lemma for_posts_app page items1 items2 vars :
  for_posts env self page (items1 ++ items2) vars =
  for_posts env self page items2 (for_posts env self page items1 vars).
Proof. apply fold_left_app. Qed.

Lemma for_posts_cons page post items vars :
  for_posts env self page (post :: items) vars =
  for_posts env self page items (for_post env self page vars post).
Proof. reflexivity. Qed.

Lemma for_post_unfold page posts finished w post :
  for_post env self page (posts, finished, w) post =
  (posts ++ option_list (window_record env self post),
   finished || sets_flag env self page post,
   match parsed env post with
   | Some _ => w
   | None => logged (error_parsing_date (published_at post)) w
   end).
Proof.
  unfold for_post, window_record, sets_flag, in_window, parsed.
  destruct (published_at post ≫= strptime env) as [published|]; simpl.
  - destruct (leb (start_date self) published && leb published (end_date self));
      destruct (ltb published (start_date self) || (11 <? page));
      simpl; rewrite ?app_nil_r, ?orb_true_r, ?orb_false_r; reflexivity.
  - rewrite app_nil_r, orb_false_r. reflexivity.
Qed.

(** The loop over one page, read off as a filter and a disjunction. *)
Lemma for_posts_spec page items posts finished w :
  ∃ w', for_posts env self page items (posts, finished, w) =
        (posts ++ window_records env self items,
         finished || existsb (sets_flag env self page) items, w')
        ∧ same_effects w w'.
Proof.
  revert posts finished w.
  induction items as [|post items IH]; intros posts finished w.
  - exists w. simpl. rewrite app_nil_r, orb_false_r. by repeat split.
  - rewrite for_posts_cons, for_post_unfold.
    edestruct IH as (w' & -> & Hw'). exists w'. split.
    + unfold window_records. simpl omap.
      destruct (window_record env self post); simpl;
        rewrite <-?app_assoc, ?app_nil_r, orb_assoc; reflexivity.
    + destruct (parsed env post); [exact Hw'|].
      destruct Hw' as (? & ? & ? & ?). by repeat split.
Qed.

(** *** The [while] loop *)

Lemma same_effects_refl w : same_effects w w.
Proof. by repeat split. Qed.

Lemma same_effects_trans w1 w2 w3 :
  same_effects w1 w2 → same_effects w2 w3 → same_effects w1 w3.
Proof.
  intros (? & ? & ? & ?) (? & ? & ? & ?). repeat split; congruence.
Qed.

Lemma same_effects_logged l w : same_effects w (logged l w).
Proof. by repeat split. Qed.

(** One iteration. *)
Lemma while_True_step fuel page posts w :
  ∃ w1, same_effects (sent (params self page) w) w1 ∧
    while_True env self (S fuel) page posts w =
    if page_ok env self page then
      if page_stops env self page
      then (Returned (posts ++ window_records env self (page_items env self page)), w1)
      else while_True env self fuel (page + 1)
             (posts ++ window_records env self (page_items env self page)) w1
    else (Returned [], w1).
Proof.
  cbn [while_True]. unfold page_ok, page_stops, page_items.
  destruct (status_code (requests_get env (params self page)) =? 200);
    cbn [negb].
  - destruct (for_posts_spec page
                (get_results (requests_get env (params self page)))
                posts false (sent (params self page) w)) as (w1 & -> & Hw1).
    exists w1. split; [exact Hw1|]. reflexivity.
  - eexists. split; [|reflexivity]. apply same_effects_logged.
Qed.

Lemma items_from_S page k :
  items_from env self page (S k) =
  page_items env self page ++ items_from env self (page + 1) k.
Proof.
  unfold items_from. rewrite (seqZ_cons page) by lia.
  rewrite fmap_cons, concat_cons.
  replace (Z.succ page) with (page + 1) by lia.
  replace (Z.pred (Z.of_nat (S k))) with (Z.of_nat k) by lia.
  reflexivity.
Qed.

(** What the loop has done when it stops or runs out of fuel: it has sent
    the requests for [k] consecutive pages and nothing else; all of them but
    possibly the last were served and left the flag down; the posts are the
    window records of the items of those pages, unless the last request
    failed. *)
Lemma while_True_spec fuel page posts w :
  ∃ k : nat, (k ≤ fuel)%nat ∧
    let '(out, w') := while_True env self fuel page posts w in
    http_log w' = http_log w ++ (params self <$> seqZ page (Z.of_nat k)) ∧
    files w' = files w ∧ s3_calls w' = s3_calls w ∧ s3_store w' = s3_store w ∧
    (∀ q, page ≤ q < page + Z.of_nat k - 1 →
          page_ok env self q = true ∧ page_stops env self q = false) ∧
    match out with
    | Running p ps =>
        k = fuel ∧ p = page + Z.of_nat k ∧
        ps = posts ++ window_records env self (items_from env self page k) ∧
        (∀ q, page ≤ q < page + Z.of_nat k →
              page_ok env self q = true ∧ page_stops env self q = false)
    | Returned ps =>
        (1 ≤ k)%nat ∧
        let last := page + Z.of_nat k - 1 in
        (page_ok env self last = false ∧ ps = []) ∨
        (page_ok env self last = true ∧ page_stops env self last = true ∧
         ps = posts ++ window_records env self (items_from env self page k))
    end.
Proof.
  revert page posts w. induction fuel as [|fuel IH]; intros page posts w.
  - exists 0%nat. split; [lia|]. cbn [while_True].
    rewrite app_nil_r. repeat split; try lia.
    unfold items_from, window_records. simpl. by rewrite app_nil_r.
  - destruct (while_True_step fuel page posts w) as (w1 & Hw1 & ->).
    destruct Hw1 as (Hh & Hf & Hc & Hs). simpl in Hh, Hf, Hc, Hs.
    destruct (page_ok env self page) eqn:Hok.
    + destruct (page_stops env self page) eqn:Hstop.
      * exists 1%nat. split; [lia|]. rewrite <-Hh, <-Hf, <-Hc, <-Hs.
        repeat split; try lia.
        replace (page + Z.of_nat 1 - 1) with page by lia.
        right. repeat split; try done.
        rewrite items_from_S. unfold items_from at 1. simpl.
        by rewrite app_nil_r.
      * destruct (IH (page + 1)
                    (posts ++ window_records env self (page_items env self page))
                    w1) as (k & Hk & IHk).
        exists (S k). split; [lia|].
        destruct (while_True env self fuel (page + 1) _ w1) as [out w'].
        destruct IHk as (Hh' & Hf' & Hc' & Hs' & Hmid & Hout).
        rewrite Hh', Hf', Hc', Hs', <-Hh, <-Hf, <-Hc, <-Hs.
        split; [|split; [done|split; [done|split; [done|split]]]].
        -- rewrite (seqZ_cons page) by lia. rewrite fmap_cons.
           replace (Z.succ page) with (page + 1) by lia.
           replace (Z.pred (Z.of_nat (S k))) with (Z.of_nat k) by lia.
           by rewrite <-app_assoc.
        -- intros q Hq. destruct (decide (q = page)) as [->|]; [done|].
           apply Hmid. lia.
        -- destruct out as [ps|p ps].
           ++ destruct Hout as (Hk1 & Hlast). split; [lia|].
              replace (page + Z.of_nat (S k) - 1)
                with (page + 1 + Z.of_nat k - 1) by lia.
              destruct Hlast as [(? & ?)|(? & ? & ->)]; [by left|right].
              repeat split; try done.
              rewrite items_from_S. unfold window_records.
              by rewrite omap_app, app_assoc.
           ++ destruct Hout as (-> & -> & -> & Hall).
              repeat split; try lia.
              ** rewrite items_from_S. unfold window_records.
                 by rewrite omap_app, app_assoc.
              ** destruct (decide (q = page)) as [->|]; [done|].
                 apply Hall. lia.
              ** destruct (decide (q = page)) as [->|]; [done|].
                 apply Hall. lia.
    + exists 1%nat. split; [lia|]. rewrite <-Hh, <-Hf, <-Hc, <-Hs.
      repeat split; try lia.
      replace (page + Z.of_nat 1 - 1) with page by lia. by left.
Qed.

(** *** Frame: the loop only appends to the request and log histories *)

Lemma extend_extend w r1 l1 r2 l2 :
  extend (extend w r1 l1) r2 l2 = extend w (r1 ++ r2) (l1 ++ l2).
Proof. unfold extend. simpl. by rewrite <-!app_assoc. Qed.

Lemma extend_nil w : extend w [] [] = w.
Proof. destruct w. unfold extend. simpl. by rewrite !app_nil_r. Qed.

Lemma sent_extend r w : sent r w = extend w [r] [].
Proof. unfold sent, extend. by rewrite app_nil_r. Qed.

Lemma logged_extend l w : logged l w = extend w [] [l].
Proof. unfold logged, extend. by rewrite app_nil_r. Qed.

Lemma for_posts_frame page items posts finished :
  ∃ lines, ∀ w,
    for_posts env self page items (posts, finished, w) =
    (posts ++ window_records env self items,
     finished || existsb (sets_flag env self page) items,
     extend w [] lines).
Proof.
  revert posts finished.
  induction items as [|post items IH]; intros posts finished.
  - exists []. intros w. simpl. by rewrite app_nil_r, orb_false_r, extend_nil.
  - destruct (IH (posts ++ option_list (window_record env self post))
                 (finished || sets_flag env self page post)) as (lines & Hlines).
    exists (match parsed env post with
            | Some _ => []
            | None => [error_parsing_date (published_at post)]
            end ++ lines).
    intros w. rewrite for_posts_cons, for_post_unfold, Hlines.
    unfold window_records. simpl omap. simpl existsb.
    f_equal; [f_equal|].
    + destruct (window_record env self post); simpl;
        by rewrite <-?app_assoc, ?app_nil_r.
    + by rewrite orb_assoc.
    + destruct (parsed env post); simpl.
      * reflexivity.
      * by rewrite logged_extend, extend_extend.
Qed.

Lemma while_True_frame fuel page posts :
  ∃ out reqs lines, ∀ w,
    while_True env self fuel page posts w = (out, extend w reqs lines).
Proof.
  revert page posts. induction fuel as [|fuel IH]; intros page posts.
  - exists (Running page posts), [], []. intros w. by rewrite extend_nil.
  - cbn [while_True].
    destruct (status_code (requests_get env (params self page)) =? 200);
      cbn [negb].
    + destruct (for_posts_frame page
                  (get_results (requests_get env (params self page)))
                  posts false) as (lines & Hlines).
      destruct (false || existsb (sets_flag env self page)
                           (get_results (requests_get env (params self page))))
        eqn:Hflag.
      * eexists _, _, _. intros w. rewrite Hlines.
        by rewrite sent_extend, extend_extend.
      * destruct (IH (page + 1)
                    (posts ++ window_records env self
                       (get_results (requests_get env (params self page)))))
          as (out & reqs & lines' & Hrec).
        exists out, ([params self page] ++ [] ++ reqs), ([] ++ lines ++ lines').
        intros w. rewrite Hlines, Hrec.
        by rewrite sent_extend, !extend_extend.
    + eexists _, _, _. intros w.
      by rewrite sent_extend, logged_extend, extend_extend.
Qed.

End Fetcher.

(** ** Pagination *)

Section Pagination.

Context (env : Env) (self : CryptoPanicScraper).

Lemma fetch_news_spec fuel w :
  ∃ k : nat, (k ≤ fuel)%nat ∧
    let '(out, w') := fetch_news env self fuel w in
    http_log w' = http_log w ++ requests_of self k ∧
    files w' = files w ∧ s3_calls w' = s3_calls w ∧ s3_store w' = s3_store w ∧
    (∀ q, 1 ≤ q < Z.of_nat k →
          page_ok env self q = true ∧ page_stops env self q = false) ∧
    match out with
    | Running p ps =>
        k = fuel ∧ p = 1 + Z.of_nat k ∧
        ps = window_records env self (items_seen env self k) ∧
        (∀ q, 1 ≤ q ≤ Z.of_nat k →
              page_ok env self q = true ∧ page_stops env self q = false)
    | Returned ps =>
        (1 ≤ k)%nat ∧
        ((page_ok env self (Z.of_nat k) = false ∧ ps = []) ∨
         (page_ok env self (Z.of_nat k) = true ∧
          page_stops env self (Z.of_nat k) = true ∧
          ps = window_records env self (items_seen env self k)))
    end.
Proof.
  unfold fetch_news.
  destruct (while_True_spec env self fuel 1 [] w) as (k & Hk & H).
  exists k. split; [exact Hk|].
  destruct (while_True env self fuel 1 [] w) as [out w'].
  destruct H as (Hh & Hf & Hc & Hs & Hmid & Hout).
  repeat (split; [done|]). split.
  - intros q Hq. apply Hmid. lia.
  - destruct out as [ps|p ps].
    + destruct Hout as (Hk1 & Hlast). split; [exact Hk1|].
      replace (1 + Z.of_nat k - 1) with (Z.of_nat k) in Hlast by lia.
      exact Hlast.
    + destruct Hout as (-> & -> & -> & Hall). repeat split; try done.
      all: apply Hall; lia.
Qed.

(** A page whose items all fail to parse neither adds a record nor sets the
    flag, whatever its number. *)
Lemma unparseable_page_is_inert page :
  Forall (fun post => parsed env post = None) (page_items env self page) →
  page_stops env self page = false ∧
  window_records env self (page_items env self page) = [].
Proof.
  unfold page_stops, window_records.
  induction 1 as [|post items Hpost _ [IH1 IH2]]; [done|].
  simpl. unfold sets_flag, window_record. rewrite Hpost. simpl. by split.
Qed.

(** With a parseable item on page 12 the ceiling does its work: the call
    returns after at most twelve requests. *)
Lemma fetch_news_ceiling fuel w post published :
  post ∈ page_items env self 12 →
  parsed env post = Some published →
  (12 ≤ fuel)%nat →
  ∃ k, (k ≤ 12)%nat ∧
    has_returned (fetch_news env self fuel w).1 = true ∧
    http_log (fetch_news env self fuel w).2 = http_log w ++ requests_of self k.
Proof.
  intros Hin Hparsed Hfuel.
  assert (Hstop : page_stops env self 12 = true).
  { unfold page_stops. apply existsb_exists. exists post. split.
    - by apply list_elem_of_In.
    - unfold sets_flag. rewrite Hparsed. by rewrite orb_true_r. }
  destruct (fetch_news_spec fuel w) as (k & Hk & H).
  destruct (fetch_news env self fuel w) as [out w'].
  destruct H as (Hh & _ & _ & _ & Hmid & Hout). simpl.
  destruct out as [ps|p ps].
  - exists k. split; [|by split].
    destruct (decide (k ≤ 12)%nat); [done|].
    destruct (Hmid 12) as [_ Hno]; [lia|congruence].
  - destruct Hout as (-> & _ & _ & Hall).
    destruct (Hall 12) as [_ Hno]; [lia|congruence].
Qed.

(** [C1] The page ceiling is tested inside the [for] loop only. On an
    endpoint that keeps answering 200 with pages that hold no parseable item
    (empty pages in particular) the flag never goes up: whatever the fuel,
    [fetch_news] has spent all of it on requests, one per page, and is still
    at the top of the loop. Thirteen iterations already exceed the bound of
    twelve requests. *)
Theorem fetch_news_unbounded_without_parseable_items fuel w :
  (∀ page, 1 ≤ page →
     page_ok env self page = true ∧
     Forall (fun post => parsed env post = None) (page_items env self page)) →
  ∃ w', fetch_news env self fuel w = (Running (1 + Z.of_nat fuel) [], w') ∧
        http_log w' = http_log w ++ requests_of self fuel ∧
        length (http_log w') = (length (http_log w) + fuel)%nat.
Proof.
  intros Hpages.
  assert (Hgo : ∀ fuel page posts w, 1 ≤ page →
    ∃ w', while_True env self fuel page posts w =
            (Running (page + Z.of_nat fuel) posts, w') ∧
          http_log w' =
            http_log w ++ (params self <$> seqZ page (Z.of_nat fuel))).
  { clear fuel w. induction fuel as [|fuel IH]; intros page posts w Hpage.
    - exists w. cbn [while_True]. rewrite app_nil_r.
      split; [|done]. do 2 f_equal. lia.
    - destruct (while_True_step env self fuel page posts w) as (w1 & Hw1 & ->).
      destruct (Hpages page Hpage) as [-> Hinert].
      apply unparseable_page_is_inert in Hinert as [-> ->].
      rewrite app_nil_r.
      destruct (IH (page + 1) posts w1) as (w' & -> & Hlog); [lia|].
      exists w'. split; [do 2 f_equal; lia|].
      rewrite Hlog. destruct Hw1 as (<- & _). simpl.
      rewrite (seqZ_cons page) by lia. rewrite fmap_cons.
      replace (Z.succ page) with (page + 1) by lia.
      replace (Z.pred (Z.of_nat (S fuel))) with (Z.of_nat fuel) by lia.
      by rewrite <-app_assoc. }
  destruct (Hgo fuel 1 [] w) as (w' & Heq & Hlog); [lia|].
  exists w'. split; [exact Heq|]. split; [exact Hlog|].
  rewrite Hlog, length_app. unfold requests_of, pages.
  rewrite length_fmap, length_seqZ. lia.
Qed.

End Pagination.

Lemma fetch_news_unbounded_witness :
  ∃ w', fetch_news env_empty_pages scraper_btc 13 empty_world =
          (Running 14 [], w') ∧
        http_log w' = http_log empty_world ++ requests_of scraper_btc 13 ∧
        length (http_log w') = (length (http_log empty_world) + 13)%nat.
Proof.
  apply (fetch_news_unbounded_without_parseable_items
           env_empty_pages scraper_btc 13 empty_world).
  intros page _. split; [reflexivity|]. apply Forall_nil_2.
Defined.

(** ** Filtering by the publication window *)

Lemma omap_kept {A B} (f : A → option B) (l : list A) :
  ∃ kept, kept `sublist_of` l ∧ Forall2 (fun x y => f x = Some y) kept (omap f l).
Proof.
  induction l as [|x l (kept & Hsub & Hall)].
  - exists []. split; constructor.
  - simpl. destruct (f x) as [y|] eqn:Hx.
    + exists (x :: kept). split; [by constructor|by constructor].
    + exists kept. split; [by constructor|done].
Qed.

Lemma window_record_Some env self post r :
  window_record env self post = Some r →
  ∃ published,
    parsed env post = Some published ∧
    leb (start_date self) published = true ∧
    leb published (end_date self) = true ∧
    r = mk_NewsRecord (isoformat published) (format_title (title post)).
Proof.
  unfold window_record, in_window.
  destruct (parsed env post) as [published|]; simpl; [|done].
  destruct (leb (start_date self) published) eqn:H1; simpl; [|done].
  destruct (leb published (end_date self)) eqn:H2; simpl; [|done].
  intros [= <-]. by exists published.
Qed.

(** [C2] Whatever the endpoint serves and however far the loop has got, the
    posts held by [fetch_news] are records of items met on the pages
    requested so far, each with a timestamp that parses to a time in
    [start_date <= published <= end_date], in the order in which the items
    were met across the pages; unless a request failed, they are exactly the
    window filter of those items, so an item outside the window leaves no
    record. *)
Theorem fetch_news_window_invariant env self fuel w :
  ∃ k : nat,
    let out := (fetch_news env self fuel w).1 in
    let w' := (fetch_news env self fuel w).2 in
    http_log w' = http_log w ++ requests_of self k ∧
    (posts_of out = [] ∨
     posts_of out = window_records env self (items_seen env self k)) ∧
    (∃ kept,
       kept `sublist_of` items_seen env self k ∧
       Forall2 (fun post r =>
                  ∃ published,
                    parsed env post = Some published ∧
                    leb (start_date self) published = true ∧
                    leb published (end_date self) = true ∧
                    r = mk_NewsRecord (isoformat published)
                                      (format_title (title post)))
               kept (posts_of out)) ∧
    (∀ post published,
       post ∈ items_seen env self k →
       parsed env post = Some published →
       in_window self published = false →
       window_record env self post = None).
Proof.
  destruct (fetch_news_spec env self fuel w) as (k & _ & H).
  exists k. destruct (fetch_news env self fuel w) as [out w']. simpl.
  destruct H as (Hh & _ & _ & _ & _ & Hout).
  assert (Hposts : posts_of out = [] ∨
            posts_of out = window_records env self (items_seen env self k)).
  { destruct out as [ps|p ps]; simpl.
    - destruct Hout as (_ & [(_ & ->)|(_ & _ & ->)]); [by left|by right].
    - destruct Hout as (_ & _ & -> & _). by right. }
  split; [exact Hh|]. split; [exact Hposts|]. split.
  - destruct Hposts as [->| ->].
    + exists []. split; [apply sublist_nil_l|constructor].
    + destruct (omap_kept (window_record env self) (items_seen env self k))
        as (kept & Hsub & Hall).
      exists kept. split; [exact Hsub|].
      eapply Forall2_impl; [exact Hall|].
      intros post r Hr. by apply window_record_Some.
  - intros post published _ Hparsed Hout'.
    unfold window_record. rewrite Hparsed. simpl. by rewrite Hout'.
Qed.

(** ** Transport failure *)

Lemma requests_of_length self k : length (requests_of self k) = k.
Proof. unfold requests_of, pages. rewrite length_fmap, length_seqZ. lia. Qed.

(** The requests in the log tell how many pages a call has asked for. *)
Lemma requests_of_inj self (l : list Request) k k' :
  l ++ requests_of self k = l ++ requests_of self k' → k = k'.
Proof.
  intros H. apply app_inv_head in H. apply (f_equal length) in H.
  by rewrite !requests_of_length in H.
Qed.

(** Completeness of the filter: unless the last request failed, every item
    met on the pages a call has asked for and whose timestamp is in the
    window has its record among the posts the call holds. *)
Lemma fetch_news_records_seen env self fuel w (k : nat) post r :
  http_log (fetch_news env self fuel w).2 = http_log w ++ requests_of self k →
  page_ok env self (Z.of_nat k) = true →
  post ∈ items_seen env self k →
  window_record env self post = Some r →
  r ∈ posts_of (fetch_news env self fuel w).1.
Proof.
  intros Hlog Hok Hin Hrec.
  destruct (fetch_news_spec env self fuel w) as (k0 & _ & H).
  destruct (fetch_news env self fuel w) as [out w']. cbn [fst snd] in *.
  destruct H as (Hh & _ & _ & _ & _ & Hout).
  rewrite Hh in Hlog. apply requests_of_inj in Hlog. subst k0.
  assert (Hposts : posts_of out = window_records env self (items_seen env self k)).
  { destruct out as [ps|p ps]; cbn [posts_of].
    - destruct Hout as (_ & [(Hfail & _)|(_ & _ & ->)]); [congruence|done].
    - by destruct Hout as (_ & _ & -> & _). }
  rewrite Hposts. unfold window_records. apply list_elem_of_omap. by exists post.
Qed.

(** When page [p] is the first to raise the flag, and it and the pages
    before it are served, the call returns after the request for page [p],
    with the window records of the items of pages 1 to [p]. *)
Lemma fetch_news_returns_at env self (p : nat) fuel w :
  (1 ≤ p)%nat →
  (∀ q, 1 ≤ q < Z.of_nat p →
        page_ok env self q = true ∧ page_stops env self q = false) →
  page_ok env self (Z.of_nat p) = true →
  page_stops env self (Z.of_nat p) = true →
  (p ≤ fuel)%nat →
  (fetch_news env self fuel w).1 =
    Returned (window_records env self (items_seen env self p)) ∧
  http_log (fetch_news env self fuel w).2 = http_log w ++ requests_of self p.
Proof.
  intros Hp Hbefore Hok Hstop Hfuel.
  destruct (fetch_news_spec env self fuel w) as (k & Hk & H).
  destruct (fetch_news env self fuel w) as [out w']. cbn [fst snd].
  destruct H as (Hh & _ & _ & _ & Hmid & Hout).
  assert (k = p) as ->.
  { destruct (decide (k < p)%nat) as [Hlt|Hge].
    - exfalso. destruct out as [ps|q ps].
      + destruct Hout as (Hk1 & Hlast).
        destruct (Hbefore (Z.of_nat k)) as [Hokk Hnok]; [lia|].
        destruct Hlast as [(? & _)|(_ & ? & _)]; congruence.
      + destruct Hout as (-> & _). lia.
    - destruct (decide (k = p)); [done|]. exfalso.
      destruct (Hmid (Z.of_nat p)) as [_ Hno]; [lia|congruence]. }
  split; [|exact Hh]. destruct out as [ps|q ps].
  - destruct Hout as (_ & [(? & _)|(_ & _ & ->)]); [congruence|done].
  - destruct Hout as (_ & _ & _ & Hall).
    destruct (Hall (Z.of_nat p)) as [_ Hno]; [lia|congruence].
Qed.

Lemma save_to_files_effects env self news w u w' :
  save_to_files env self news w = Some (u, w') →
  http_log w' = http_log w ∧
  (files w' = files w ∨
   ∃ name, files w' = <[name := dumps 4 (news_value news)]> (files w)) ∧
  (s3_calls w' = s3_calls w ∨
   ∃ bucket key,
     s3_calls w' = s3_calls w ++ [(bucket, key, dumps 4 (news_value news))]) ∧
  (s3_store w' = s3_store w ∨
   ∃ bucket key,
     s3_store w' = <[(bucket, key) := dumps 4 (news_value news)]> (s3_store w)).
Proof.
  unfold save_to_files.
  destruct (sub (end_date self) (timedelta_days 1)) as [e|]; [|done].
  destruct (truthy (bucket_name self)) as [bucket|].
  - destruct (put_object env bucket _ _); intros [= <- <-]; simpl;
      repeat split; eauto.
  - intros [= <- <-]. simpl. repeat split; eauto.
Qed.

(** [C3] When the request for page [p] is answered with a status other than
    200: the call returns once it has [p] iterations to run; and if that
    request was sent at all, it is the last one sent (nothing is retried,
    no further page is asked for), [fetch_news] has returned the empty
    list, and everything [run] then writes, to a local file or to the
    bucket, is the empty JSON array. *)
Theorem fetch_news_aborts_on_failed_request env self p fuel w :
  1 ≤ p →
  page_ok env self p = false →
  ∃ k : nat,
    let out := (fetch_news env self fuel w).1 in
    let w' := (fetch_news env self fuel w).2 in
    http_log w' = http_log w ++ requests_of self k ∧
    (p ≤ Z.of_nat fuel → has_returned out = true) ∧
    (p ≤ Z.of_nat k →
       Z.of_nat k = p ∧ out = Returned [] ∧
       run env self fuel w =
         save_to_files env self []
           (logged (info_scraping_completed 0)
              (fetch_news env self fuel (logged info_scraping_started w)).2) ∧
       ∀ u w'', run env self fuel w = Some (u, w'') →
         (files w'' = files w ∨ ∃ name, files w'' = <[name := "[]"%string]> (files w)) ∧
         (s3_calls w'' = s3_calls w ∨
          ∃ bucket key, s3_calls w'' = s3_calls w ++ [(bucket, key, "[]"%string)])).
Proof.
  intros Hp Hfail.
  assert (Hkey : ∀ w0, ∃ k : nat,
    http_log (fetch_news env self fuel w0).2 = http_log w0 ++ requests_of self k ∧
    files (fetch_news env self fuel w0).2 = files w0 ∧
    s3_calls (fetch_news env self fuel w0).2 = s3_calls w0 ∧
    (p ≤ Z.of_nat fuel → has_returned (fetch_news env self fuel w0).1 = true) ∧
    (p ≤ Z.of_nat k →
       Z.of_nat k = p ∧ (fetch_news env self fuel w0).1 = Returned [])).
  { intros w0. destruct (fetch_news_spec env self fuel w0) as (k & Hk & H).
    exists k. destruct (fetch_news env self fuel w0) as [out w']. simpl.
    destruct H as (Hh & Hf & Hc & _ & Hmid & Hout).
    repeat (split; [done|]). split.
    - intros Hfuel. destruct out as [ps|q ps]; [done|].
      destruct Hout as (-> & _ & _ & Hall).
      destruct (Hall p) as [Hok _]; [lia|congruence].
    - intros Hpk.
      assert (Z.of_nat k = p) as Hkp.
      { destruct (decide (Z.of_nat k = p)); [done|].
        destruct (Hmid p) as [Hok _]; [lia|congruence]. }
      split; [exact Hkp|]. destruct out as [ps|q ps].
      + destruct Hout as (_ & [(_ & ->)|(Hok & _)]); [done|].
        rewrite Hkp in Hok. congruence.
      + destruct Hout as (_ & _ & _ & Hall).
        destruct (Hall p) as [Hok _]; [lia|congruence]. }
  destruct (Hkey w) as (k & Hh & _ & _ & Hret & Hlast).
  exists k. simpl. split; [exact Hh|]. split; [exact Hret|].
  intros Hpk. destruct (Hlast Hpk) as [Hkp Hout].
  split; [exact Hkp|]. split; [exact Hout|].
  destruct (Hkey (logged info_scraping_started w))
    as (k' & Hh' & Hf' & Hc' & _ & Hlast').
  assert (k' = k) as ->.
  { (* the requests sent do not depend on the log *)
    destruct (while_True_frame env self fuel 1 []) as (o & reqs & lines & Hfr).
    unfold fetch_news in Hh, Hh'. rewrite Hfr in Hh, Hh'. simpl in Hh, Hh'.
    apply app_inv_head in Hh, Hh'. subst reqs.
    apply (f_equal length) in Hh'. by rewrite !requests_of_length in Hh'. }
  destruct (Hlast' Hpk) as [_ Hout'].
  assert (Hrun : run env self fuel w =
    save_to_files env self []
      (logged (info_scraping_completed 0)
         (fetch_news env self fuel (logged info_scraping_started w)).2)).
  { unfold run.
    destruct (fetch_news env self fuel (logged info_scraping_started w))
      as [o2 w2]. simpl in Hout'. subst o2. reflexivity. }
  split; [exact Hrun|].
  intros u w'' Hw''. rewrite Hrun in Hw''.
  apply save_to_files_effects in Hw'' as (_ & Hfiles & Hcalls & _).
  simpl in Hfiles, Hcalls. rewrite Hf' in Hfiles. rewrite Hc' in Hcalls.
  split; [exact Hfiles|exact Hcalls].
Qed.

Lemma fetch_news_aborts_witness :
  ∃ k : nat,
    let out := (fetch_news env_unavailable scraper_btc 5 empty_world).1 in
    let w' := (fetch_news env_unavailable scraper_btc 5 empty_world).2 in
    http_log w' = http_log empty_world ++ requests_of scraper_btc k ∧
    (1 ≤ Z.of_nat 5 → has_returned out = true) ∧
    (1 ≤ Z.of_nat k →
       Z.of_nat k = 1 ∧ out = Returned [] ∧
       run env_unavailable scraper_btc 5 empty_world =
         save_to_files env_unavailable scraper_btc []
           (logged (info_scraping_completed 0)
              (fetch_news env_unavailable scraper_btc 5
                 (logged info_scraping_started empty_world)).2) ∧
       ∀ u w'', run env_unavailable scraper_btc 5 empty_world = Some (u, w'') →
         (files w'' = files empty_world ∨
          ∃ name, files w'' = <[name := "[]"%string]> (files empty_world)) ∧
         (s3_calls w'' = s3_calls empty_world ∨
          ∃ bucket key,
            s3_calls w'' = s3_calls empty_world ++ [(bucket, key, "[]"%string)])).
Proof.
  apply (fetch_news_aborts_on_failed_request
           env_unavailable scraper_btc 1 5 empty_world).
  - lia.
  - reflexivity.
Defined.

(** ** Items whose timestamp does not parse *)

Lemma same_effects_sym w1 w2 : same_effects w1 w2 → same_effects w2 w1.
Proof. intros (? & ? & ? & ?). by repeat split. Qed.

Lemma same_effects_sent r w1 w2 :
  same_effects w1 w2 → same_effects (sent r w1) (sent r w2).
Proof. intros (? & ? & ? & ?). repeat split; simpl; congruence. Qed.

Lemma omap_cons_eq {A B} (f : A → option B) x l :
  omap f (x :: l) =
  match f x with
  | Some y => y :: omap f l
  | None => omap f l
  end.
Proof. reflexivity. Qed.

Lemma window_records_filter_parses env self items :
  window_records (without_unparseable env) self (List.filter (parses env) items) =
  window_records env self items.
Proof.
  change (window_records (without_unparseable env) self)
    with (window_records env self).
  unfold window_records. induction items as [|post items IH]; [done|].
  cbn [List.filter]. unfold parses at 1.
  destruct (parsed env post) as [published|] eqn:Hp.
  - rewrite !omap_cons_eq, IH. reflexivity.
  - rewrite omap_cons_eq, IH.
    assert (window_record env self post = None) as ->; [|done].
    unfold window_record. by rewrite Hp.
Qed.

Lemma sets_flag_filter_parses env self page items :
  existsb (sets_flag (without_unparseable env) self page)
          (List.filter (parses env) items) =
  existsb (sets_flag env self page) items.
Proof.
  change (sets_flag (without_unparseable env) self page)
    with (sets_flag env self page).
  induction items as [|post items IH]; [done|].
  cbn [List.filter existsb]. unfold parses at 1.
  destruct (parsed env post) as [published|] eqn:Hp.
  - cbn [existsb]. by rewrite IH.
  - rewrite IH.
    assert (sets_flag env self page post = false) as ->; [|done].
    unfold sets_flag. by rewrite Hp.
Qed.

Lemma while_True_without_unparseable env self fuel page posts w1 w2 :
  same_effects w1 w2 →
  (while_True (without_unparseable env) self fuel page posts w1).1 =
  (while_True env self fuel page posts w2).1 ∧
  same_effects (while_True (without_unparseable env) self fuel page posts w1).2
               (while_True env self fuel page posts w2).2.
Proof.
  revert page posts w1 w2.
  induction fuel as [|fuel IH]; intros page posts w1 w2 Hw; [done|].
  destruct (while_True_step (without_unparseable env) self fuel page posts w1)
    as (w1' & Hw1 & ->).
  destruct (while_True_step env self fuel page posts w2) as (w2' & Hw2 & ->).
  assert (Hw' : same_effects w1' w2').
  { eapply same_effects_trans; [apply same_effects_sym, Hw1|].
    eapply same_effects_trans; [|apply Hw2]. by apply same_effects_sent. }
  change (page_ok (without_unparseable env) self page)
    with (page_ok env self page).
  assert (Hrec : window_records (without_unparseable env) self
                   (page_items (without_unparseable env) self page) =
                 window_records env self (page_items env self page))
    by apply window_records_filter_parses.
  assert (Hstop : page_stops (without_unparseable env) self page =
                  page_stops env self page)
    by apply sets_flag_filter_parses.
  rewrite Hrec, Hstop.
  destruct (page_ok env self page); [|done].
  destruct (page_stops env self page); [done|].
  by apply IH.
Qed.

(** [C4] An item whose [published_at] the parser rejects is skipped: its
    iteration changes neither [posts] nor the flag and only logs the
    condition; the rest of the page is still processed, with the same posts
    and the same flag as if the item were not on the page; and taking all
    such items out of every page changes neither what [fetch_news] returns
    nor which requests it sends. *)
Theorem unparseable_item_is_skipped
    env self page pre post suf posts finished fuel w :
  parsed env post = None →
  for_post env self page (posts, finished, w) post =
    (posts, finished, logged (error_parsing_date (published_at post)) w) ∧
  (for_posts env self page (pre ++ post :: suf) (posts, finished, w)).1 =
    (for_posts env self page (pre ++ suf) (posts, finished, w)).1 ∧
  same_effects
    (for_posts env self page (pre ++ post :: suf) (posts, finished, w)).2
    (for_posts env self page (pre ++ suf) (posts, finished, w)).2 ∧
  (fetch_news (without_unparseable env) self fuel w).1 =
    (fetch_news env self fuel w).1 ∧
  http_log (fetch_news (without_unparseable env) self fuel w).2 =
    http_log (fetch_news env self fuel w).2.
Proof.
  intros Hp.
  assert (Hstep : for_post env self page (posts, finished, w) post =
    (posts, finished, logged (error_parsing_date (published_at post)) w)).
  { rewrite for_post_unfold. unfold window_record, sets_flag. rewrite Hp.
    simpl. by rewrite app_nil_r, orb_false_r. }
  split; [exact Hstep|].
  destruct (for_posts_spec env self page (pre ++ post :: suf) posts finished w)
    as (w1 & -> & Hw1).
  destruct (for_posts_spec env self page (pre ++ suf) posts finished w)
    as (w2 & -> & Hw2).
  simpl. split; [|split].
  - unfold window_records. rewrite !omap_app, !existsb_app. simpl.
    unfold window_record at 2. unfold sets_flag at 2. by rewrite Hp.
  - eapply same_effects_trans; [apply same_effects_sym, Hw1|exact Hw2].
  - destruct (while_True_without_unparseable env self fuel 1 [] w w
                (same_effects_refl w)) as [Hout Hw].
    split; [exact Hout|]. by destruct Hw as (? & _).
Qed.

Lemma unparseable_item_witness :
  for_post env_three_items scraper_btc 1 ([], false, empty_world) post_bad_date =
    ([], false,
     logged (error_parsing_date (published_at post_bad_date)) empty_world) ∧
  (for_posts env_three_items scraper_btc 1
     ([post_untitled] ++ post_bad_date :: [post_untitled])
     ([], false, empty_world)).1 =
    (for_posts env_three_items scraper_btc 1
       ([post_untitled] ++ [post_untitled]) ([], false, empty_world)).1 ∧
  same_effects
    (for_posts env_three_items scraper_btc 1
       ([post_untitled] ++ post_bad_date :: [post_untitled])
       ([], false, empty_world)).2
    (for_posts env_three_items scraper_btc 1
       ([post_untitled] ++ [post_untitled]) ([], false, empty_world)).2 ∧
  (fetch_news (without_unparseable env_three_items) scraper_btc 3 empty_world).1 =
    (fetch_news env_three_items scraper_btc 3 empty_world).1 ∧
  http_log
    (fetch_news (without_unparseable env_three_items) scraper_btc 3 empty_world).2 =
    http_log (fetch_news env_three_items scraper_btc 3 empty_world).2.
Proof.
  apply (unparseable_item_is_skipped env_three_items scraper_btc 1
           [post_untitled] post_bad_date [post_untitled] [] false 3 empty_world).
  reflexivity.
Defined.

(** ** The three-item scenario *)

(** [C5] Window 2024-01-01T00:00:00Z to 2024-01-02T00:00:00Z, currencies
    [["BTC"]], page 1 holding items dated 2024-01-01T05:00:00Z,
    2024-01-01T23:00:00Z and 2023-12-31T23:00:00Z: the flag is still down
    after the second item and up after the third, [fetch_news] returns
    exactly the records of the first two items, and the request for page 1,
    with [currencies=BTC], is the only one it sends. *)
Theorem scenario_three_items env self fuel w t1 t2 t3 :
  strptime env = py_strptime →
  start_date self = mk_datetime 2024 1 1 0 0 0 0 →
  end_date self = mk_datetime 2024 1 2 0 0 0 0 →
  currencies self = ["BTC"%string] →
  requests_get env (params self 1) =
    mk_Response 200 (Some (three_items t1 t2 t3)) →
  fetch_news env self (S fuel) w =
    (Returned
       [mk_NewsRecord "2024-01-01T05:00:00+00:00" (format_title t1);
        mk_NewsRecord "2024-01-01T23:00:00+00:00" (format_title t2)],
     sent (params self 1) w) ∧
  http_log (fetch_news env self (S fuel) w).2 = http_log w ++ [params self 1] ∧
  currencies_param (params self 1) = "BTC"%string ∧
  (for_posts env self 1 (take 2 (three_items t1 t2 t3)) ([], false, w)).1.2
    = false ∧
  (for_posts env self 1 (three_items t1 t2 t3) ([], false, w)).1.2 = true.
Proof.
  intros Hparse Hstart Hend Hcur Hget.
  assert (Hloop : ∀ w0,
    for_posts env self 1 (three_items t1 t2 t3) ([], false, w0) =
    ([mk_NewsRecord "2024-01-01T05:00:00+00:00" (format_title t1);
      mk_NewsRecord "2024-01-01T23:00:00+00:00" (format_title t2)], true, w0)).
  { intros w0. unfold for_posts, three_items, for_post. cbn [fold_left].
    cbn [published_at title]. rewrite Hparse, Hstart, Hend. reflexivity. }
  repeat split.
  - unfold fetch_news. cbn [while_True]. rewrite Hget.
    cbn [status_code negb Z.eqb Pos.eqb get_results results].
    by rewrite Hloop.
  - unfold fetch_news. cbn [while_True]. rewrite Hget.
    cbn [status_code negb Z.eqb Pos.eqb get_results results].
    by rewrite Hloop.
  - unfold params. cbn [currencies_param]. by rewrite Hcur.
  - unfold for_posts, three_items, for_post. cbn [fold_left take].
    cbn [published_at title]. rewrite Hparse, Hstart, Hend. reflexivity.
  - by rewrite Hloop.
Qed.

Lemma scenario_three_items_witness :
  fetch_news env_three_items scraper_btc 1 empty_world =
    (Returned
       [mk_NewsRecord "2024-01-01T05:00:00+00:00"
          (format_title (Some "first"%string));
        mk_NewsRecord "2024-01-01T23:00:00+00:00"
          (format_title (Some "second"%string))],
     sent (params scraper_btc 1) empty_world).
Proof.
  apply (scenario_three_items env_three_items scraper_btc 0 empty_world
           (Some "first"%string) (Some "second"%string) (Some "third"%string));
    reflexivity.
Defined.

(** ** Items without a title *)

(** [C10] An item whose timestamp parses to a time in the window and which
    has no [title] still gets its record appended, and the text of that
    record is the five characters [N], [o], [n], [e], line feed. This holds
    of the loop body, of the loop over a page that holds the item, and of
    [fetch_news] itself: once the item is on a page the call has asked for,
    the call holds that record (unless its last request failed, which
    empties the result). *)
Theorem untitled_item_gets_None_text
    env self page pre post suf posts finished w published fuel (k : nat) :
  title post = None →
  parsed env post = Some published →
  in_window self published = true →
  let record :=
    mk_NewsRecord (isoformat published)
      (String "N" (String "o" (String "n" (String "e"
         (String "010" EmptyString))))) in
  for_post env self page (posts, finished, w) post =
    (posts ++ [record],
     finished || (ltb published (start_date self) || (11 <? page)), w) ∧
  String.length (text record) = 5%nat ∧
  record ∈ (for_posts env self page (pre ++ post :: suf)
              (posts, finished, w)).1.1 ∧
  (http_log (fetch_news env self fuel w).2 = http_log w ++ requests_of self k →
   page_ok env self (Z.of_nat k) = true →
   post ∈ items_seen env self k →
   record ∈ posts_of (fetch_news env self fuel w).1) ∧
  (∀ p : nat,
     (1 ≤ p)%nat → (p ≤ fuel)%nat →
     (∀ q, 1 ≤ q < Z.of_nat p →
        page_ok env self q = true ∧ page_stops env self q = false) →
     page_ok env self (Z.of_nat p) = true →
     page_stops env self (Z.of_nat p) = true →
     post ∈ items_seen env self p →
     ∃ posts' w',
       fetch_news env self fuel w = (Returned posts', w') ∧ record ∈ posts').
Proof.
  intros Htitle Hparsed Hwin record.
  assert (Hrec : window_record env self post = Some record).
  { unfold window_record. rewrite Hparsed. simpl. rewrite Hwin.
    unfold record. by rewrite Htitle. }
  split; [|split; [|split; [|split]]].
  - rewrite for_post_unfold, Hrec, Hparsed. unfold sets_flag.
    by rewrite Hparsed.
  - reflexivity.
  - destruct (for_posts_spec env self page (pre ++ post :: suf)
                posts finished w) as (w' & -> & _).
    simpl. unfold window_records. rewrite omap_app, omap_cons_eq, Hrec.
    rewrite !elem_of_app. right. right. by left.
  - intros Hlog Hok Hin. by eapply fetch_news_records_seen.
  - intros p Hp Hfuel Hbefore Hok Hstop Hin.
    destruct (fetch_news_returns_at env self p fuel w Hp Hbefore Hok Hstop Hfuel)
      as [Hout Hlog].
    destruct (fetch_news env self fuel w) as [out w'] eqn:Hfetch.
    cbn [fst snd] in Hout, Hlog. subst out.
    eexists _, w'. split; [reflexivity|].
    unfold window_records. apply list_elem_of_omap. by exists post.
Qed.

Lemma untitled_item_witness :
  let record :=
    mk_NewsRecord (isoformat (mk_datetime 2024 1 1 12 0 0 0))
      (String "N" (String "o" (String "n" (String "e"
         (String "010" EmptyString))))) in
  for_post env_two_pages scraper_btc 1 ([], false, empty_world) post_untitled =
    ([] ++ [record],
     false || (ltb (mk_datetime 2024 1 1 12 0 0 0) (start_date scraper_btc)
               || (11 <? 1)), empty_world) ∧
  String.length (text record) = 5%nat ∧
  record ∈ (for_posts env_two_pages scraper_btc 1
              ([post_bad_date] ++ post_untitled :: [])
              ([], false, empty_world)).1.1 ∧
  (http_log (fetch_news env_two_pages scraper_btc 5 empty_world).2 =
     http_log empty_world ++ requests_of scraper_btc 2 →
   page_ok env_two_pages scraper_btc (Z.of_nat 2) = true →
   post_untitled ∈ items_seen env_two_pages scraper_btc 2 →
   record ∈ posts_of (fetch_news env_two_pages scraper_btc 5 empty_world).1) ∧
  (∀ p : nat,
     (1 ≤ p)%nat → (p ≤ 5)%nat →
     (∀ q, 1 ≤ q < Z.of_nat p →
        page_ok env_two_pages scraper_btc q = true ∧
        page_stops env_two_pages scraper_btc q = false) →
     page_ok env_two_pages scraper_btc (Z.of_nat p) = true →
     page_stops env_two_pages scraper_btc (Z.of_nat p) = true →
     post_untitled ∈ items_seen env_two_pages scraper_btc p →
     ∃ posts' w',
       fetch_news env_two_pages scraper_btc 5 empty_world =
         (Returned posts', w') ∧ record ∈ posts').
Proof.
  apply (untitled_item_gets_None_text env_two_pages scraper_btc 1
           [post_bad_date] post_untitled [] [] false empty_world
           (mk_datetime 2024 1 1 12 0 0 0) 5 2); reflexivity.
Defined.

(** ** The grouping interval *)

Lemma for_posts_set_delta env self d page items vars :
  for_posts env (set_delta d self) page items vars =
  for_posts env self page items vars.
Proof.
  revert vars. induction items as [|post items IH]; intros vars; [done|].
  rewrite !for_posts_cons, IH. by destruct vars as [[? ?] ?].
Qed.

Lemma while_True_set_delta env self d fuel page posts w :
  while_True env (set_delta d self) fuel page posts w =
  while_True env self fuel page posts w.
Proof.
  revert page posts w. induction fuel as [|fuel IH]; intros page posts w; [done|].
  cbn [while_True]. rewrite for_posts_set_delta.
  change (params (set_delta d self) page) with (params self page).
  destruct (negb _); [done|].
  destruct (for_posts env self page _ _) as [[ps fin] w1].
  destruct fin; [done|apply IH].
Qed.

(** [C9] Two runs that differ only in the grouping interval [delta] and see
    the same endpoint: [fetch_news] behaves the same in both (same records,
    same requests, same log), and so does everything after it: the file
    name, the key and the content written by [save_to_files], and [run] as a
    whole, do not depend on [delta] either. *)
Theorem delta_is_not_read env self d fuel news w :
  fetch_news env (set_delta d self) fuel w = fetch_news env self fuel w ∧
  save_to_files env (set_delta d self) news w = save_to_files env self news w ∧
  run env (set_delta d self) fuel w = run env self fuel w.
Proof.
  assert (Hfetch : ∀ w0, fetch_news env (set_delta d self) fuel w0 =
                         fetch_news env self fuel w0)
    by (intros w0; apply while_True_set_delta).
  split; [apply Hfetch|]. split; [reflexivity|].
  unfold run. rewrite Hfetch. reflexivity.
Qed.

(** ** Persisting *)

Lemma save_to_files_overflow env self news w :
  sub (end_date self) (timedelta_days 1) = None →
  save_to_files env self news w = None.
Proof. intros H. unfold save_to_files. by rewrite H. Qed.

(** [C6], as stated, fails for two kinds of run. For a window in a year
    before 1000 the name carries the year as [strftime] writes it, [999],
    and not with the four digits of [YYYY-MM-DD]: the run for 0999-12-31
    writes [cryptopanic_999-12-31_999-12-31.json] and no file of the name
    that form gives. And for a window that ends on 0001-01-01 there is no
    day before the end: [save_to_files] raises and nothing is named. *)
Lemma save_to_files_name_below_year_1000 :
  (∃ w', save_to_files env_empty_pages scraper_year_999 [] empty_world =
           Some (tt, w') ∧
         files w' !! "cryptopanic_999-12-31_999-12-31.json"%string =
           Some "[]"%string ∧
         files w' !! "cryptopanic_0999-12-31_0999-12-31.json"%string = None) ∧
  "cryptopanic_" +:+ ymd_text "-" (start_date scraper_year_999) +:+ "_"
    +:+ ymd_text "-" (previous_day (end_date scraper_year_999)) +:+ ".json" =
    "cryptopanic_0999-12-31_0999-12-31.json"%string ∧
  save_to_files env_empty_pages scraper_first_day [] empty_world = None.
Proof.
  split; [|split; reflexivity].
  exists (logged (info_saved_locally "cryptopanic_999-12-31_999-12-31.json")
            (file_written "cryptopanic_999-12-31_999-12-31.json" "[]"
               empty_world)).
  split; [reflexivity|]. cbn [files logged file_written empty_world].
  split; [apply lookup_insert_eq|].
  rewrite lookup_insert_ne by discriminate. apply lookup_empty.
Qed.

Lemma decimal_length n :
  (String.length (decimal n) ≤ 4)%nat ∧
  (n < 1000 → (String.length (decimal n) < 4)%nat).
Proof.
  unfold decimal.
  destruct (Z.ltb_spec n 10); [cbn; lia|].
  destruct (Z.ltb_spec n 100); [cbn; lia|].
  destruct (Z.ltb_spec n 1000); cbn; lia.
Qed.

Lemma decimal_four_digits n : 1000 ≤ n → decimal n = zfill 4 n.
Proof.
  intros Hn. unfold decimal.
  destruct (Z.ltb_spec n 10); [lia|].
  destruct (Z.ltb_spec n 100); [lia|].
  destruct (Z.ltb_spec n 1000); [lia|done].
Qed.

Lemma strftime_ymd_four_digits sep d :
  1000 ≤ year d → strftime_ymd sep d = ymd_text sep d.
Proof.
  intros Hy. unfold strftime_ymd, ymd_text. by rewrite decimal_four_digits.
Qed.

Lemma length_append a b :
  String.length (a +:+ b) = (String.length a + String.length b)%nat.
Proof. induction a as [|c a IH]; cbn; [done|by rewrite IH]. Qed.

Lemma zfill_length w n : String.length (zfill w n) = w.
Proof.
  revert n. induction w as [|w IH]; intros n; [done|].
  cbn [zfill]. rewrite length_append, IH. cbn. lia.
Qed.

(** [C6] as amended. The name of the output is
    [cryptopanic_<start>_<end - 1 day>.json] with both dates written by
    [strftime('%Y-%m-%d')], where [end - 1 day] is the day before [end_date]
    in the calendar. Without a bucket, [save_to_files] writes the content to
    the local file of that name; with one, it calls [put_object] on that
    bucket with the key [<start by strftime('%Y/%m/%d')>/<file name>]. The
    dates have the form [YYYY-MM-DD] (in the key [YYYY/MM/DD]) when their
    years are 1000 or later; a start date before the year 1000 makes the
    name differ from that form. For the one-day window that starts on
    2024-01-01 the local file is [cryptopanic_2024-01-01_2024-01-01.json].
    ([end_date] is a date the [datetime] type can hold, and not its very
    first day, from which no day can be subtracted.) *)
Theorem save_to_files_destination env self news w :
  valid (end_date self) = true →
  1 < toordinal (end_date self) →
  let file_name :=
    "cryptopanic_" +:+ strftime_ymd "-" (start_date self) +:+ "_"
    +:+ strftime_ymd "-" (previous_day (end_date self)) +:+ ".json" in
  let content := dumps 4 (news_value news) in
  (truthy (bucket_name self) = None →
   ∃ w', save_to_files env self news w = Some (tt, w') ∧
         files w' = <[file_name := content]> (files w) ∧
         s3_calls w' = s3_calls w) ∧
  (∀ bucket, truthy (bucket_name self) = Some bucket →
   ∃ w', save_to_files env self news w = Some (tt, w') ∧
         s3_calls w' =
           s3_calls w ++
           [(bucket,
             strftime_ymd "/" (start_date self) +:+ "/" +:+ file_name,
             content)] ∧
         files w' = files w) ∧
  (1000 ≤ year (start_date self) →
   1000 ≤ year (previous_day (end_date self)) →
   file_name =
     "cryptopanic_" +:+ ymd_text "-" (start_date self) +:+ "_"
     +:+ ymd_text "-" (previous_day (end_date self)) +:+ ".json" ∧
   strftime_ymd "/" (start_date self) +:+ "/" +:+ file_name =
     ymd_text "/" (start_date self) +:+ "/" +:+ file_name) ∧
  (year (start_date self) < 1000 →
   file_name ≠
     "cryptopanic_" +:+ ymd_text "-" (start_date self) +:+ "_"
     +:+ ymd_text "-" (previous_day (end_date self)) +:+ ".json") ∧
  (start_date self = mk_datetime 2024 1 1 0 0 0 0 →
   end_date self = mk_datetime 2024 1 2 0 0 0 0 →
   file_name = "cryptopanic_2024-01-01_2024-01-01.json"%string ∧
   strftime_ymd "/" (start_date self) +:+ "/" +:+ file_name =
     "2024/01/01/cryptopanic_2024-01-01_2024-01-01.json"%string).
Proof.
  intros Hvalid Hfirst. unfold save_to_files.
  rewrite (sub_one_day _ Hvalid Hfirst). cbv zeta.
  split; [|split; [|split; [|split]]].
  - intros ->. eexists. split; [reflexivity|]. by split.
  - intros bucket ->.
    destruct (put_object env bucket _ _); eexists; (split; [reflexivity|]);
      by split.
  - intros Hs He. by rewrite !strftime_ymd_four_digits.
  - intros Hs Heq. apply (f_equal String.length) in Heq.
    unfold strftime_ymd, ymd_text in Heq.
    rewrite !length_append, !zfill_length in Heq.
    destruct (decimal_length (year (start_date self))) as [_ Hlt].
    destruct (decimal_length (year (previous_day (end_date self)))) as [Hle _].
    specialize (Hlt Hs). lia.
  - intros -> ->. by split.
Qed.

Lemma save_to_files_destination_witness :
  (∃ w', save_to_files env_three_items scraper_btc [] empty_world =
           Some (tt, w') ∧
         files w' =
           <[ "cryptopanic_2024-01-01_2024-01-01.json"%string := "[]"%string ]>
             (files empty_world) ∧
         s3_calls w' = s3_calls empty_world) ∧
  (∃ w', save_to_files env_three_items scraper_btc_bucket [] empty_world =
           Some (tt, w') ∧
         s3_calls w' =
           s3_calls empty_world ++
           [("cryptopanic-scraper"%string,
             "2024/01/01/cryptopanic_2024-01-01_2024-01-01.json"%string,
             "[]"%string)] ∧
         files w' = files empty_world).
Proof.
  split.
  - apply (save_to_files_destination env_three_items scraper_btc []
             empty_world); reflexivity.
  - destruct (save_to_files_destination env_three_items scraper_btc_bucket []
                empty_world eq_refl eq_refl) as (_ & Hbucket & _).
    apply (Hbucket "cryptopanic-scraper"%string). reflexivity.
Defined.

(** [C7], as stated, fails: the value [save_to_files] hands back does not
    tell a failed upload from a successful local write: no reading of it as a signal is [false] on
    the first and [true] on the second. *)
Lemma save_to_files_returns_no_signal :
  (fst <$> save_to_files env_upload_fails scraper_btc_bucket [] empty_world) =
  (fst <$> save_to_files env_upload_fails scraper_btc [] empty_world) ∧
  ¬ ∃ signal : unit → bool,
      (signal ∘ fst <$>
         save_to_files env_upload_fails scraper_btc_bucket [] empty_world)
        = Some false ∧
      (signal ∘ fst <$>
         save_to_files env_upload_fails scraper_btc [] empty_world)
        = Some true.
Proof.
  split; [reflexivity|].
  intros (signal & Hfail & Hok).
  vm_compute in Hfail, Hok. congruence.
Qed.

(** [C7] as amended: [save_to_files] returns no value in any case, so
    the outcome shows in the log only. With a bucket whose [put_object]
    raises [ClientError], it makes that one call, logs the error and
    returns normally: nothing is stored, nothing is written locally. With
    no bucket, it writes the local file, replacing what the name held, and
    logs that. *)
Theorem save_to_files_outcomes env self news w end_minus_1 :
  sub (end_date self) (timedelta_days 1) = Some end_minus_1 →
  let file_name := file_name_of (start_date self) end_minus_1 in
  let content := dumps 4 (news_value news) in
  (∀ bucket,
     truthy (bucket_name self) = Some bucket →
     let s3_key := strftime_ymd "/" (start_date self) +:+ "/" +:+ file_name in
     put_object env bucket s3_key content = put_ClientError →
     ∃ w', save_to_files env self news w = Some (tt, w') ∧
           s3_calls w' = s3_calls w ++ [(bucket, s3_key, content)] ∧
           log w' = log w ++ [error_uploading s3_key] ∧
           files w' = files w ∧ s3_store w' = s3_store w ∧
           http_log w' = http_log w) ∧
  (truthy (bucket_name self) = None →
     ∃ w', save_to_files env self news w = Some (tt, w') ∧
           files w' = <[file_name := content]> (files w) ∧
           files w' !! file_name = Some content ∧
           log w' = log w ++ [info_saved_locally file_name] ∧
           s3_calls w' = s3_calls w ∧ s3_store w' = s3_store w) ∧
  (∀ u w', save_to_files env self news w = Some (u, w') → u = tt).
Proof.
  intros Hsub. unfold save_to_files. rewrite Hsub. cbn zeta.
  split; [|split].
  - intros bucket -> Hput. unfold file_name_of in *. rewrite Hput.
    eexists. split; [reflexivity|]. by repeat split.
  - intros ->. eexists. split; [reflexivity|].
    simpl. rewrite lookup_insert_eq. by repeat split.
  - by intros [] w' _.
Qed.

Lemma save_to_files_outcomes_witness :
  ∃ w', save_to_files env_upload_fails scraper_btc_bucket [] empty_world =
          Some (tt, w') ∧
        s3_calls w' =
          s3_calls empty_world ++
          [("cryptopanic-scraper"%string,
            "2024/01/01/cryptopanic_2024-01-01_2024-01-01.json"%string,
            "[]"%string)] ∧
        log w' =
          log empty_world ++
          [error_uploading "2024/01/01/cryptopanic_2024-01-01_2024-01-01.json"] ∧
        files w' = files empty_world ∧ s3_store w' = s3_store empty_world ∧
        http_log w' = http_log empty_world.
Proof.
  destruct (save_to_files_outcomes env_upload_fails scraper_btc_bucket []
              empty_world (mk_datetime 2024 1 1 0 0 0 0) eq_refl)
    as (Hupload & _ & _).
  apply (Hupload "cryptopanic-scraper"%string); reflexivity.
Defined.

(** ** Serialization *)

Section Strings.

Lemma append_assoc (a b c : string) : (a +:+ b) +:+ c = a +:+ (b +:+ c).
Proof. induction a as [|x a IH]; cbn [append]; [done|by f_equal]. Qed.

Lemma append_nil_r (a : string) : a +:+ EmptyString = a.
Proof. induction a as [|x a IH]; cbn [append]; [done|by f_equal]. Qed.

Lemma emit_emit ts1 ts2 o : emit ts1 (emit ts2 o) = emit (ts1 ++ ts2) o.
Proof. destruct o as [l|]; simpl; [|done]. by rewrite app_assoc. Qed.

Lemma emit_cons t o : cons t <$> o = emit [t] o.
Proof. by destruct o. Qed.

(** One character of a string body, escaped or not, is read back as
    itself. *)
Lemma scan_escaped_char c acc rest :
  scan (InString acc)
       (match escape_char c with
        | Some e => e +:+ rest
        | None => String c rest
        end) =
  scan (InString (acc +:+ String c EmptyString)) rest.
Proof.
  destruct c as [[] [] [] [] [] [] [] []]; reflexivity.
Qed.

Lemma scan_escape s acc rest :
  scan (InString acc) (escape s +:+ String dquote rest) =
  emit [TString (acc +:+ s)] (scan Between rest).
Proof.
  revert acc. induction s as [|c s IH]; intros acc.
  - simpl. rewrite append_nil_r. apply emit_cons.
  - pose proof (scan_escaped_char c acc (escape s +:+ String dquote rest)) as H.
    cbn [escape]. destruct (escape_char c) as [e|].
    + rewrite append_assoc, H, IH, append_assoc. reflexivity.
    + cbn [append]. rewrite H, IH, append_assoc. reflexivity.
Qed.

Lemma scan_encode_basestring s rest :
  scan Between (encode_basestring s +:+ rest) =
  emit [TString s] (scan Between rest).
Proof.
  unfold encode_basestring. cbn [append].
  change (scan Between (String dquote ?x)) with (scan (InString EmptyString) x).
  rewrite append_assoc. cbn [append]. by rewrite scan_escape.
Qed.

Lemma scan_spaces n rest : scan Between (spaces n +:+ rest) = scan Between rest.
Proof. induction n as [|n IH]; [done|exact IH]. Qed.

Lemma scan_newline_indent indent level rest :
  scan Between (newline_indent indent level +:+ rest) = scan Between rest.
Proof. unfold newline_indent. cbn [append]. apply scan_spaces. Qed.

End Strings.

Section Scanning.

Lemma value_ind' (P : value → Prop) :
  (∀ s, P (JString s)) →
  (∀ xs, Forall P xs → P (JList xs)) →
  (∀ ms, Forall (fun m => P m.2) ms → P (JDict ms)) →
  ∀ v, P v.
Proof.
  intros Hs Hl Hd. fix IH 1. intros [s|xs|ms].
  - apply Hs.
  - apply Hl. induction xs as [|x xs IHxs]; constructor; [apply IH|apply IHxs].
  - apply Hd. induction ms as [|[k x] ms IHms]; constructor;
      [apply IH|apply IHms].
Qed.

Lemma scan_punctuation c t rest :
  punctuation c = Some t →
  scan Between (String c rest) = emit [t] (scan Between rest).
Proof.
  intros H. cbn [scan].
  assert (is_whitespace c = false ∧ Ascii.eqb c dquote = false) as [-> ->].
  { revert H. destruct c as [[] [] [] [] [] [] [] []]; by vm_compute. }
  rewrite H. apply emit_cons.
Qed.

Lemma scan_joined_items indent level xs :
  Forall (scans_back indent) xs →
  ∀ x rest,
    scans_back indent x →
    scan Between
      (String.concat ("," +:+ newline_indent indent level)
         (map (iterencode indent level) (x :: xs)) +:+ rest) =
    emit (tokens_of x ++ flat_map (fun y => TComma :: tokens_of y) xs)
         (scan Between rest).
Proof.
  induction 1 as [|y xs Hy _ IH]; intros x rest Hx.
  - cbn [map String.concat flat_map]. rewrite app_nil_r. apply Hx.
  - change (String.concat ?sep (map ?f (x :: y :: xs)))
      with (f x +:+ sep +:+ String.concat sep (map f (y :: xs))).
    rewrite !append_assoc, Hx.
    change ("," +:+ ?s) with (String "," s).
    rewrite (scan_punctuation "," TComma) by reflexivity.
    rewrite scan_newline_indent, IH by exact Hy.
    rewrite !emit_emit. cbn [flat_map]. f_equal.
    by rewrite <-!app_assoc.
Qed.

Lemma scan_joined_members indent level ms :
  Forall (fun m => scans_back indent m.2) ms →
  ∀ k x rest,
    scans_back indent x →
    scan Between
      (String.concat ("," +:+ newline_indent indent level)
         (map (fun member : string * value =>
                 let '(k, x) := member in
                 encode_basestring k +:+ ": " +:+ iterencode indent level x)
              ((k, x) :: ms)) +:+ rest) =
    emit (TString k :: TColon :: tokens_of x
          ++ flat_map (fun m => TComma :: TString m.1 :: TColon :: tokens_of m.2) ms)
         (scan Between rest).
Proof.
  assert (Hone : ∀ k x rest, scans_back indent x →
    scan Between
      ((encode_basestring k +:+ ": " +:+ iterencode indent level x) +:+ rest) =
    emit (TString k :: TColon :: tokens_of x) (scan Between rest)).
  { intros k x rest Hx. rewrite !append_assoc, scan_encode_basestring.
    change (": " +:+ ?s) with (String ":" (String " " s)).
    rewrite (scan_punctuation ":" TColon) by reflexivity.
    change (scan Between (String " " ?s)) with (scan Between s).
    rewrite Hx, !emit_emit. reflexivity. }
  induction 1 as [|[k' y] ms Hy _ IH]; intros k x rest Hx.
  - cbn [map String.concat flat_map]. rewrite app_nil_r. by apply Hone.
  - change (String.concat ?sep (map ?f ((k, x) :: (k', y) :: ms)))
      with (f (k, x) +:+ sep +:+ String.concat sep (map f ((k', y) :: ms))).
    cbv beta iota. rewrite (append_assoc _ _ rest), Hone by exact Hx.
    rewrite !append_assoc.
    change ("," +:+ ?s) with (String "," s).
    rewrite (scan_punctuation "," TComma) by reflexivity.
    rewrite scan_newline_indent, IH by exact Hy.
    rewrite !emit_emit. cbn [flat_map fst snd]. f_equal.
    by rewrite <-!app_assoc.
Qed.

Lemma scan_iterencode indent v : scans_back indent v.
Proof.
  induction v as [s|xs IH|ms IH] using value_ind'; intros level rest.
  - apply scan_encode_basestring.
  - destruct xs as [|x xs].
    + cbn [iterencode tokens_of].
      change ("[]" +:+ rest) with (String "[" (String "]" rest)).
      rewrite (scan_punctuation "[" TLBracket) by reflexivity.
      rewrite (scan_punctuation "]" TRBracket) by reflexivity.
      by rewrite emit_emit.
    + inversion IH as [|? ? Hx Hxs]; subst.
      cbn [iterencode tokens_of]. cbv zeta. rewrite !append_assoc.
      change ("[" +:+ ?s) with (String "[" s).
      rewrite (scan_punctuation "[" TLBracket) by reflexivity.
      rewrite scan_newline_indent, scan_joined_items by done.
      rewrite scan_newline_indent.
      change ("]" +:+ rest) with (String "]" rest).
      rewrite (scan_punctuation "]" TRBracket) by reflexivity.
      rewrite !emit_emit. f_equal. cbn [app]. by rewrite <-!app_assoc.
  - destruct ms as [|[k x] ms].
    + cbn [iterencode tokens_of].
      change ("{}" +:+ rest) with (String "{" (String "}" rest)).
      rewrite (scan_punctuation "{" TLBrace) by reflexivity.
      rewrite (scan_punctuation "}" TRBrace) by reflexivity.
      by rewrite emit_emit.
    + inversion IH as [|? ? Hx Hxs]; subst.
      cbn [iterencode tokens_of]. cbv zeta. rewrite !append_assoc.
      change ("{" +:+ ?s) with (String "{" s).
      rewrite (scan_punctuation "{" TLBrace) by reflexivity.
      rewrite scan_newline_indent, scan_joined_members by done.
      rewrite scan_newline_indent.
      change ("}" +:+ rest) with (String "}" rest).
      rewrite (scan_punctuation "}" TRBrace) by reflexivity.
      rewrite !emit_emit. f_equal. cbn [app]. by rewrite <-!app_assoc.
Qed.

End Scanning.

Section Parsing.

(** The text of a value never starts with a closing bracket. *)
Lemma tokens_of_head v :
  ∃ t ts, tokens_of v = t :: ts ∧ t ≠ TRBracket ∧ t ≠ TRBrace.
Proof.
  destruct v as [s|[|x xs]|[|[k x] ms]]; cbn [tokens_of]; eauto.
Qed.

Lemma parse_items_tokens xs :
  Forall parses_back xs →
  ∀ fuel ts,
    (length (flat_map (fun y => TComma :: tokens_of y) xs) + 1 ≤ fuel)%nat →
    parse_items fuel
      (flat_map (fun y => TComma :: tokens_of y) xs ++ TRBracket :: ts) =
    Some (xs, ts).
Proof.
  induction 1 as [|y xs Hy _ IH]; intros fuel ts Hfuel.
  - destruct fuel as [|fuel]; [simpl in Hfuel; lia|reflexivity].
  - cbn [flat_map app length] in *. rewrite length_app in Hfuel.
    destruct fuel as [|fuel]; [lia|].
    rewrite <-app_assoc. cbn [parse_items].
    rewrite Hy by lia. cbn [mbind option_bind].
    rewrite IH by lia. reflexivity.
Qed.

Lemma parse_members_tokens ms :
  Forall (fun m => parses_back m.2) ms →
  ∀ fuel ts,
    (length (flat_map (fun m => TComma :: TString m.1 :: TColon :: tokens_of m.2)
               ms) + 1 ≤ fuel)%nat →
    parse_members fuel
      (flat_map (fun m => TComma :: TString m.1 :: TColon :: tokens_of m.2) ms
       ++ TRBrace :: ts) =
    Some (ms, ts).
Proof.
  induction 1 as [|[k y] ms Hy _ IH]; intros fuel ts Hfuel.
  - destruct fuel as [|fuel]; [simpl in Hfuel; lia|reflexivity].
  - cbn [flat_map fst snd app length] in *. rewrite length_app in Hfuel.
    destruct fuel as [|fuel]; [lia|].
    rewrite <-app_assoc. cbn [parse_members].
    rewrite Hy by lia. cbn [mbind option_bind].
    rewrite IH by lia. reflexivity.
Qed.

Lemma parse_tokens_of v : parses_back v.
Proof.
  induction v as [s|xs IH|ms IH] using value_ind'; intros fuel ts Hfuel.
  - destruct fuel as [|fuel]; [simpl in Hfuel; lia|reflexivity].
  - destruct xs as [|x xs].
    + destruct fuel as [|fuel]; [simpl in Hfuel; lia|reflexivity].
    + inversion IH as [|? ? Hx Hxs]; subst.
      cbn [tokens_of app length] in *.
      rewrite !length_app in Hfuel. cbn [length] in Hfuel.
      destruct fuel as [|fuel]; [lia|].
      rewrite <-!app_assoc.
      assert (Hgo : parse_value (S fuel)
                (TLBracket :: tokens_of x
                   ++ flat_map (fun y => TComma :: tokens_of y) xs
                   ++ [TRBracket] ++ ts) =
              '(x', ts') ← parse_value fuel
                 (tokens_of x ++ flat_map (fun y => TComma :: tokens_of y) xs
                    ++ [TRBracket] ++ ts);
              '(xs', ts'') ← parse_items fuel ts';
              Some (JList (x' :: xs'), ts'')).
      { destruct (tokens_of_head x) as (t & tl & -> & Ht & _).
        by destruct t. }
      rewrite Hgo, Hx by lia. cbn [mbind option_bind].
      change ([TRBracket] ++ ts) with (TRBracket :: ts).
      rewrite parse_items_tokens by (done || lia). reflexivity.
  - destruct ms as [|[k x] ms].
    + destruct fuel as [|fuel]; [simpl in Hfuel; lia|reflexivity].
    + inversion IH as [|? ? Hx Hxs]; subst.
      cbn [tokens_of snd app length] in *.
      rewrite !length_app in Hfuel. cbn [length] in Hfuel.
      destruct fuel as [|fuel]; [lia|].
      rewrite <-!app_assoc. cbn [parse_value].
      rewrite Hx by lia. cbn [mbind option_bind].
      change ([TRBrace] ++ ts) with (TRBrace :: ts).
      rewrite parse_members_tokens by (done || lia). reflexivity.
Qed.

(** What [dumps] writes, [loads] reads back as the same value. *)
Lemma loads_dumps indent v : loads (dumps indent v) = Some v.
Proof.
  unfold loads, dumps.
  rewrite <-(append_nil_r (iterencode indent 0 v)), scan_iterencode.
  cbn [scan emit fmap option_fmap option_map mbind option_bind].
  rewrite parse_tokens_of by (rewrite length_app; simpl; lia).
  reflexivity.
Qed.

End Parsing.

Section Document.

Lemma escape_literal s :
  (∀ c, c ∈ list_ascii_of_string s → escape_char c = None) →
  escape s = s.
Proof.
  induction s as [|c s IH]; intros Hs; [done|].
  cbn [escape]. rewrite (Hs c) by (simpl; left).
  rewrite IH; [done|]. intros c' Hc'. apply Hs. simpl. by right.
Qed.

Lemma escape_char_non_ascii c : (128 ≤ N_of_ascii c)%N → escape_char c = None.
Proof.
  destruct c as [[] [] [] [] [] [] [] []]; vm_compute; try done.
  all: intros H; by destruct H.
Qed.

Lemma iterencode_record r :
  iterencode 4 1 (JDict [("date"%string, JString (date r));
                         ("text"%string, JString (text r))]) =
  record_text r.
Proof.
  unfold record_text. cbn [iterencode map String.concat]. cbv zeta.
  rewrite !append_assoc. reflexivity.
Qed.

Lemma iterencode_map_cons {A} indent level (f : A → value) x xs :
  iterencode indent level (JList (map f (x :: xs))) =
  "[" +:+ newline_indent indent (S level)
  +:+ String.concat ("," +:+ newline_indent indent (S level))
        (map (iterencode indent (S level)) (map f (x :: xs)))
  +:+ newline_indent indent level +:+ "]".
Proof. reflexivity. Qed.

Lemma dumps_news_value news : dumps 4 (news_value news) = document_text news.
Proof.
  destruct news as [|r news]; [reflexivity|].
  unfold dumps, news_value, document_text.
  rewrite iterencode_map_cons, map_map.
  rewrite (map_ext _ record_text) by (intros; apply iterencode_record).
  reflexivity.
Qed.

Lemma getitem_record_date d t :
  getitem "date" (JDict [("date"%string, JString d); ("text"%string, JString t)])
  = Some (JString d).
Proof.
  unfold getitem, as_dict. cbn [mbind option_bind].
  change (reverse ?l) with [("text"%string, JString t); ("date"%string, JString d)].
  cbn [list_to_map foldr uncurry fst snd].
  rewrite lookup_insert_ne by done. apply lookup_insert_eq.
Qed.

Lemma getitem_record_text d t :
  getitem "text" (JDict [("date"%string, JString d); ("text"%string, JString t)])
  = Some (JString t).
Proof.
  unfold getitem, as_dict. cbn [mbind option_bind].
  change (reverse ?l) with [("text"%string, JString t); ("date"%string, JString d)].
  cbn [list_to_map foldr uncurry fst snd].
  apply lookup_insert_eq.
Qed.

End Document.

Lemma escape_app a b : escape (a +:+ b) = escape a +:+ escape b.
Proof.
  induction a as [|c a IH]; [done|].
  cbn [append escape]. rewrite IH.
  destruct (escape_char c); [by rewrite append_assoc|done].
Qed.

Lemma occurs_in_refl s : occurs_in s s.
Proof. exists EmptyString, EmptyString. by rewrite append_nil_r. Qed.

Lemma occurs_in_trans u s t : occurs_in u s → occurs_in s t → occurs_in u t.
Proof.
  intros (b1 & a1 & ->) (b2 & a2 & ->).
  exists (b2 +:+ b1), (a1 +:+ a2). by rewrite !append_assoc.
Qed.

Lemma occurs_in_append_l u s t : occurs_in u s → occurs_in u (s +:+ t).
Proof.
  intros (b & a & ->). exists b, (a +:+ t). by rewrite !append_assoc.
Qed.

Lemma occurs_in_append_r u s t : occurs_in u t → occurs_in u (s +:+ t).
Proof.
  intros (b & a & ->). exists (s +:+ b), a. by rewrite !append_assoc.
Qed.

Lemma occurs_in_concat sep (l : list string) x :
  x ∈ l → occurs_in x (String.concat sep l).
Proof.
  induction l as [|y l IH]; intros Hin; [by apply elem_of_nil in Hin|].
  destruct l as [|z l].
  - apply list_elem_of_singleton in Hin as ->. apply occurs_in_refl.
  - change (String.concat sep (y :: z :: l))
      with (y +:+ sep +:+ String.concat sep (z :: l)).
    apply elem_of_cons in Hin as [->|Hin].
    + apply occurs_in_append_l, occurs_in_refl.
    + by apply occurs_in_append_r, occurs_in_append_r, IH.
Qed.

(** [C8] The content [save_to_files] writes for [news_list] is a JSON array
    of objects laid out with four blanks per level: the text is
    [document_text], in which every blank is written out. Characters
    outside ASCII are written as they are: wherever a string holds a run of
    bytes above 127, between whatever comes before and after, the encoder
    leaves that run unchanged and in its place, so that every such run in
    the [text] or the [date] of a record stands in the content written.
    And reading the text back gives the same value: as many objects as there
    were records, the [date] and [text] of the i-th object being those of
    the i-th record. *)
Theorem news_list_round_trip (news_list : list NewsRecord) :
  dumps 4 (news_value news_list) = document_text news_list ∧
  (∀ a u b,
     (∀ c, c ∈ list_ascii_of_string u → (128 ≤ N_of_ascii c)%N) →
     encode_basestring (a +:+ u +:+ b) =
       String dquote (escape a +:+ u +:+ escape b +:+ String dquote EmptyString)) ∧
  (∀ r a u b,
     r ∈ news_list →
     text r = a +:+ u +:+ b ∨ date r = a +:+ u +:+ b →
     (∀ c, c ∈ list_ascii_of_string u → (128 ≤ N_of_ascii c)%N) →
     occurs_in u (dumps 4 (news_value news_list))) ∧
  loads (dumps 4 (news_value news_list)) = Some (news_value news_list) ∧
  ∃ objects,
    loads (dumps 4 (news_value news_list)) = Some (JList objects) ∧
    length objects = length news_list ∧
    ∀ (i : nat) r,
      news_list !! i = Some r →
      ∃ object,
        objects !! i = Some object ∧
        getitem "date" object = Some (JString (date r)) ∧
        getitem "text" object = Some (JString (text r)).
Proof.
  assert (Hliteral : ∀ a u b,
    (∀ c, c ∈ list_ascii_of_string u → (128 ≤ N_of_ascii c)%N) →
    encode_basestring (a +:+ u +:+ b) =
      String dquote (escape a +:+ u +:+ escape b +:+ String dquote EmptyString)).
  { intros a u b Hu. unfold encode_basestring.
    rewrite !escape_app, (escape_literal u), !append_assoc; [done|].
    intros c Hc. by apply escape_char_non_ascii, Hu. }
  split; [apply dumps_news_value|]. split; [exact Hliteral|]. split.
  - intros r a u b Hr Hfield Hu. rewrite dumps_news_value.
    assert (Hencoded : occurs_in u (encode_basestring (a +:+ u +:+ b))).
    { rewrite (Hliteral a u b Hu).
      exists (String dquote (escape a)), (escape b +:+ String dquote EmptyString).
      cbn [append]. by rewrite ?append_assoc. }
    assert (Hrecord : occurs_in u (record_text r)).
    { eapply occurs_in_trans; [exact Hencoded|]. unfold record_text.
      destruct Hfield as [<-|<-].
      - do 7 apply occurs_in_append_r.
        apply occurs_in_append_l, occurs_in_refl.
      - do 3 apply occurs_in_append_r.
        apply occurs_in_append_l, occurs_in_refl. }
    eapply occurs_in_trans; [exact Hrecord|].
    destruct news_list as [|r0 rs]; [by apply elem_of_nil in Hr|].
    unfold document_text. do 2 apply occurs_in_append_r.
    apply occurs_in_append_l, occurs_in_concat. apply list_elem_of_fmap. by exists r.
  - split; [apply loads_dumps|].
    eexists. split; [apply loads_dumps|]. split; [apply length_map|].
    intros i r Hi. eexists. split.
    + rewrite list_lookup_fmap, Hi. reflexivity.
    + split; [apply getitem_record_date|apply getitem_record_text].
Qed.

(** The document for one record whose title is [Café] (the [é] being the
    two bytes 195, 169 of UTF-8), character by character. *)
Lemma news_list_round_trip_witness :
  let nl := String newline EmptyString in
  let q := String dquote EmptyString in
  dumps 4 (news_value
    [mk_NewsRecord "2024-01-01T05:00:00+00:00"
       (format_title (Some ("Caf" +:+ String "195" (String "169" EmptyString))))]) =
  "[" +:+ nl
  +:+ "    {" +:+ nl
  +:+ "        " +:+ q +:+ "date" +:+ q +:+ ": "
      +:+ q +:+ "2024-01-01T05:00:00+00:00" +:+ q +:+ "," +:+ nl
  +:+ "        " +:+ q +:+ "text" +:+ q +:+ ": "
      +:+ q +:+ "Caf" +:+ String "195" (String "169" EmptyString) +:+ "\n"
      +:+ q +:+ nl
  +:+ "    }" +:+ nl
  +:+ "]".
Proof.
  exact (proj1 (news_list_round_trip
    [mk_NewsRecord "2024-01-01T05:00:00+00:00"
       (format_title (Some ("Caf" +:+ String "195" (String "169" EmptyString))))])).
Defined.

(** * Further properties of the code *)

(** ** Comparing datetimes *)

Section Order.

Lemma tuple_cmp_opp a b : tuple_cmp b a = CompOpp (tuple_cmp a b).
Proof.
  revert b. induction a as [|x a IH]; intros [|y b]; try reflexivity.
  cbn [tuple_cmp]. rewrite (Z.compare_antisym x y).
  destruct (x ?= y); cbn [CompOpp]; [apply IH|reflexivity|reflexivity].
Qed.

Lemma tuple_cmp_le_trans a b c :
  tuple_cmp a b ≠ Gt → tuple_cmp b c ≠ Gt → tuple_cmp a c ≠ Gt.
Proof.
  revert b c. induction a as [|x a IH]; intros [|y b] [|z c]; try done.
  cbn [tuple_cmp].
  destruct (Z.compare_spec x y), (Z.compare_spec y z), (Z.compare_spec x z);
    try done; try lia; subst; eauto.
Qed.

Lemma ltb_negb_leb a b : ltb a b = negb (leb b a).
Proof.
  unfold ltb, leb, cmp. rewrite (tuple_cmp_opp (fields a) (fields b)).
  by destruct (tuple_cmp (fields a) (fields b)).
Qed.

Lemma leb_trans a b c : leb a b = true → leb b c = true → leb a c = true.
Proof.
  unfold leb, cmp. intros Hab Hbc.
  pose proof (tuple_cmp_le_trans (fields a) (fields b) (fields c)) as H.
  destruct (tuple_cmp (fields a) (fields b)),
           (tuple_cmp (fields b) (fields c)),
           (tuple_cmp (fields a) (fields c)); try done; exfalso; by apply H.
Qed.

End Order.

(** ** One item *)

(** [X1] On a page up to the eleventh, an item whose timestamp parses falls
    in exactly one of three cases: it is older than [start_date], leaves no
    record and raises the flag; it is in the window, is recorded, and leaves
    the flag as it was; or it is newer than [end_date], leaves no record and
    leaves the flag as it was. Nothing is logged in any of them. *)
Theorem for_post_three_cases env self page posts finished w post published :
  parsed env post = Some published →
  page ≤ 11 →
  let record :=
    mk_NewsRecord (isoformat published) (format_title (title post)) in
  (ltb published (start_date self) = true ∧
   in_window self published = false ∧
   for_post env self page (posts, finished, w) post = (posts, true, w)) ∨
  (ltb published (start_date self) = false ∧
   in_window self published = true ∧
   for_post env self page (posts, finished, w) post =
     (posts ++ [record], finished, w)) ∨
  (ltb published (start_date self) = false ∧
   ltb (end_date self) published = true ∧
   in_window self published = false ∧
   for_post env self page (posts, finished, w) post = (posts, finished, w)).
Proof.
  intros Hparsed Hpage record.
  rewrite for_post_unfold. unfold window_record, sets_flag.
  rewrite Hparsed. cbn [mbind option_bind].
  assert ((11 <? page) = false) as -> by (apply Z.ltb_ge; lia).
  rewrite orb_false_r. unfold in_window.
  rewrite (ltb_negb_leb published), (ltb_negb_leb (end_date self)).
  destruct (leb (start_date self) published); cbn [negb andb].
  - destruct (leb published (end_date self)); cbn [negb option_list].
    + right. left. by rewrite orb_false_r.
    + right. right. by rewrite app_nil_r, orb_false_r.
  - left. by rewrite app_nil_r, orb_true_r.
Qed.

Lemma for_post_three_cases_witness :
  for_post env_two_pages scraper_btc 2 ([], false, empty_world) post_old =
    ([], true, empty_world).
Proof.
  destruct (for_post_three_cases env_two_pages scraper_btc 2 [] false
              empty_world post_old (mk_datetime 2023 12 31 23 0 0 0)
              eq_refl ltac:(lia))
    as [(_ & _ & H)|[(H & _)|(H & _)]]; [exact H|discriminate H..].
Defined.

(** ** The pagination loop *)

(** [X2] When the pages before [p] are all served with status 200 and none
    of them raises the flag, and page [p] is served and raises it, then
    with [p] iterations to run [fetch_news] returns after exactly the
    requests for pages 1 to [p], and what it returns is the window records
    of all the items of those pages, those of page [p] that come after the
    item that raised the flag included. *)
Theorem fetch_news_stops_at_first_flag env self (p : nat) fuel w :
  (1 ≤ p)%nat →
  (∀ q, 1 ≤ q < Z.of_nat p →
        page_ok env self q = true ∧ page_stops env self q = false) →
  page_ok env self (Z.of_nat p) = true →
  page_stops env self (Z.of_nat p) = true →
  (p ≤ fuel)%nat →
  (fetch_news env self fuel w).1 =
    Returned (window_records env self (items_seen env self p)) ∧
  http_log (fetch_news env self fuel w).2 = http_log w ++ requests_of self p.
Proof.
  intros Hp Hbefore Hok Hstop Hfuel.
  destruct (fetch_news_spec env self fuel w) as (k & Hk & H).
  destruct (fetch_news env self fuel w) as [out w']. cbn [fst snd].
  destruct H as (Hh & _ & _ & _ & Hmid & Hout).
  assert (k = p) as ->.
  { destruct (decide (k < p)%nat) as [Hlt|Hge].
    - exfalso. destruct out as [ps|q ps].
      + destruct Hout as (Hk1 & Hlast).
        destruct (Hbefore (Z.of_nat k)) as [Hokk Hnok]; [lia|].
        destruct Hlast as [(? & _)|(_ & ? & _)]; congruence.
      + destruct Hout as (-> & _). lia.
    - destruct (decide (k = p)); [done|]. exfalso.
      destruct (Hmid (Z.of_nat p)) as [_ Hno]; [lia|congruence]. }
  split; [|exact Hh]. destruct out as [ps|q ps].
  - destruct Hout as (_ & [(? & _)|(_ & _ & ->)]); [congruence|done].
  - destruct Hout as (_ & _ & _ & Hall).
    destruct (Hall (Z.of_nat p)) as [_ Hno]; [lia|congruence].
Qed.

Lemma fetch_news_stops_at_first_flag_witness :
  (fetch_news env_two_pages scraper_btc 5 empty_world).1 =
    Returned (window_records env_two_pages scraper_btc
                (items_seen env_two_pages scraper_btc 2)) ∧
  http_log (fetch_news env_two_pages scraper_btc 5 empty_world).2 =
    http_log empty_world ++ requests_of scraper_btc 2.
Proof.
  apply (fetch_news_stops_at_first_flag env_two_pages scraper_btc 2 5
           empty_world); try reflexivity; try lia.
  intros q Hq. assert (q = 1) as -> by lia. by split.
Defined.

(** [X3] With a parseable item on page 12 the page ceiling does its work:
    given twelve iterations to run, [fetch_news] has returned, and it has
    sent at most twelve requests. *)
Theorem fetch_news_returns_by_page_12 env self fuel w post published :
  post ∈ page_items env self 12 →
  parsed env post = Some published →
  (12 ≤ fuel)%nat →
  ∃ k, (k ≤ 12)%nat ∧
    has_returned (fetch_news env self fuel w).1 = true ∧
    http_log (fetch_news env self fuel w).2 = http_log w ++ requests_of self k.
Proof.
  intros Hin Hparsed Hfuel.
  assert (Hstop : page_stops env self 12 = true).
  { unfold page_stops. apply existsb_exists. exists post. split.
    - by apply list_elem_of_In.
    - unfold sets_flag. rewrite Hparsed. by rewrite orb_true_r. }
  destruct (fetch_news_spec env self fuel w) as (k & Hk & H).
  destruct (fetch_news env self fuel w) as [out w'].
  destruct H as (Hh & _ & _ & _ & Hmid & Hout). cbn [fst snd].
  destruct out as [ps|p ps].
  - exists k. split; [|by split].
    destruct (decide (k ≤ 12)%nat); [done|].
    destruct (Hmid 12) as [_ Hno]; [lia|congruence].
  - destruct Hout as (-> & _ & _ & Hall).
    destruct (Hall 12) as [_ Hno]; [lia|congruence].
Qed.

Lemma fetch_news_returns_by_page_12_witness :
  ∃ k, (k ≤ 12)%nat ∧
    has_returned (fetch_news env_busy scraper_btc 20 empty_world).1 = true ∧
    http_log (fetch_news env_busy scraper_btc 20 empty_world).2 =
      http_log empty_world ++ requests_of scraper_btc k.
Proof.
  apply (fetch_news_returns_by_page_12 env_busy scraper_btc 20 empty_world
           post_untitled (mk_datetime 2024 1 1 12 0 0 0)).
  - apply list_elem_of_here.
  - reflexivity.
  - lia.
Defined.

(** [X4] Pagination is not cut short: while the first eleven pages are
    served with status 200 and hold no item older than [start_date],
    [fetch_news] goes on to ask for page 12 (given the iterations to do
    so). *)
Theorem fetch_news_reaches_page_12 env self fuel w :
  (∀ q, 1 ≤ q ≤ 11 →
     page_ok env self q = true ∧
     ∀ post published,
       post ∈ page_items env self q →
       parsed env post = Some published →
       leb (start_date self) published = true) →
  (12 ≤ fuel)%nat →
  ∃ k : nat,
    (12 ≤ k)%nat ∧
    http_log (fetch_news env self fuel w).2 = http_log w ++ requests_of self k.
Proof.
  intros Hpages Hfuel.
  assert (Hgo : ∀ q, 1 ≤ q ≤ 11 → page_stops env self q = false).
  { intros q Hq. destruct (Hpages q Hq) as [_ Hitems].
    apply not_true_is_false. intros Hstop. unfold page_stops in Hstop.
    apply existsb_exists in Hstop as (post & Hin & Hflag).
    unfold sets_flag in Hflag.
    destruct (parsed env post) as [published|] eqn:Hparsed; [|done].
    rewrite ltb_negb_leb in Hflag.
    rewrite (Hitems post published) in Hflag;
      [|by apply list_elem_of_In|done].
    assert ((11 <? q) = false) as Hq11 by (apply Z.ltb_ge; lia).
    by rewrite Hq11 in Hflag. }
  destruct (fetch_news_spec env self fuel w) as (k & Hk & H).
  destruct (fetch_news env self fuel w) as [out w']. cbn [snd].
  destruct H as (Hh & _ & _ & _ & _ & Hout).
  exists k. split; [|exact Hh].
  destruct (decide (12 ≤ k)%nat); [done|]. exfalso.
  destruct out as [ps|p ps].
  - destruct Hout as (Hk1 & Hlast).
    destruct (Hpages (Z.of_nat k)) as [Hokk _]; [lia|].
    specialize (Hgo (Z.of_nat k) ltac:(lia)).
    destruct Hlast as [(? & _)|(_ & ? & _)]; congruence.
  - destruct Hout as (-> & _). lia.
Qed.

Lemma fetch_news_reaches_page_12_witness :
  ∃ k : nat,
    (12 ≤ k)%nat ∧
    http_log (fetch_news env_busy scraper_btc 20 empty_world).2 =
      http_log empty_world ++ requests_of scraper_btc k.
Proof.
  apply (fetch_news_reaches_page_12 env_busy scraper_btc 20 empty_world);
    [|lia].
  intros q _. split; [reflexivity|].
  intros post published Hin Hparsed.
  apply list_elem_of_singleton in Hin as ->.
  injection Hparsed as <-. reflexivity.
Defined.

(** [X5] A window whose end lies before its start matches nothing:
    whatever the endpoint serves, [fetch_news] holds no record at any
    point. *)
Theorem fetch_news_inverted_window env self fuel w :
  ltb (end_date self) (start_date self) = true →
  posts_of (fetch_news env self fuel w).1 = [].
Proof.
  intros Hinv.
  assert (Hnone : ∀ items, window_records env self items = []).
  { induction items as [|post items IH]; [done|].
    unfold window_records in *. rewrite omap_cons_eq, IH.
    unfold window_record, in_window.
    destruct (parsed env post) as [published|]; [|done]. cbn [mbind option_bind].
    destruct (leb (start_date self) published) eqn:H1; [|done].
    destruct (leb published (end_date self)) eqn:H2; [|done].
    rewrite ltb_negb_leb, (leb_trans _ _ _ H1 H2) in Hinv. done. }
  destruct (fetch_news_spec env self fuel w) as (k & _ & H).
  destruct (fetch_news env self fuel w) as [out w']. cbn [fst].
  destruct H as (_ & _ & _ & _ & _ & Hout).
  destruct out as [ps|p ps]; cbn [posts_of].
  - destruct Hout as (_ & [(_ & ->)|(_ & _ & ->)]); [done|apply Hnone].
  - destruct Hout as (_ & _ & -> & _). apply Hnone.
Qed.

Lemma fetch_news_inverted_window_witness :
  posts_of
    (fetch_news env_busy
       (init ["BTC"%string] "secret" (mk_datetime 2024 1 2 0 0 0 0)
          (mk_datetime 2024 1 1 0 0 0 0) (timedelta_days 1) None "")
       20 empty_world).1 = [].
Proof.
  apply (fetch_news_inverted_window env_busy
           (init ["BTC"%string] "secret" (mk_datetime 2024 1 2 0 0 0 0)
              (mk_datetime 2024 1 1 0 0 0 0) (timedelta_days 1) None "")
           20 empty_world).
  reflexivity.
Defined.

(** ** What a call logs and what it leaves alone *)

Lemma parse_errors_app env items1 items2 :
  parse_errors env (items1 ++ items2) =
  parse_errors env items1 ++ parse_errors env items2.
Proof. apply omap_app. Qed.

Lemma for_posts_exact env self page items posts finished w :
  for_posts env self page items (posts, finished, w) =
  (posts ++ window_records env self items,
   finished || existsb (sets_flag env self page) items,
   extend w [] (parse_errors env items)).
Proof.
  revert posts finished w.
  induction items as [|post items IH]; intros posts finished w.
  - cbn. by rewrite app_nil_r, orb_false_r, extend_nil.
  - rewrite for_posts_cons, for_post_unfold, IH.
    unfold window_records, parse_errors. rewrite !omap_cons_eq.
    cbn [existsb]. rewrite orb_assoc. f_equal; [f_equal|].
    + destruct (window_record env self post); cbn [option_list];
        by rewrite <-?app_assoc, ?app_nil_r.
    + destruct (parsed env post); [done|].
      by rewrite logged_extend, extend_extend.
Qed.

Lemma while_True_log env self fuel page posts w :
  ∃ k : nat,
    http_log (while_True env self fuel page posts w).2 =
      http_log w ++ (params self <$> seqZ page (Z.of_nat k)) ∧
    (log (while_True env self fuel page posts w).2 =
       log w ++ parse_errors env (items_from env self page k) ∨
     ∃ j : nat,
       k = S j ∧
       page_ok env self (page + Z.of_nat j) = false ∧
       (while_True env self fuel page posts w).1 = Returned [] ∧
       log (while_True env self fuel page posts w).2 =
         log w ++ parse_errors env (items_from env self page j)
         ++ [error_failed_fetch
               (status_code
                  (requests_get env (params self (page + Z.of_nat j))))]).
Proof.
  revert page posts w. induction fuel as [|fuel IH]; intros page posts w.
  - exists 0%nat. cbn. rewrite !app_nil_r. split; [done|by left].
  - cbn [while_True].
    destruct (status_code (requests_get env (params self page)) =? 200)
      eqn:Hok; cbn [negb].
    + rewrite for_posts_exact.
      destruct (false || existsb (sets_flag env self page)
                  (get_results (requests_get env (params self page)))).
      * exists 1%nat. cbn [fst snd extend sent http_log log].
        rewrite app_nil_r. split; [done|left].
        rewrite items_from_S.
        change (items_from env self (page + 1) 0) with (@nil Post).
        by rewrite app_nil_r.
      * destruct (IH (page + 1)
                    (posts ++ window_records env self
                       (get_results (requests_get env (params self page))))
                    (extend (sent (params self page) w) []
                       (parse_errors env
                          (get_results (requests_get env (params self page))))))
          as (k & Hh & Hlog).
        exists (S k). rewrite Hh. cbn [extend sent http_log log] in *.
        split.
        { rewrite (seqZ_cons page) by lia. rewrite fmap_cons.
          replace (Z.succ page) with (page + 1) by lia.
          replace (Z.pred (Z.of_nat (S k))) with (Z.of_nat k) by lia.
          by rewrite app_nil_r, <-app_assoc. }
        destruct Hlog as [Hlog|(j & -> & Hfail & Hout & Hlog)].
        { left. rewrite Hlog, items_from_S, parse_errors_app.
          by rewrite <-app_assoc. }
        right. exists (S j). split; [done|].
        replace (page + Z.of_nat (S j)) with (page + 1 + Z.of_nat j) by lia.
        split; [exact Hfail|]. split; [exact Hout|].
        rewrite Hlog, items_from_S, parse_errors_app.
        by rewrite <-!app_assoc.
    + exists 1%nat. cbn [fst snd logged sent http_log log].
      split; [done|right]. exists 0%nat.
      replace (page + Z.of_nat 0) with page by lia.
      unfold page_ok. rewrite Hok. repeat split.
Qed.

(** [X6] The log of a call to [fetch_news] says exactly what went wrong:
    one line for every item seen whose timestamp did not parse, with the
    raw value, in the order in which the items were met; and, if a request
    was answered with a status other than 200, one last line with that
    status, in which case the call has returned the empty list. Nothing
    else is logged. *)
Theorem fetch_news_log env self fuel w :
  ∃ k : nat,
    http_log (fetch_news env self fuel w).2 = http_log w ++ requests_of self k ∧
    (log (fetch_news env self fuel w).2 =
       log w ++ parse_errors env (items_seen env self k) ∨
     ∃ j : nat,
       k = S j ∧
       page_ok env self (Z.of_nat k) = false ∧
       (fetch_news env self fuel w).1 = Returned [] ∧
       log (fetch_news env self fuel w).2 =
         log w ++ parse_errors env (items_seen env self j)
         ++ [error_failed_fetch
               (status_code (requests_get env (params self (Z.of_nat k))))]).
Proof.
  destruct (while_True_log env self fuel 1 [] w) as (k & Hh & Hlog).
  exists k. split; [exact Hh|].
  destruct Hlog as [Hlog|(j & -> & Hfail & Hout & Hlog)]; [by left|right].
  exists j. replace (Z.of_nat (S j)) with (1 + Z.of_nat j) by lia.
  by repeat split.
Qed.

(** [X7] A call to [fetch_news] reads nothing from the world it starts in
    and writes nothing but requests and log lines: its outcome, the
    requests it sends and the lines it logs are the same from every
    starting world, and local files and the bucket are left as they
    were. *)
Theorem fetch_news_only_appends env self fuel :
  ∃ out reqs lines, ∀ w,
    fetch_news env self fuel w = (out, extend w reqs lines) ∧
    files (fetch_news env self fuel w).2 = files w ∧
    s3_calls (fetch_news env self fuel w).2 = s3_calls w ∧
    s3_store (fetch_news env self fuel w).2 = s3_store w.
Proof.
  destruct (while_True_frame env self fuel 1 []) as (out & reqs & lines & H).
  exists out, reqs, lines. intros w. unfold fetch_news. by rewrite H.
Qed.

(** ** Persisting, continued *)

(** [X8] Saving twice without a bucket: both calls write the same file
    name, the second call replaces what the first wrote under it, and
    every other local file is as it was before the two calls. *)
Theorem save_to_files_overwrites env self news1 news2 w end_minus_1 :
  truthy (bucket_name self) = None →
  sub (end_date self) (timedelta_days 1) = Some end_minus_1 →
  let file_name := file_name_of (start_date self) end_minus_1 in
  ∃ w1 w2,
    save_to_files env self news1 w = Some (tt, w1) ∧
    save_to_files env self news2 w1 = Some (tt, w2) ∧
    files w1 !! file_name = Some (dumps 4 (news_value news1)) ∧
    files w2 !! file_name = Some (dumps 4 (news_value news2)) ∧
    files w2 = <[file_name := dumps 4 (news_value news2)]> (files w) ∧
    ∀ other, other ≠ file_name → files w2 !! other = files w !! other.
Proof.
  intros Hlocal Hsub file_name. unfold save_to_files.
  rewrite Hlocal, Hsub. eexists _, _.
  split; [reflexivity|]. split; [reflexivity|].
  cbn [files logged file_written]. fold file_name.
  split; [apply lookup_insert_eq|]. split; [apply lookup_insert_eq|].
  split; [apply insert_insert_eq|].
  intros other Hother. by rewrite !lookup_insert_ne.
Qed.

Lemma save_to_files_overwrites_witness :
  ∃ w1 w2,
    save_to_files env_busy scraper_btc [] empty_world = Some (tt, w1) ∧
    save_to_files env_busy scraper_btc [mk_NewsRecord "d" "t"] w1 =
      Some (tt, w2) ∧
    files w1 !! "cryptopanic_2024-01-01_2024-01-01.json"%string =
      Some (dumps 4 (news_value [])) ∧
    files w2 !! "cryptopanic_2024-01-01_2024-01-01.json"%string =
      Some (dumps 4 (news_value [mk_NewsRecord "d" "t"])) ∧
    files w2 =
      <["cryptopanic_2024-01-01_2024-01-01.json"%string :=
          dumps 4 (news_value [mk_NewsRecord "d" "t"])]> (files empty_world) ∧
    ∀ other, other ≠ "cryptopanic_2024-01-01_2024-01-01.json"%string →
             files w2 !! other = files empty_world !! other.
Proof.
  apply (save_to_files_overwrites env_busy scraper_btc []
           [mk_NewsRecord "d" "t"] empty_world (mk_datetime 2024 1 1 0 0 0 0));
    reflexivity.
Defined.

(** [X9] A call to [save_to_files] that completes has used exactly one
    destination. Without a bucket it has written one local file and made no
    S3 call; with a bucket it has made exactly one [put_object] call with
    the whole content as body, left every local file alone, and the object
    is in the bucket under the key exactly when that call succeeded. In
    both cases it sends no HTTP request and logs exactly one line. *)
Theorem save_to_files_one_destination env self news w u w' :
  save_to_files env self news w = Some (u, w') →
  let content := dumps 4 (news_value news) in
  http_log w' = http_log w ∧
  length (log w') = S (length (log w)) ∧
  ((truthy (bucket_name self) = None ∧
    s3_calls w' = s3_calls w ∧ s3_store w' = s3_store w ∧
    ∃ file_name,
      files w' = <[file_name := content]> (files w) ∧
      log w' = log w ++ [info_saved_locally file_name]) ∨
   (∃ bucket key,
      truthy (bucket_name self) = Some bucket ∧
      files w' = files w ∧
      s3_calls w' = s3_calls w ++ [(bucket, key, content)] ∧
      ((put_object env bucket key content = put_ok ∧
        s3_store w' = <[(bucket, key) := content]> (s3_store w) ∧
        log w' = log w ++ [info_uploaded key]) ∨
       (put_object env bucket key content = put_ClientError ∧
        s3_store w' = s3_store w ∧
        log w' = log w ++ [error_uploading key])))).
Proof.
  unfold save_to_files.
  destruct (sub (end_date self) (timedelta_days 1)) as [e|]; [|done].
  destruct (truthy (bucket_name self)) as [bucket|].
  - destruct (put_object env bucket _ _) eqn:Hput; intros [= <- <-];
      cbn [http_log log files s3_calls s3_store logged put_called object_stored];
      rewrite length_app; cbn [length];
      (split; [done|]); (split; [lia|]); right; eexists _, _;
      (split; [reflexivity|]); (split; [reflexivity|]);
      (split; [reflexivity|]); [left|right];
      (split; [exact Hput|by split]).
  - intros [= <- <-].
    cbn [http_log log files s3_calls s3_store logged file_written].
    rewrite length_app. cbn [length].
    split; [done|]. split; [lia|]. left. repeat split. by eexists.
Qed.

Lemma save_to_files_one_destination_witness :
  http_log
    (logged (info_uploaded "2024/01/01/cryptopanic_2024-01-01_2024-01-01.json")
       (object_stored "cryptopanic-scraper"
          "2024/01/01/cryptopanic_2024-01-01_2024-01-01.json" "[]"
          (put_called "cryptopanic-scraper"
             "2024/01/01/cryptopanic_2024-01-01_2024-01-01.json" "[]"
             empty_world))) = http_log empty_world.
Proof.
  exact (proj1 (save_to_files_one_destination env_busy scraper_btc_bucket []
                  empty_world tt _ eq_refl)).
Defined.

(** ** Digits, dates and file names *)

Section Digits.

Lemma append_inj_length a a' b b' :
  String.length a = String.length a' →
  a +:+ b = a' +:+ b' → a = a' ∧ b = b'.
Proof.
  revert a'. induction a as [|c a IH]; intros [|c' a'] Hlen Heq; try done.
  cbn in Hlen, Heq. injection Heq as -> Heq.
  destruct (IH a') as [-> ->]; [lia|done|done].
Qed.

Lemma N_of_ascii_digit n :
  N_of_ascii (digit n) = (48 + Z.to_N (n mod 10))%N.
Proof.
  unfold digit. apply N_ascii_embedding.
  pose proof (Z.mod_pos_bound n 10 ltac:(lia)). lia.
Qed.

Lemma digit_value_digit n : digit_value (digit n) = Some (n mod 10).
Proof.
  unfold digit_value. rewrite N_of_ascii_digit.
  pose proof (Z.mod_pos_bound n 10 ltac:(lia)) as Hn.
  assert (((48 <=? 48 + Z.to_N (n mod 10)) &&
           (48 + Z.to_N (n mod 10) <=? 57))%N = true) as ->.
  { apply andb_true_iff. rewrite !N.leb_le. lia. }
  f_equal. lia.
Qed.

Lemma digit_inj n m : digit n = digit m → n mod 10 = m mod 10.
Proof.
  intros H. apply (f_equal digit_value) in H.
  rewrite !digit_value_digit in H. by injection H.
Qed.

Lemma zfill_inj w n m :
  0 ≤ n < 10 ^ Z.of_nat w → 0 ≤ m < 10 ^ Z.of_nat w →
  zfill w n = zfill w m → n = m.
Proof.
  revert n m. induction w as [|w IH]; intros n m Hn Hm Heq.
  - change (10 ^ Z.of_nat 0) with 1 in *. lia.
  - rewrite Nat2Z.inj_succ, Z.pow_succ_r in Hn, Hm by lia.
    cbn [zfill] in Heq.
    apply append_inj_length in Heq as [Hhigh Hlow];
      [|by rewrite !zfill_length].
    injection Hlow as Hlow. apply digit_inj in Hlow.
    apply IH in Hhigh; [|Z.div_mod_to_equations; lia..].
    Z.div_mod_to_equations. lia.
Qed.

Lemma string_cons_inj c a b : String c a = String c b → a = b.
Proof. by intros [= ->]. Qed.

Lemma digit_neq c n : digit_value c = None → digit n ≠ c.
Proof. intros Hc <-. by rewrite digit_value_digit in Hc. Qed.

Lemma decimal_zfill n :
  0 ≤ n ≤ 9999 →
  ∃ w : nat, (1 ≤ w ≤ 4)%nat ∧ decimal n = zfill w n ∧ n < 10 ^ Z.of_nat w.
Proof.
  intros Hn. unfold decimal.
  destruct (Z.ltb_spec n 10); [exists 1%nat; split; [lia|split; [done|cbn; lia]]|].
  destruct (Z.ltb_spec n 100); [exists 2%nat; split; [lia|split; [done|cbn; lia]]|].
  destruct (Z.ltb_spec n 1000); [exists 3%nat; split; [lia|split; [done|cbn; lia]]|].
  exists 4%nat. split; [lia|split; [done|cbn; lia]].
Qed.

(** A year without padding, followed by a character that is no digit: the
    year and what follows are told apart. *)
Lemma decimal_inj c n m r r' :
  digit_value c = None →
  0 ≤ n ≤ 9999 → 0 ≤ m ≤ 9999 →
  decimal n +:+ String c r = decimal m +:+ String c r' → n = m ∧ r = r'.
Proof.
  intros Hc Hn Hm Heq.
  destruct (decimal_zfill n Hn) as (w & Hw & Hdn & Hnw).
  destruct (decimal_zfill m Hm) as (w' & Hw' & Hdm & Hmw).
  rewrite Hdn, Hdm in Heq. clear Hdn Hdm.
  destruct (decide (w = w')) as [<-|Hne].
  - apply append_inj_length in Heq as [Hnum Hrest];
      [|by rewrite !zfill_length].
    injection Hrest as ->. split; [|done].
    eapply zfill_inj; [| |exact Hnum]; lia.
  - exfalso.
    destruct w as [|[|[|[|[|w]]]]]; try lia;
      destruct w' as [|[|[|[|[|w']]]]]; try lia; try done;
      cbn [zfill append] in Heq; simplify_eq;
      rewrite digit_value_digit in Hc; discriminate Hc.
Qed.

Lemma strftime_ymd_inj a b rest rest' :
  valid a = true → valid b = true →
  strftime_ymd "-" a +:+ rest = strftime_ymd "-" b +:+ rest' →
  same_date a b ∧ rest = rest'.
Proof.
  rewrite !valid_spec.
  intros (Hy & Hm & Hd & _) (Hy' & Hm' & Hd' & _) Heq.
  pose proof (days_in_month_bounds (year a) (month a) Hm).
  pose proof (days_in_month_bounds (year b) (month b) Hm').
  unfold strftime_ymd in Heq. rewrite !append_assoc in Heq.
  change ("-" +:+ ?x) with (String "-" x) in Heq.
  apply decimal_inj in Heq as [Hyear Heq]; [|done|lia|lia].
  apply append_inj_length in Heq as [Hmonth Heq]; [|by rewrite !zfill_length].
  apply string_cons_inj in Heq.
  apply append_inj_length in Heq as [Hday Heq]; [|by rewrite !zfill_length].
  split; [|exact Heq].
  repeat split; [exact Hyear| |]; (eapply zfill_inj; [| |eassumption]);
    cbn [Z.of_nat Pos.of_succ_nat Pos.succ]; lia.
Qed.

End Digits.

(** [X10] The name of the output file tells the dates of the window and
    nothing else: for dates the [datetime] type can hold, two windows get
    the same file name exactly when their start dates fall on the same day
    and so do the days the name takes from their end dates. Runs for
    different days never share a name, although years before 1000 make
    names of different lengths; runs that differ only in the time of day
    always do. *)
Theorem file_name_of_same_dates s e s' e' :
  valid s = true → valid e = true → valid s' = true → valid e' = true →
  file_name_of s e = file_name_of s' e' ↔ same_date s s' ∧ same_date e e'.
Proof.
  intros Hs He Hs' He'. unfold file_name_of. split.
  - intros Heq. apply String.app_inj in Heq.
    apply strftime_ymd_inj in Heq as [Hstart Heq]; [|done..].
    change ("_" +:+ ?x) with (String "_" x) in Heq.
    apply string_cons_inj in Heq.
    apply strftime_ymd_inj in Heq as [Hend _]; [|done..].
    by split.
  - intros [(Hy & Hm & Hd) (Hy' & Hm' & Hd')]. unfold strftime_ymd.
    by rewrite Hy, Hm, Hd, Hy', Hm', Hd'.
Qed.

Lemma file_name_of_same_dates_witness :
  file_name_of (mk_datetime 999 1 1 0 0 0 0) (mk_datetime 2024 1 1 0 0 0 0) =
  file_name_of (mk_datetime 999 1 1 6 30 0 0) (mk_datetime 2024 1 1 23 0 0 0)
  ↔ same_date (mk_datetime 999 1 1 0 0 0 0) (mk_datetime 999 1 1 6 30 0 0) ∧
    same_date (mk_datetime 2024 1 1 0 0 0 0) (mk_datetime 2024 1 1 23 0 0 0).
Proof.
  apply (file_name_of_same_dates
           (mk_datetime 999 1 1 0 0 0 0) (mk_datetime 2024 1 1 0 0 0 0)
           (mk_datetime 999 1 1 6 30 0 0) (mk_datetime 2024 1 1 23 0 0 0));
    reflexivity.
Defined.

(** ** A whole run *)

(** [X11] When [run] completes, [fetch_news] had returned some list of
    posts; [run] logged the number of those posts and then the one line of
    [save_to_files], sent no further request, and everything it wrote, to a
    local file or as the body of a [put_object] call, reads back with
    [json.loads] as exactly those posts. *)
Theorem run_writes_what_was_fetched env self fuel w u w' :
  run env self fuel w = Some (u, w') →
  ∃ posts w1 line,
    fetch_news env self fuel (logged info_scraping_started w) =
      (Returned posts, w1) ∧
    log w' = log w1 ++ [info_scraping_completed (length posts); line] ∧
    http_log w' = http_log w1 ∧
    (∀ name content,
       files w' !! name = Some content →
       files w !! name = Some content ∨
       loads content = Some (news_value posts)) ∧
    (∀ call,
       call ∈ s3_calls w' →
       call ∈ s3_calls w ∨ loads call.2 = Some (news_value posts)).
Proof.
  unfold run.
  destruct (while_True_frame env self fuel 1 []) as (out & reqs & lines & Hfr).
  unfold fetch_news. rewrite Hfr.
  destruct out as [posts|p ps]; [|done].
  intros Hsave. exists posts, (extend (logged info_scraping_started w) reqs lines).
  unfold save_to_files in Hsave.
  destruct (sub (end_date self) (timedelta_days 1)) as [e|]; [|done].
  destruct (truthy (bucket_name self)) as [bucket|].
  - destruct (put_object env bucket _ _); injection Hsave as <- <-;
      eexists; (split; [reflexivity|]);
      cbn [log http_log files s3_calls logged put_called object_stored extend];
      (split; [by rewrite <-app_assoc|]); (split; [done|]);
      (split; [by left|]);
      intros call Hcall; apply elem_of_app in Hcall as [Hcall|Hcall];
      [by left|right|by left|right];
      apply list_elem_of_singleton in Hcall as ->; apply loads_dumps.
  - injection Hsave as <- <-. eexists. split; [reflexivity|].
    cbn [log http_log files s3_calls logged file_written extend].
    split; [by rewrite <-app_assoc|]. split; [done|]. split; [|by left].
    intros name content Hname.
    destruct (decide (name = file_name_of (start_date self) e)) as [->|Hne].
    + rewrite lookup_insert_eq in Hname. injection Hname as <-.
      right. apply loads_dumps.
    + rewrite lookup_insert_ne in Hname by done. by left.
Qed.

Lemma run_writes_what_was_fetched_witness :
  ∃ posts w1 line,
    fetch_news env_two_pages scraper_btc 5
      (logged info_scraping_started empty_world) = (Returned posts, w1) ∧
    log (default empty_world
           (snd <$> run env_two_pages scraper_btc 5 empty_world)) =
      log w1 ++ [info_scraping_completed (length posts); line] ∧
    http_log (default empty_world
                (snd <$> run env_two_pages scraper_btc 5 empty_world)) =
      http_log w1 ∧
    (∀ name content,
       files (default empty_world
                (snd <$> run env_two_pages scraper_btc 5 empty_world))
         !! name = Some content →
       files empty_world !! name = Some content ∨
       loads content = Some (news_value posts)) ∧
    (∀ call,
       call ∈ s3_calls (default empty_world
                          (snd <$> run env_two_pages scraper_btc 5 empty_world)) →
       call ∈ s3_calls empty_world ∨ loads call.2 = Some (news_value posts)).
Proof.
  apply (run_writes_what_was_fetched env_two_pages scraper_btc 5 empty_world tt).
  reflexivity.
Defined.

(** ** The shape of a record *)

Lemma is_ascii_append a b : is_ascii (a +:+ b) = is_ascii a && is_ascii b.
Proof.
  unfold is_ascii. induction a as [|c a IH]; [done|].
  cbn [append list_ascii_of_string forallb]. by rewrite IH, andb_assoc.
Qed.

Lemma is_ascii_zfill w n : is_ascii (zfill w n) = true.
Proof.
  revert n. induction w as [|w IH]; intros n; [done|].
  cbn [zfill]. rewrite is_ascii_append, IH. unfold is_ascii.
  cbn [list_ascii_of_string forallb]. rewrite N_of_ascii_digit.
  rewrite andb_true_r. apply N.ltb_lt.
  pose proof (Z.mod_pos_bound n 10 ltac:(lia)). lia.
Qed.

Lemma is_ascii_utc_stamp d : is_ascii (utc_stamp d +:+ "Z") = true.
Proof. unfold utc_stamp. by rewrite !is_ascii_append, !is_ascii_zfill. Qed.

Lemma utc_stamp_length d : String.length (utc_stamp d) = 19%nat.
Proof. unfold utc_stamp. by rewrite !length_append, !zfill_length. Qed.

Lemma isoformat_utc_stamp d :
  microsecond d = 0 → isoformat d = utc_stamp d +:+ "+00:00".
Proof.
  intros Hus. unfold isoformat, utc_stamp. rewrite Hus.
  cbn [Z.eqb]. by rewrite !append_assoc.
Qed.

(** [X12] With a parser that yields whole seconds, as
    [strptime(_, "%Y-%m-%dT%H:%M:%SZ")] does, every record [fetch_news]
    holds has a [date] of exactly 25 characters, 19 of timestamp followed
    by [+00:00], and a [text] that ends in a line feed. *)
Theorem fetch_news_record_shape env self fuel w r :
  (∀ s d, strptime env s = Some d → microsecond d = 0) →
  r ∈ posts_of (fetch_news env self fuel w).1 →
  String.length (date r) = 25%nat ∧
  (∃ stamp,
     date r = stamp +:+ "+00:00" ∧ String.length stamp = 19%nat) ∧
  ∃ t, text r = t +:+ String newline EmptyString.
Proof.
  intros Hwhole Hr.
  assert (Hfrom : ∃ post, window_record env self post = Some r).
  { destruct (fetch_news_spec env self fuel w) as (k & _ & H).
    destruct (fetch_news env self fuel w) as [out w']. cbn [fst] in Hr.
    destruct H as (_ & _ & _ & _ & _ & Hout).
    assert (Hposts : posts_of out = [] ∨
              posts_of out = window_records env self (items_seen env self k)).
    { destruct out as [ps|p ps]; cbn [posts_of].
      - destruct Hout as (_ & [(_ & ->)|(_ & _ & ->)]); [by left|by right].
      - destruct Hout as (_ & _ & -> & _). by right. }
    destruct Hposts as [Hnil|Hrec]; rewrite ?Hnil, ?Hrec in Hr.
    - by apply elem_of_nil in Hr.
    - unfold window_records in Hr.
      apply list_elem_of_omap in Hr as (post & _ & Hpost). by exists post. }
  destruct Hfrom as (post & Hpost).
  apply window_record_Some in Hpost as (published & Hparsed & _ & _ & ->).
  assert (Hus : microsecond published = 0).
  { unfold parsed in Hparsed.
    destruct (published_at post) as [s|]; [|done]. by apply (Hwhole s). }
  cbn [date text]. rewrite (isoformat_utc_stamp _ Hus).
  split; [by rewrite length_append, utc_stamp_length|].
  split; [exists (utc_stamp published); by rewrite utc_stamp_length|].
  unfold format_title. by eexists.
Qed.

Lemma py_strptime_valid s d :
  py_strptime s = Some d → valid d = true ∧ microsecond d = 0.
Proof.
  unfold py_strptime. intros H.
  repeat match type of H with
         | mbind _ ?x = Some _ =>
             destruct x as [?|]; cbn [mbind option_bind] in H; [|discriminate H]
         | (let '(_, _) := ?p in _) = Some _ => destruct p
         end.
  match type of H with
  | match ?rest with EmptyString => _ | String _ _ => _ end = _ =>
      destruct rest; [|discriminate H]
  end.
  destruct (valid _) eqn:Hvalid; [|discriminate H].
  injection H as <-. by split.
Qed.

Lemma fetch_news_record_shape_witness :
  String.length "2024-01-01T12:00:00+00:00" = 25%nat ∧
  (∃ stamp,
     "2024-01-01T12:00:00+00:00"%string = stamp +:+ "+00:00" ∧
     String.length stamp = 19%nat) ∧
  ∃ t, format_title None = t +:+ String newline EmptyString.
Proof.
  apply (fetch_news_record_shape env_two_pages scraper_btc 5 empty_world
           (mk_NewsRecord "2024-01-01T12:00:00+00:00" (format_title None))).
  - intros s d H. by apply (py_strptime_valid s d).
  - apply list_elem_of_here.
Defined.

(** ** Timestamps in the endpoint's own format *)

(** Reads a literal of the format off the front of the text. *)
Ltac read_literal :=
  repeat (progress
    cbn [mbind option_bind literal append Ascii.eqb Bool.eqb orb andb]).

Section Stamps.

Lemma four_digits_zfill y rest :
  0 ≤ y < 10000 → four_digits (zfill 4 y +:+ rest) = Some (y, rest).
Proof.
  intros Hy. cbn [zfill append]. unfold four_digits.
  rewrite !digit_value_digit. f_equal. f_equal.
  Z.div_mod_to_equations. lia.
Qed.

Lemma zfill_2 n rest :
  zfill 2 n +:+ rest = String (digit (n / 10)) (String (digit n) rest).
Proof. reflexivity. Qed.

Lemma field_zfill two one n rest :
  0 ≤ n < 100 →
  two (n / 10) (n mod 10) = true →
  field two one (zfill 2 n +:+ rest) = Some (n, rest).
Proof.
  intros Hn Htwo. rewrite zfill_2. unfold field.
  rewrite !digit_value_digit.
  replace ((n / 10) mod 10) with (n / 10) by (Z.div_mod_to_equations; lia).
  rewrite Htwo. f_equal. f_equal. Z.div_mod_to_equations. lia.
Qed.

Lemma day_field_zfill n rest :
  1 ≤ n ≤ 31 → day_field (zfill 2 n +:+ rest) = Some (n, rest).
Proof.
  intros Hn. rewrite zfill_2.
  assert (Htwo : ((n / 10 =? 3) && (n mod 10 <=? 1))
                 || ((1 <=? n / 10) && (n / 10 <=? 2))
                 || ((n / 10 =? 0) && (1 <=? n mod 10)) = true).
  { rewrite !orb_true_iff, !andb_true_iff, !Z.eqb_eq, !Z.leb_le.
    Z.div_mod_to_equations. lia. }
  pose proof (field_zfill
    (fun a b => ((a =? 3) && (b <=? 1)) || ((1 <=? a) && (a <=? 2))
                || ((a =? 0) && (1 <=? b)))
    (fun a => 1 <=? a) n rest ltac:(lia) Htwo) as Hfield.
  rewrite zfill_2 in Hfield.
  assert (n / 10 = 0 ∨ n / 10 = 1 ∨ n / 10 = 2 ∨ n / 10 = 3) as Hhigh
    by (Z.div_mod_to_equations; lia).
  destruct Hhigh as [Hh|[Hh|[Hh|Hh]]]; rewrite Hh in Hfield |- *;
    exact Hfield.
Qed.

Lemma py_strptime_utc_stamp d :
  valid d = true → microsecond d = 0 →
  py_strptime (utc_stamp d +:+ "Z") = Some d.
Proof.
  intros Hvalid Hus. pose proof Hvalid as Hv. rewrite valid_spec in Hv.
  destruct Hv as (Hy & Hm & Hd & Hh & Hmi & Hs & _).
  pose proof (days_in_month_bounds (year d) (month d) Hm).
  unfold utc_stamp, py_strptime. rewrite !append_assoc.
  rewrite four_digits_zfill by lia. read_literal.
  unfold month_field. rewrite field_zfill; [|lia|].
  2:{ rewrite orb_true_iff, !andb_true_iff, !Z.eqb_eq, !Z.leb_le.
      Z.div_mod_to_equations. lia. }
  read_literal. rewrite day_field_zfill by lia. read_literal.
  unfold hour_field. rewrite field_zfill; [|lia|].
  2:{ rewrite orb_true_iff, !andb_true_iff, !Z.eqb_eq, !Z.leb_le.
      Z.div_mod_to_equations. lia. }
  read_literal. unfold minute_field. rewrite field_zfill; [|lia|].
  2:{ rewrite Z.leb_le. Z.div_mod_to_equations. lia. }
  read_literal. unfold second_field. rewrite field_zfill; [|lia|].
  2:{ rewrite orb_true_iff, !andb_true_iff, !Z.eqb_eq, !Z.leb_le.
      Z.div_mod_to_equations. lia. }
  read_literal.
  destruct d as [y m dd hh mi ss us]. cbn [microsecond] in Hus. subst us.
  cbn [year month day hour minute second]. by rewrite Hvalid.
Qed.

End Stamps.

Lemma elem_of_parse_errors env items v :
  error_parsing_date v ∈ parse_errors env items →
  ∃ post, post ∈ items ∧ parsed env post = None ∧ published_at post = v.
Proof.
  unfold parse_errors. intros H.
  apply list_elem_of_omap in H as (post & Hin & Hpost).
  exists post. split; [exact Hin|].
  destruct (parsed env post); [done|]. by injection Hpost as ->.
Qed.

(** [X13] An item stamped in the endpoint's format
    [YYYY-MM-DDTHH:MM:SSZ], zero-filled, with a date and time that exist,
    is never skipped, the parser being the library's (on ASCII text, the
    model of it). The loop body takes it as that very time: it logs
    nothing, appends the record when the time is in the window, and the
    record carries the same stamp with [+00:00] in place of the [Z]. A call
    to [fetch_news] logs no parse error for such a stamp; and when the item
    is on a page the call has asked for and its time is in the window, the
    call holds that record (unless its last request failed). *)
Theorem stamped_item_is_recorded
    env self fuel w (k : nat) page posts finished w0 post d :
  (∀ s, is_ascii s = true → strptime env s = py_strptime s) →
  valid d = true →
  microsecond d = 0 →
  published_at post = Some (utc_stamp d +:+ "Z") →
  let record :=
    mk_NewsRecord (utc_stamp d +:+ "+00:00") (format_title (title post)) in
  for_post env self page (posts, finished, w0) post =
    (if in_window self d then posts ++ [record] else posts,
     finished || (ltb d (start_date self) || (11 <? page)), w0) ∧
  (error_parsing_date (published_at post) ∈ log (fetch_news env self fuel w).2 →
   error_parsing_date (published_at post) ∈ log w) ∧
  (http_log (fetch_news env self fuel w).2 = http_log w ++ requests_of self k →
   page_ok env self (Z.of_nat k) = true →
   post ∈ items_seen env self k →
   in_window self d = true →
   record ∈ posts_of (fetch_news env self fuel w).1).
Proof.
  intros Hparser Hvalid Hus Hstamp record.
  assert (Hparsed : parsed env post = Some d).
  { unfold parsed. rewrite Hstamp. cbn [mbind option_bind].
    rewrite Hparser by apply is_ascii_utc_stamp.
    by apply py_strptime_utc_stamp. }
  assert (Hrec : window_record env self post =
                 if in_window self d then Some record else None).
  { unfold window_record. rewrite Hparsed. cbn [mbind option_bind].
    unfold record. by rewrite (isoformat_utc_stamp d Hus). }
  split; [|split].
  - rewrite for_post_unfold, Hrec, Hparsed. unfold sets_flag. rewrite Hparsed.
    destruct (in_window self d); cbn [option_list]; by rewrite ?app_nil_r.
  - intros Hin. unfold fetch_news in Hin.
    destruct (while_True_log env self fuel 1 [] w)
      as (k' & _ & [Hlog|(j & _ & _ & _ & Hlog)]);
      rewrite Hlog in Hin; clear Hlog;
      rewrite ?app_assoc in Hin;
      repeat (apply elem_of_app in Hin as [Hin|Hin]); try done.
    + apply elem_of_parse_errors in Hin as (post' & _ & Hnone & Hsame).
      unfold parsed in Hnone, Hparsed. rewrite Hsame in Hnone. congruence.
    + apply elem_of_parse_errors in Hin as (post' & _ & Hnone & Hsame).
      unfold parsed in Hnone, Hparsed. rewrite Hsame in Hnone. congruence.
    + by apply list_elem_of_singleton in Hin.
  - intros Hlog Hok Hin Hwin. rewrite Hwin in Hrec.
    by eapply fetch_news_records_seen.
Qed.

Lemma stamped_item_is_recorded_witness :
  let record :=
    mk_NewsRecord (utc_stamp (mk_datetime 2024 1 1 12 0 0 0) +:+ "+00:00")
                  (format_title (title post_untitled)) in
  for_post env_busy scraper_btc 3 ([], false, empty_world) post_untitled =
    (if in_window scraper_btc (mk_datetime 2024 1 1 12 0 0 0)
     then [] ++ [record] else [],
     false || (ltb (mk_datetime 2024 1 1 12 0 0 0) (start_date scraper_btc)
               || (11 <? 3)), empty_world) ∧
  (error_parsing_date (published_at post_untitled)
     ∈ log (fetch_news env_busy scraper_btc 3 empty_world).2 →
   error_parsing_date (published_at post_untitled) ∈ log empty_world) ∧
  (http_log (fetch_news env_busy scraper_btc 3 empty_world).2 =
     http_log empty_world ++ requests_of scraper_btc 3 →
   page_ok env_busy scraper_btc (Z.of_nat 3) = true →
   post_untitled ∈ items_seen env_busy scraper_btc 3 →
   in_window scraper_btc (mk_datetime 2024 1 1 12 0 0 0) = true →
   record ∈ posts_of (fetch_news env_busy scraper_btc 3 empty_world).1).
Proof.
  apply (stamped_item_is_recorded env_busy scraper_btc 3 empty_world 3 3
           [] false empty_world post_untitled (mk_datetime 2024 1 1 12 0 0 0));
    reflexivity.
Defined.

(** ** The file determines the records *)

Lemma news_value_inj l1 l2 : news_value l1 = news_value l2 → l1 = l2.
Proof.
  unfold news_value. intros [= H]. revert l2 H.
  induction l1 as [|[d1 t1] l1 IH]; intros [|[d2 t2] l2] H; try done.
  cbn in H. injection H as -> -> H. f_equal. by apply IH.
Qed.

(** [X14] The content written determines the records: two lists of records
    that serialize to the same text are the same list. *)
Theorem dumps_news_value_inj l1 l2 :
  dumps 4 (news_value l1) = dumps 4 (news_value l2) → l1 = l2.
Proof.
  intros H. apply (f_equal loads) in H. rewrite !loads_dumps in H.
  apply news_value_inj. congruence.
Qed.

Lemma dumps_news_value_inj_witness :
  [mk_NewsRecord "d" "t"] = [mk_NewsRecord "d" "t"].
Proof.
  apply (dumps_news_value_inj [mk_NewsRecord "d" "t"] [mk_NewsRecord "d" "t"]).
  reflexivity.
Defined.

(** ** The driver *)

Section Driver.


Lemma mapM_as_str coins : mapM as_str (JString <$> coins) = Some coins.
Proof.
  apply mapM_Some. induction coins as [|c coins IH]; constructor; done.
Qed.

End Driver.




Lemma save_to_files_None env self news w :
  save_to_files env self news w = None ↔
  sub (end_date self) (timedelta_days 1) = None.
Proof.
  unfold save_to_files.
  destruct (sub (end_date self) (timedelta_days 1)) as [e|]; [|done].
  destruct (truthy (bucket_name self)) as [bucket|]; [|done].
  by destruct (put_object env bucket _ _).
Qed.

(** [run] gives no result for one of two reasons. *)
Lemma run_raised_None env self fuel w e :
  sub (end_date self) (timedelta_days 1) = Some e →
  run_raised env self fuel w = None.
Proof.
  intros Hsub. unfold run_raised.
  destruct (fetch_news env self fuel _) as [[posts|p ps] w1]; [|done].
  destruct (save_to_files env self posts _) eqn:Hsave; [done|].
  apply save_to_files_None in Hsave. congruence.
Qed.




Section DefaultWindow.

Lemma valid_midnight d : valid d = true → valid (midnight d) = true.
Proof.
  rewrite !valid_spec. intros (Hy & Hm & Hd & _). cbn. repeat split; lia.
Qed.

Lemma leb_refl d : leb d d = true.
Proof.
  unfold leb, cmp.
  assert (H : ∀ l, tuple_cmp l l = Eq).
  { induction l as [|x l IH]; [done|]. cbn. by rewrite Z.compare_refl. }
  by rewrite H.
Qed.

End DefaultWindow.

(** [X17] With no dates on the command line and both clock readings on the
    same day, [main] runs the scraper on the window from yesterday's
    midnight to today's, and the output is named after yesterday twice:
    [cryptopanic_<yesterday>_<yesterday>.json]. *)
Theorem main_default_window env args now_start now_end fuel w key coins :
  load_info (coins_file args) w =
    Some (inr (JString key, JList (JString <$> coins))) →
  Z.abs (timedelta_arg args) ≤ 999999999 →
  truthy (start_date_arg args) = None →
  truthy (end_date_arg args) = None →
  valid now_start = true →
  same_date now_start now_end →
  1 < toordinal now_start →
  let today := midnight now_start in
  let yesterday := previous_day today in
  let scraper :=
    init coins key yesterday today (timedelta_days (timedelta_arg args))
         (Some (bucket_name_arg args)) (lambda_name_arg args) in
  main env args now_start now_end fuel w =
    match run env scraper fuel w with
    | Some (_, w') => Completed w'
    | None => Beyond
    end ∧
  sub (end_date scraper) (timedelta_days 1) = Some yesterday ∧
  file_name_of (start_date scraper) yesterday =
    "cryptopanic_" +:+ strftime_ymd "-" yesterday +:+ "_"
    +:+ strftime_ymd "-" yesterday +:+ ".json".
Proof.
  intros Hconfig Hdays Hstart Hend Hvalid (Hy & Hm & Hd) Hfirst
    today yesterday scraper.
  assert (Hsub : sub today (timedelta_days 1) = Some yesterday).
  { apply sub_one_day; [by apply valid_midnight|exact Hfirst]. }
  assert (Hsame : midnight now_end = today).
  { unfold today, midnight. by rewrite Hy, Hm, Hd. }
  split; [|split; [exact Hsub|reflexivity]].
  unfold main. rewrite Hconfig.
  assert ((999999999 <? Z.abs (timedelta_arg args)) = false) as ->
    by (apply Z.ltb_ge; lia).
  unfold readable, start_date_of, end_date_of.
  rewrite Hstart, Hend, Hsame. fold today. rewrite Hsub.
  cbn [as_str as_str_list]. rewrite mapM_as_str. fold yesterday. fold scraper.
  by rewrite (run_raised_None env scraper fuel w yesterday Hsub).
Qed.

Lemma main_default_window_witness :
  main env_busy args_local morning morning 20 world_with_config =
    match run env_busy
            (init ["BTC"%string; "ETH"%string] "secret"
               (previous_day (midnight morning)) (midnight morning)
               (timedelta_days 1) (Some ""%string) "cryptopanic_scraper")
            20 world_with_config with
    | Some (_, w') => Completed w'
    | None => Beyond
    end ∧
  sub (midnight morning) (timedelta_days 1) =
    Some (previous_day (midnight morning)) ∧
  file_name_of (previous_day (midnight morning))
    (previous_day (midnight morning)) =
    "cryptopanic_" +:+ strftime_ymd "-" (previous_day (midnight morning))
    +:+ "_" +:+ strftime_ymd "-" (previous_day (midnight morning))
    +:+ ".json".
Proof.
  apply (main_default_window env_busy args_local morning morning 20
           world_with_config "secret" ["BTC"%string; "ETH"%string]);
    try reflexivity.
  - cbn. lia.
  - by repeat split.
Defined.

Lemma run_destination env self fuel w u w' :
  run env self fuel w = Some (u, w') →
  match truthy (bucket_name self) with
  | Some bucket =>
      files w' = files w ∧
      ∃ key body, s3_calls w' = s3_calls w ++ [(bucket, key, body)]
  | None =>
      s3_calls w' = s3_calls w ∧ s3_store w' = s3_store w ∧
      ∃ name body, files w' = <[name := body]> (files w)
  end.
Proof.
  unfold run.
  destruct (while_True_frame env self fuel 1 []) as (out & reqs & lines & Hfr).
  unfold fetch_news. rewrite Hfr.
  destruct out as [posts|p ps]; [|done].
  unfold save_to_files.
  destruct (sub (end_date self) (timedelta_days 1)) as [e|]; [|done].
  destruct (truthy (bucket_name self)) as [bucket|].
  - destruct (put_object env bucket _ _); intros [= <- <-];
      cbn [files s3_calls logged put_called object_stored extend];
      (split; [done|by eexists _, _]).
  - intros [= <- <-]. cbn [files s3_calls s3_store logged file_written extend].
    split; [done|]. split; [done|]. by eexists _, _.
Qed.

(** [X18] Where a completed [main] has put the output is decided by
    [--bucket_name] alone. With a bucket name that is not empty, as the
    default is, it has made exactly one [put_object] call on that bucket
    and has written no local file; with the empty name it has written one
    local file and has made no S3 call. *)
Theorem main_destination env args now_start now_end fuel w w' :
  main env args now_start now_end fuel w = Completed w' →
  (bucket_name_arg args ≠ EmptyString →
   files w' = files w ∧
   ∃ key body,
     s3_calls w' = s3_calls w ++ [(bucket_name_arg args, key, body)]) ∧
  (bucket_name_arg args = EmptyString →
   s3_calls w' = s3_calls w ∧ s3_store w' = s3_store w ∧
   ∃ name body, files w' = <[name := body]> (files w)).
Proof.
  unfold main.
  destruct (load_info (coins_file args) w) as [[e|[key coins]]|]; try done.
  destruct (999999999 <? Z.abs (timedelta_arg args)); [done|].
  destruct (negb _); [done|].
  destruct (start_date_of args now_start) as [e|start]; [done|].
  destruct (end_date_of args now_end) as [e|end_]; [done|].
  destruct (as_str key) as [k|]; [|done].
  destruct (as_str_list coins) as [cs|]; [|done].
  destruct (run env _ fuel w) as [[u w'']|] eqn:Hrun;
    [|by destruct (run_raised _ _ _ _)].
  intros [= <-]. apply run_destination in Hrun.
  cbn [bucket_name init] in Hrun.
  destruct (bucket_name_arg args) as [|c name]; cbn [truthy] in Hrun.
  - split; [done|]. by intros _.
  - split; [by intros _|done].
Qed.

Lemma main_destination_witness :
  s3_calls
    (world_of (main env_busy args_local morning morning 20 world_with_config))
    = s3_calls world_with_config ∧
  s3_store
    (world_of (main env_busy args_local morning morning 20 world_with_config))
    = s3_store world_with_config ∧
  ∃ name body,
    files
      (world_of (main env_busy args_local morning morning 20
                   world_with_config))
    = <[name := body]> (files world_with_config).
Proof.
  apply (main_destination env_busy args_local morning morning 20
           world_with_config
           (world_of (main env_busy args_local morning morning 20
                        world_with_config))).
  - vm_compute. reflexivity.
  - reflexivity.
Defined.

(** ** Windows that meet *)

(** [X19] The window is closed at both ends, so windows that meet share
    their meeting point: when one run ends where the next one starts, an
    item published at exactly that instant, on a page both calls to
    [fetch_news] have asked for, is held by both with the same record
    (unless the last request of a call failed). *)
Theorem boundary_item_is_recorded_twice
    env self1 self2 fuel1 fuel2 w1 w2 (k1 k2 : nat) post published :
  end_date self1 = start_date self2 →
  leb (start_date self1) (end_date self1) = true →
  leb (start_date self2) (end_date self2) = true →
  parsed env post = Some published →
  published = end_date self1 →
  http_log (fetch_news env self1 fuel1 w1).2 =
    http_log w1 ++ requests_of self1 k1 →
  page_ok env self1 (Z.of_nat k1) = true →
  post ∈ items_seen env self1 k1 →
  http_log (fetch_news env self2 fuel2 w2).2 =
    http_log w2 ++ requests_of self2 k2 →
  page_ok env self2 (Z.of_nat k2) = true →
  post ∈ items_seen env self2 k2 →
  let record :=
    mk_NewsRecord (isoformat published) (format_title (title post)) in
  record ∈ posts_of (fetch_news env self1 fuel1 w1).1 ∧
  record ∈ posts_of (fetch_news env self2 fuel2 w2).1.
Proof.
  intros Hmeet Hw1 Hw2 Hparsed -> Hlog1 Hok1 Hin1 Hlog2 Hok2 Hin2 record.
  split.
  - eapply fetch_news_records_seen; try done.
    unfold window_record, in_window. rewrite Hparsed. cbn [mbind option_bind].
    by rewrite Hw1, leb_refl.
  - eapply fetch_news_records_seen; try done.
    assert (H1 : leb (start_date self2) (end_date self1) = true)
      by (rewrite Hmeet; apply leb_refl).
    assert (H2 : leb (end_date self1) (end_date self2) = true)
      by (by rewrite Hmeet).
    unfold window_record, in_window. rewrite Hparsed. cbn [mbind option_bind].
    by rewrite H1, H2.
Qed.

Lemma boundary_item_is_recorded_twice_witness :
  let record :=
    mk_NewsRecord (isoformat (mk_datetime 2024 1 2 0 0 0 0))
                  (format_title (title post_midnight)) in
  record ∈ posts_of (fetch_news env_midnight scraper_btc 3 empty_world).1 ∧
  record ∈ posts_of (fetch_news env_midnight scraper_next_day 3 empty_world).1.
Proof.
  apply (boundary_item_is_recorded_twice env_midnight scraper_btc
           scraper_next_day 3 3 empty_world empty_world 3 3 post_midnight
           (mk_datetime 2024 1 2 0 0 0 0)); try reflexivity;
    apply list_elem_of_here.
Defined.

(** ** Dates given on the command line *)

Lemma py_strptime_date_ymd_text d :
  valid d = true →
  py_strptime_date (ymd_text "-" d) = Some (midnight d).
Proof.
  intros Hvalid. pose proof (valid_midnight d Hvalid) as Hmid.
  rewrite valid_spec in Hvalid.
  destruct Hvalid as (Hy & Hm & Hd & _).
  pose proof (days_in_month_bounds (year d) (month d) Hm).
  unfold ymd_text, py_strptime_date.
  rewrite <-(append_nil_r (zfill 2 (day d))).
  rewrite four_digits_zfill by lia. read_literal.
  unfold month_field. rewrite field_zfill; [|lia|].
  2:{ rewrite orb_true_iff, !andb_true_iff, !Z.eqb_eq, !Z.leb_le.
      Z.div_mod_to_equations. lia. }
  read_literal. rewrite day_field_zfill by lia. read_literal.
  fold (midnight d). by rewrite Hmid.
Qed.

Lemma truthy_ymd_text sep d :
  truthy (Some (ymd_text sep d)) = Some (ymd_text sep d).
Proof. reflexivity. Qed.

Lemma is_ascii_ymd_text d : is_ascii (ymd_text "-" d) = true.
Proof. unfold ymd_text. by rewrite !is_ascii_append, !is_ascii_zfill. Qed.

(** [X20] Dates given as [--start_date YYYY-MM-DD] and
    [--end_date YYYY-MM-DD]: [main] runs the scraper on the window from the
    midnight that starts the first to the midnight that starts the second,
    whatever the clock says, and the output is named
    [cryptopanic_<start date>_<day before the end date>.json] with the
    dates as [strftime] writes them. From the year 1000 on the start date
    stands in the name exactly as it was given; a start date before the
    year 1000 does not, its year losing the zeros it was given with. *)
Theorem main_given_window env args now_start now_end fuel w key coins a b :
  load_info (coins_file args) w =
    Some (inr (JString key, JList (JString <$> coins))) →
  Z.abs (timedelta_arg args) ≤ 999999999 →
  valid a = true → valid b = true → 1 < toordinal b →
  start_date_arg args = Some (ymd_text "-" a) →
  end_date_arg args = Some (ymd_text "-" b) →
  let scraper :=
    init coins key (midnight a) (midnight b)
         (timedelta_days (timedelta_arg args))
         (Some (bucket_name_arg args)) (lambda_name_arg args) in
  let file_name := file_name_of (start_date scraper) (previous_day (midnight b)) in
  main env args now_start now_end fuel w =
    match run env scraper fuel w with
    | Some (_, w') => Completed w'
    | None => Beyond
    end ∧
  sub (end_date scraper) (timedelta_days 1) = Some (previous_day (midnight b)) ∧
  file_name =
    "cryptopanic_" +:+ strftime_ymd "-" a +:+ "_"
    +:+ strftime_ymd "-" (previous_day b) +:+ ".json" ∧
  (1000 ≤ year a → 1000 ≤ year (previous_day b) →
   file_name =
     "cryptopanic_" +:+ ymd_text "-" a +:+ "_"
     +:+ ymd_text "-" (previous_day b) +:+ ".json") ∧
  (year a < 1000 →
   ∀ rest, file_name ≠ "cryptopanic_" +:+ ymd_text "-" a +:+ rest).
Proof.
  intros Hconfig Hdays Ha Hb Hfirst Hstart Hend scraper file_name.
  assert (Hsub : sub (end_date scraper) (timedelta_days 1) =
                 Some (previous_day (midnight b))).
  { apply sub_one_day; [by apply valid_midnight|exact Hfirst]. }
  assert (Hname : file_name =
    "cryptopanic_" +:+ strftime_ymd "-" a +:+ "_"
    +:+ strftime_ymd "-" (previous_day b) +:+ ".json").
  { unfold file_name, file_name_of, strftime_ymd, previous_day, midnight.
    cbn [year month day start_date init scraper].
    by destruct (1 <? day b), (1 <? month b). }
  split; [|split; [exact Hsub|split; [exact Hname|split]]].
  - unfold main. rewrite Hconfig.
    assert ((999999999 <? Z.abs (timedelta_arg args)) = false) as ->
      by (apply Z.ltb_ge; lia).
    unfold readable, start_date_of, end_date_of.
    rewrite Hstart, Hend, !truthy_ymd_text, !is_ascii_ymd_text.
    rewrite !py_strptime_date_ymd_text by done.
    cbn [as_str as_str_list]. rewrite mapM_as_str. fold scraper.
    by rewrite (run_raised_None env scraper fuel w _ Hsub).
  - intros Hya Hyb. rewrite Hname. by rewrite !strftime_ymd_four_digits.
  - intros Hya rest Heq. rewrite Hname in Heq.
    apply String.app_inj in Heq.
    pose proof Ha as Hv. rewrite valid_spec in Hv.
    destruct Hv as (Hy & _).
    destruct (decimal_zfill (year a) ltac:(lia)) as (n & Hn & Hdec & Hlt).
    unfold strftime_ymd, ymd_text in Heq. rewrite Hdec in Heq.
    rewrite !append_assoc in Heq.
    change ("-" +:+ ?x) with (String "-" x) in Heq.
    assert (n ≠ 4%nat) as Hn4.
    { intros ->. destruct (decimal_length (year a)) as [_ Hshort].
      specialize (Hshort Hya). rewrite Hdec, zfill_length in Hshort. lia. }
    destruct n as [|[|[|[|[|n]]]]]; try lia; try done;
      cbn [zfill append] in Heq; simplify_eq;
      match goal with
      | H : _ = digit _ |- _ => symmetry in H; by apply digit_neq in H
      | H : digit _ = _ |- _ => by apply digit_neq in H
      end.
Qed.

Lemma main_given_window_witness :
  file_name_of (midnight (mk_datetime 2024 2 28 0 0 0 0))
    (previous_day (midnight (mk_datetime 2024 3 1 0 0 0 0))) =
  "cryptopanic_" +:+ strftime_ymd "-" (mk_datetime 2024 2 28 0 0 0 0) +:+ "_"
  +:+ strftime_ymd "-" (previous_day (mk_datetime 2024 3 1 0 0 0 0))
  +:+ ".json".
Proof.
  exact (proj1 (proj2 (proj2
    (main_given_window env_busy
       (mk_Args "coins.json" (Some "2024-02-28"%string)
                (Some "2024-03-01"%string) 1 "" "cryptopanic_scraper")
       morning morning 20 world_with_config "secret"
       ["BTC"%string; "ETH"%string]
       (mk_datetime 2024 2 28 0 0 0 0) (mk_datetime 2024 3 1 0 0 0 0)
       eq_refl ltac:(cbn; lia) eq_refl eq_refl eq_refl eq_refl eq_refl)))).
Defined.

(** ** What the default run writes *)

Section Yesterday.

Lemma cmp_date_lt a b : date_lt a b → cmp a b = Lt.
Proof.
  unfold date_lt, cmp, fields. cbn [tuple_cmp].
  intros [Hy|[Hy [Hm|[Hm Hd]]]].
  - by rewrite (proj2 (Z.compare_lt_iff _ _) Hy).
  - rewrite Hy, Z.compare_refl. by rewrite (proj2 (Z.compare_lt_iff _ _) Hm).
  - rewrite Hy, Hm, !Z.compare_refl.
    by rewrite (proj2 (Z.compare_lt_iff _ _) Hd).
Qed.

Lemma cmp_same_date a b :
  same_date a b →
  cmp a b =
  tuple_cmp [hour a; minute a; second a; microsecond a]
            [hour b; minute b; second b; microsecond b].
Proof.
  intros (Hy & Hm & Hd). unfold cmp, fields. cbn [tuple_cmp].
  by rewrite Hy, Hm, Hd, !Z.compare_refl.
Qed.

Lemma leb_date a b : leb a b = true → date_lt a b ∨ same_date a b.
Proof.
  unfold leb, cmp, fields, date_lt, same_date. cbn [tuple_cmp].
  destruct (Z.compare_spec (year a) (year b)); [|by intros _; left; left|done].
  destruct (Z.compare_spec (month a) (month b));
    [|by intros _; left; right; split; [|left]|done].
  destruct (Z.compare_spec (day a) (day b)); [by right| |done].
  intros _. left. right. split; [done|]. right. by split.
Qed.

Lemma previous_day_date_lt d : date_lt (previous_day d) d.
Proof.
  unfold date_lt, previous_day.
  destruct (1 <? day d) eqn:Hd; [|destruct (1 <? month d) eqn:Hm];
    cbn [year month day].
  - right. split; [done|]. right. split; [done|lia].
  - right. split; [done|]. left. lia.
  - left. lia.
Qed.

(** No date lies between a day and the day before it. *)
Lemma previous_day_adjacent d p :
  valid d = true → valid p = true →
  date_lt (previous_day d) p → date_lt p d → False.
Proof.
  rewrite !valid_spec.
  intros (Hy & Hm & Hd & _) (Hpy & Hpm & Hpd & _).
  pose proof (days_in_month_bounds (year p) (month p) Hpm) as Hdim.
  unfold date_lt, previous_day.
  destruct (Z.ltb_spec 1 (day d)); [|destruct (Z.ltb_spec 1 (month d))];
    cbn [year month day]; intros Hlo Hhi.
  - lia.
  - destruct Hlo as [?|[Hy1 [?|[Hm1 Hd1]]]]; try lia.
    rewrite <-Hy1, <-Hm1 in Hpd. lia.
  - lia.
Qed.

Lemma midnight_le_same_date a p :
  same_date a p →
  hour a = 0 → minute a = 0 → second a = 0 → microsecond a = 0 →
  0 ≤ hour p → 0 ≤ minute p → 0 ≤ second p → 0 ≤ microsecond p →
  leb a p = true ∧ (leb p a = true → p = a).
Proof.
  intros Hsame Hh Hm Hs Hus Hph Hpm Hps Hpus.
  unfold leb. rewrite (cmp_same_date a p Hsame).
  assert (Hsame' : same_date p a) by (destruct Hsame as (? & ? & ?); by split).
  rewrite (cmp_same_date p a Hsame'). rewrite Hh, Hm, Hs, Hus.
  cbn [tuple_cmp]. split.
  - destruct (Z.compare_spec 0 (hour p)); try done; try lia.
    destruct (Z.compare_spec 0 (minute p)); try done; try lia.
    destruct (Z.compare_spec 0 (second p)); try done; try lia.
    destruct (Z.compare_spec 0 (microsecond p)); try done; lia.
  - destruct Hsame as (Hy & Hmo & Hd).
    destruct (Z.compare_spec (hour p) 0); try done; try lia.
    destruct (Z.compare_spec (minute p) 0); try done; try lia.
    destruct (Z.compare_spec (second p) 0); try done; try lia.
    destruct (Z.compare_spec (microsecond p) 0); try done; try lia.
    intros _. destruct a, p. cbn in *. congruence.
Qed.

(** The window from the midnight that starts yesterday to the midnight
    that starts today holds the whole of yesterday and, of today, the
    stroke of midnight only. *)
Lemma one_day_window d p :
  valid d = true → valid p = true →
  let today := midnight d in
  leb (previous_day today) p && leb p today = true ↔
  same_date p (previous_day today) ∨ p = today.
Proof.
  intros Hd Hp today.
  pose proof (valid_midnight d Hd) as Htoday. fold today in Htoday.
  pose proof Hp as Hv. rewrite valid_spec in Hv.
  destruct Hv as (_ & _ & _ & Hh & Hm & Hs & Hus).
  assert (Hzero : hour (previous_day today) = 0 ∧ minute (previous_day today) = 0 ∧
                  second (previous_day today) = 0 ∧
                  microsecond (previous_day today) = 0).
  { unfold previous_day. by destruct (1 <? day today), (1 <? month today). }
  destruct Hzero as (Hz1 & Hz2 & Hz3 & Hz4).
  rewrite andb_true_iff. split.
  - intros [Hlo Hhi].
    destruct (leb_date _ _ Hlo) as [Hlo'|Hlo'].
    + destruct (leb_date _ _ Hhi) as [Hhi'|Hhi'].
      * destruct (previous_day_adjacent today p Htoday Hp Hlo' Hhi').
      * right.
        assert (Hsame : same_date today p)
          by (destruct Hhi' as (? & ? & ?); by split).
        destruct (midnight_le_same_date today p Hsame) as [_ Hback];
          try done; try lia.
        by apply Hback.
    + left. destruct Hlo' as (? & ? & ?). by split.
  - intros [Hsame| ->].
    + assert (Hsame' : same_date (previous_day today) p)
        by (destruct Hsame as (? & ? & ?); by split).
      destruct (midnight_le_same_date (previous_day today) p Hsame')
        as [-> _]; try done; try lia.
      split; [done|]. unfold leb.
      rewrite (cmp_date_lt p today); [done|].
      pose proof (previous_day_date_lt today) as Hlt.
      destruct Hsame as (Hy & Hmo & Hdd). unfold date_lt in *.
      by rewrite Hy, Hmo, Hdd.
    + split; [|apply leb_refl]. unfold leb.
      by rewrite (cmp_date_lt _ _ (previous_day_date_lt today)).
Qed.

End Yesterday.

Lemma run_Some env self fuel w u w' :
  run env self fuel w = Some (u, w') →
  ∃ posts w1,
    fetch_news env self fuel (logged info_scraping_started w) =
      (Returned posts, w1) ∧
    save_to_files env self posts
      (logged (info_scraping_completed (length posts)) w1) = Some (u, w').
Proof.
  unfold run.
  destruct (fetch_news env self fuel _) as [[posts|p ps] w1]; [|done].
  intros H. by exists posts, w1.
Qed.

(** [X21] What a completed [main] has written when no dates were given and
    both clock readings fall on the same day. The scraper it ran had the
    window from the midnight that starts yesterday to the midnight that
    starts today; the output, in the local file or in the one call to the
    bucket, named after yesterday twice, is the list the scraper's
    [fetch_news] returned; every record in it is that of an item seen whose
    timestamp falls on yesterday's date or is today's midnight itself; and
    (unless the last request failed) every such item seen has its record in
    it. The timestamps here are dates and times that exist, as [strptime]
    yields them. *)
Theorem default_run_writes_yesterday
    env args now_start now_end fuel w key coins w' :
  load_info (coins_file args) w =
    Some (inr (JString key, JList (JString <$> coins))) →
  Z.abs (timedelta_arg args) ≤ 999999999 →
  truthy (start_date_arg args) = None →
  truthy (end_date_arg args) = None →
  valid now_start = true →
  same_date now_start now_end →
  1 < toordinal now_start →
  (∀ s d, strptime env s = Some d → valid d = true) →
  main env args now_start now_end fuel w = Completed w' →
  let today := midnight now_start in
  let yesterday := previous_day today in
  let scraper :=
    init coins key yesterday today (timedelta_days (timedelta_arg args))
         (Some (bucket_name_arg args)) (lambda_name_arg args) in
  let file_name := file_name_of yesterday yesterday in
  ∃ posts w1 (k : nat),
    fetch_news env scraper fuel (logged info_scraping_started w) =
      (Returned posts, w1) ∧
    http_log w' = http_log w ++ requests_of scraper k ∧
    (bucket_name_arg args = EmptyString →
     files w' !! file_name = Some (dumps 4 (news_value posts))) ∧
    (bucket_name_arg args ≠ EmptyString →
     s3_calls w' =
       s3_calls w ++
       [(bucket_name_arg args,
         strftime_ymd "/" yesterday +:+ "/" +:+ file_name,
         dumps 4 (news_value posts))]) ∧
    (∀ r, r ∈ posts →
       ∃ post published,
         post ∈ items_seen env scraper k ∧
         parsed env post = Some published ∧
         r = mk_NewsRecord (isoformat published) (format_title (title post)) ∧
         (same_date published yesterday ∨ published = today)) ∧
    (page_ok env scraper (Z.of_nat k) = true →
     ∀ post published,
       post ∈ items_seen env scraper k →
       parsed env post = Some published →
       same_date published yesterday ∨ published = today →
       mk_NewsRecord (isoformat published) (format_title (title post)) ∈ posts).
Proof.
  intros Hconfig Hdays Hstart Hend Hvalid (Hy & Hm & Hd) Hfirst Hparser Hmain
    today yesterday scraper file_name.
  assert (Hsub : sub today (timedelta_days 1) = Some yesterday).
  { apply sub_one_day; [by apply valid_midnight|exact Hfirst]. }
  assert (Hsame : midnight now_end = today).
  { unfold today, midnight. by rewrite Hy, Hm, Hd. }
  assert (Hrun : ∃ u, run env scraper fuel w = Some (u, w')).
  { revert Hmain. unfold main. rewrite Hconfig.
    assert ((999999999 <? Z.abs (timedelta_arg args)) = false) as ->
      by (apply Z.ltb_ge; lia).
    unfold readable, start_date_of, end_date_of.
    rewrite Hstart, Hend, Hsame. fold today. rewrite Hsub.
    cbn [as_str as_str_list]. rewrite mapM_as_str. fold yesterday. fold scraper.
    destruct (run env scraper fuel w) as [[u w'']|];
      [|by destruct (run_raised _ _ _ _)].
    intros [= <-]. by exists u. }
  destruct Hrun as (u & Hrun).
  apply run_Some in Hrun as (posts & w1 & Hfetch & Hsave).
  destruct (fetch_news_spec env scraper fuel (logged info_scraping_started w))
    as (k & _ & Hspec).
  rewrite Hfetch in Hspec. destruct Hspec as (Hh & _ & Hc & _ & _ & _ & Hlast).
  cbn [http_log s3_calls logged] in Hh, Hc.
  assert (Hvalid_parsed : ∀ post published,
            parsed env post = Some published → valid published = true).
  { intros post published Hparsed. unfold parsed in Hparsed.
    destruct (published_at post) as [stamp|]; [|done]. by apply (Hparser stamp). }
  exists posts, w1, k. split; [done|].
  split; [|split; [|split; [|split]]].
  - apply save_to_files_effects in Hsave as (-> & _). exact Hh.
  - intros Hbucket. unfold save_to_files in Hsave.
    change (end_date scraper) with today in Hsave. rewrite Hsub in Hsave.
    change (bucket_name scraper) with (Some (bucket_name_arg args)) in Hsave.
    rewrite Hbucket in Hsave. cbn [truthy] in Hsave.
    injection Hsave as _ <-. cbn [files logged file_written].
    apply lookup_insert_eq.
  - intros Hbucket. unfold save_to_files in Hsave.
    change (end_date scraper) with today in Hsave. rewrite Hsub in Hsave.
    change (bucket_name scraper) with (Some (bucket_name_arg args)) in Hsave.
    destruct (bucket_name_arg args) as [|c name]; [done|].
    cbn [truthy] in Hsave.
    destruct (put_object env _ _ _); injection Hsave as _ <-;
      cbn [s3_calls logged put_called object_stored]; by rewrite Hc.
  - intros r Hr.
    assert (Hfrom : ∃ post, post ∈ items_seen env scraper k ∧
                            window_record env scraper post = Some r).
    { destruct Hlast as [(_ & ->)|(_ & _ & ->)];
        [by apply elem_of_nil in Hr|].
      unfold window_records in Hr.
      apply list_elem_of_omap in Hr as (post & Hin & Hrec). by exists post. }
    destruct Hfrom as (post & Hin & Hrec).
    apply window_record_Some in Hrec as (published & Hparsed & Hlo & Hhi & ->).
    exists post, published. repeat split; try done.
    apply (one_day_window now_start published Hvalid
             (Hvalid_parsed _ _ Hparsed)).
    apply andb_true_iff. by split.
  - intros Hok post published Hin Hparsed Hwhen.
    destruct Hlast as [(Hfail & _)|(_ & _ & ->)]; [congruence|].
    unfold window_records. apply list_elem_of_omap. exists post.
    split; [exact Hin|].
    apply (one_day_window now_start published Hvalid
             (Hvalid_parsed _ _ Hparsed)) in Hwhen.
    unfold window_record, in_window. rewrite Hparsed. cbn [mbind option_bind].
    change (start_date scraper) with (previous_day (midnight now_start)).
    change (end_date scraper) with (midnight now_start).
    by rewrite Hwhen.
Qed.

Lemma default_run_writes_yesterday_witness :
  ∃ posts w1 (k : nat),
    fetch_news env_busy
      (init ["BTC"%string; "ETH"%string] "secret"
         (previous_day (midnight morning)) (midnight morning)
         (timedelta_days 1) (Some ""%string) "cryptopanic_scraper")
      20 (logged info_scraping_started world_with_config) =
      (Returned posts, w1) ∧
    http_log (world_of (main env_busy args_local morning morning 20
                          world_with_config)) =
      http_log world_with_config ++
      requests_of
        (init ["BTC"%string; "ETH"%string] "secret"
           (previous_day (midnight morning)) (midnight morning)
           (timedelta_days 1) (Some ""%string) "cryptopanic_scraper") k.
Proof.
  assert (Hmain : main env_busy args_local morning morning 20
                    world_with_config =
                  Completed
                    (world_of (main env_busy args_local morning morning 20
                                 world_with_config))).
  { vm_compute. reflexivity. }
  destruct (default_run_writes_yesterday env_busy args_local morning morning
              20 world_with_config "secret" ["BTC"%string; "ETH"%string] _
              eq_refl ltac:(cbn; lia) eq_refl eq_refl eq_refl
              ltac:(by repeat split) eq_refl
              ltac:(intros s d H; by apply (py_strptime_valid s d)) Hmain)
    as (posts & w1 & k & Hfetch & Hlog & _).
  exists posts, w1, k. by split.
Defined.

(** ** Line breaks in the output *)

Section Lines.

Lemma count_char_append c a b :
  count_char c (a +:+ b) = (count_char c a + count_char c b)%nat.
Proof. induction a as [|x a IH]; cbn; [done|rewrite IH; lia]. Qed.

Lemma count_newline_escape_char c :
  count_char newline
    (match escape_char c with
     | Some e => e
     | None => String c EmptyString
     end) = O.
Proof. destruct c as [[] [] [] [] [] [] [] []]; reflexivity. Qed.

Lemma count_newline_escape s : count_char newline (escape s) = O.
Proof.
  induction s as [|c s IH]; [done|].
  pose proof (count_newline_escape_char c) as Hc. cbn [escape].
  destruct (escape_char c) as [e|].
  - by rewrite count_char_append, Hc, IH.
  - change (String c (escape s)) with (String c EmptyString +:+ escape s).
    by rewrite count_char_append, Hc, IH.
Qed.

Lemma count_newline_encode_basestring s :
  count_char newline (encode_basestring s) = O.
Proof.
  unfold encode_basestring.
  change (String dquote ?x) with (String dquote EmptyString +:+ x).
  by rewrite !count_char_append, count_newline_escape.
Qed.

Lemma count_newline_record_text r : count_char newline (record_text r) = 3%nat.
Proof.
  unfold record_text.
  rewrite !count_char_append, !count_newline_encode_basestring. reflexivity.
Qed.

Lemma count_newline_records r rs :
  count_char newline
    (String.concat ("," +:+ String newline "    ")
       (map record_text (r :: rs))) =
  (3 + 4 * length rs)%nat.
Proof.
  revert r. induction rs as [|r' rs IH]; intros r.
  - cbn [map String.concat length]. rewrite count_newline_record_text. lia.
  - change (String.concat ?sep (map ?f (r :: r' :: rs)))
      with (f r +:+ sep +:+ String.concat sep (map f (r' :: rs))).
    rewrite !count_char_append, count_newline_record_text, IH.
    cbn [length]. change (count_char newline ",") with O.
    change (count_char newline (String newline "    ")) with 1%nat. lia.
Qed.

End Lines.

(** [X22] Line feeds inside dates and texts are escaped, so the lines of
    the output are those of its layout: an empty list is the one line [[]],
    and [N] records make exactly [4 * N + 2] lines, four per record between
    the two brackets. *)
Theorem output_line_breaks news_list :
  count_char newline (dumps 4 (news_value news_list)) =
  match news_list with
  | [] => O
  | _ :: _ => (4 * length news_list + 1)%nat
  end.
Proof.
  rewrite dumps_news_value. destruct news_list as [|r rs]; [reflexivity|].
  unfold document_text.
  rewrite !count_char_append, count_newline_records. cbn [length].
  change (count_char newline "[") with O.
  change (count_char newline (String newline "    ")) with 1%nat.
  change (count_char newline (String newline "]")) with 1%nat. lia.
Qed.
